(** * The toolbar of the CORE GUI (daemon/core/gui/toolbar.py)

    A shallow embedding of the toolbar widget: the Tk widgets it creates, the
    attributes of the [Toolbar] object, the collaborators it calls (canvas,
    menubar, core client, error dialog, task runner) and its methods, written
    in a state-and-exception monad over the application state.

    Layout, text and logging (grid, columnconfigure, place coordinates, button
    labels, Tooltip, logging.debug) have no effect on the state studied here
    and are left out of the method bodies. *)

From stdpp Require Import base list strings sorting gmap.
From Stdlib Require Import ZArith.

Local Open Scope string_scope.
Local Open Scope list_scope.
Local Open Scope nat_scope.

(** ** Constants and enumerations *)

Definition TOOLBAR_SIZE : Z := 32%Z.
Definition PICKER_SIZE : Z := 24%Z.

Module NodeTypeEnum.
Inductive t := NODE | NETWORK | OTHER.
Definition value (x : t) : Z :=
  match x with NODE => 0%Z | NETWORK => 1%Z | OTHER => 2%Z end.
End NodeTypeEnum.

(** [core.gui.images.ImageEnum]: the members the toolbar names, and [Named]
    for the other members of the catalogue. Every member is truthy. *)
Module ImageEnum.
Inductive t :=
| START | STOP | SELECT | LINK | ROUTER | HUB | MARKER | OVAL | RECTANGLE
| TEXT | RUN | OBSERVE
| Named (name : string).
End ImageEnum.

(** [core.gui.graph.enums.GraphMode]: the modes of the canvas. *)
Module GraphMode.
Inductive t := SELECT | EDGE | PICKNODE | NODE | ANNOTATION | OTHER.
End GraphMode.

(** [core.gui.graph.shapeutils.ShapeType]. *)
Module ShapeType.
Inductive t := MARKER | OVAL | RECTANGLE | TEXT.
End ShapeType.

(** [is_marker] of [core.gui.graph.shapeutils], which is not part of the
    sources: taken as the test its name states. *)
Definition is_marker (shape_type : ShapeType.t) : bool :=
  match shape_type with ShapeType.MARKER => true | _ => false end.

(** The images handed out by the icon provider ([app.get_icon] and
    [app.get_custom_icon]): one pre-rendered image per source and size. *)
Inductive PhotoImage :=
| Icon (image_enum : ImageEnum.t) (size : Z)
| CustomIcon (image_file : string) (size : Z).

Definition get_icon (image_enum : ImageEnum.t) (size : Z) : PhotoImage :=
  Icon image_enum size.
Definition get_custom_icon (image_file : string) (size : Z) : PhotoImage :=
  CustomIcon image_file size.

(** [core.gui.nodeutils.NodeDraw], with the attributes the toolbar reads. *)
Module NodeDraw.
Record t := mk {
  label : string;
  image_enum : option ImageEnum.t;
  image_file : option string
}.
End NodeDraw.

(** Python truthiness of an optional string: [None] and the empty string are false. *)
Definition str_truthy (o : option string) : bool :=
  match o with
  | Some s => negb (String.eqb s EmptyString)
  | None => false
  end.

(** Python's [sep.join(xs)]. *)
Fixpoint join (sep : string) (xs : list string) : string :=
  match xs with
  | [] => EmptyString
  | [x] => x
  | x :: rest => (x ++ sep ++ join sep rest)%string
  end.

(** ** Callbacks

    The bound methods and [partial] objects the toolbar hands to Tk and to the
    task runner, by the method they call and the arguments already fixed. A
    widget is referred to by its index in the widget store; an attribute that
    may still be [None] is an [option]. *)

Inductive Command :=
| do_click_start
| do_click_selection
| do_click_link
| do_draw_node_picker
| do_draw_network_picker
| do_draw_annotation_picker
| do_click_stop
| do_click_runtime_selection
| do_click_marker_button
| do_click_run_button.

#[global] Instance Command_eq_dec : EqDecision Command.
Proof. solve_decision. Defined.

(** A callback of a picker option: it still awaits the toolbar-size image. *)
Inductive OptionFunc :=
| partial_update_button (button : option nat) (node_draw : NodeDraw.t)
    (type_enum : NodeTypeEnum.t)
| partial_update_annotation (shape_type : ShapeType.t)
    (image_enum : ImageEnum.t).

Inductive TaskCallback := do_start_callback | do_stop_callback.

(** The two calls of the session service and what they answer. *)
Inductive Operation := start_session | stop_session.

Inductive Response :=
| StartSessionResponse (result : bool) (exceptions : list string)
| StopSessionResponse (result : bool).

Definition answers (op : Operation) (r : Response) : bool :=
  match op, r with
  | start_session, StartSessionResponse _ _ => true
  | stop_session, StopSessionResponse _ => true
  | _, _ => false
  end.

(** ** Widgets

    A Tk widget is an object with identity: the store keeps the buttons, the
    button bars and the picker frames in creation order, and a widget is
    named by its position in its list. *)

Module Button.
(** A [ttk.Button]: its [image] option, the Python attribute [image] that
    keeps the picture alive, the [disabled] and [pressed] state flags, its
    [command], and its own binding for [<ButtonRelease-1>] (a picker
    option: the callback and the toolbar-size image it is called with). *)
Record t := mk {
  image : option PhotoImage;
  image_attr : option PhotoImage;
  disabled : bool;
  pressed : bool;
  command : option Command;
  release : option (OptionFunc * PhotoImage)
}.
Definition set_image v b :=
  mk v (image_attr b) (disabled b) (pressed b) (command b) (release b).
Definition set_image_attr v b :=
  mk (image b) v (disabled b) (pressed b) (command b) (release b).
Definition set_disabled v b :=
  mk (image b) (image_attr b) v (pressed b) (command b) (release b).
Definition set_pressed v b :=
  mk (image b) (image_attr b) (disabled b) v (command b) (release b).
Definition set_release v b :=
  mk (image b) (image_attr b) (disabled b) (pressed b) (command b) v.
End Button.

Module Bar.
(** A [ButtonBar] frame: [radio_buttons], and its Tk children in creation
    order (what [winfo_children] returns). *)
Record t := mk {
  radio_buttons : list nat;
  children : list nat
}.
Definition set_radio_buttons v f := mk v (children f).
Definition set_children v f := mk (radio_buttons f) v.
End Bar.

Module Picker.
(** A [PickerFrame]: the toolbar button it belongs to, its option buttons,
    whether it has been placed on screen and whether it was destroyed. *)
Record t := mk {
  button : option nat;
  children : list nat;
  placed : bool;
  destroyed : bool
}.
Definition set_children v p := mk (button p) v (placed p) (destroyed p).
Definition set_placed v p := mk (button p) (children p) v (destroyed p).
Definition set_destroyed v p := mk (button p) (children p) (placed p) v.
Definition is_open (p : t) : bool := placed p && negb (destroyed p).
End Picker.

(** The master a button is created in. *)
Inductive Master := in_bar (f : nat) | in_picker (p : nat).

Module Tk.
(** The state of the Tk application: the widget store; the stacking order
    of the button bars (topmost first); the binding of [<ButtonRelease-1>]
    on the tag [all] (the picker that [lambda e: self.destroy()] closes);
    the window holding the pointer grab; the [after(0, ...)] callbacks not
    yet run (the pickers whose [_show] is due); and the [wait_window] calls
    in progress, innermost first. *)
Record t := mk {
  buttons : list Button.t;
  bars : list Bar.t;
  pickers : list Picker.t;
  stacking : list nat;
  binding_all : option nat;
  grab : option nat;
  after : list nat;
  waiting : list nat
}.
Definition set_buttons v k :=
  mk v (bars k) (pickers k) (stacking k) (binding_all k) (grab k) (after k)
     (waiting k).
Definition set_bars v k :=
  mk (buttons k) v (pickers k) (stacking k) (binding_all k) (grab k)
     (after k) (waiting k).
Definition set_pickers v k :=
  mk (buttons k) (bars k) v (stacking k) (binding_all k) (grab k) (after k)
     (waiting k).
Definition set_stacking v k :=
  mk (buttons k) (bars k) (pickers k) v (binding_all k) (grab k) (after k)
     (waiting k).
Definition set_binding_all v k :=
  mk (buttons k) (bars k) (pickers k) (stacking k) v (grab k) (after k)
     (waiting k).
Definition set_grab v k :=
  mk (buttons k) (bars k) (pickers k) (stacking k) (binding_all k) v
     (after k) (waiting k).
Definition set_after v k :=
  mk (buttons k) (bars k) (pickers k) (stacking k) (binding_all k) (grab k)
     v (waiting k).
Definition set_waiting v k :=
  mk (buttons k) (bars k) (pickers k) (stacking k) (binding_all k) (grab k)
     (after k) v.
Definition empty : t := mk [] [] [] [] None None [] [].
End Tk.

Module Canvas.
(** The canvas collaborator: its mutable [mode] and the payload that goes
    with it. *)
Record t := mk {
  mode : GraphMode.t;
  node_draw : option NodeDraw.t;
  annotation_type : option ShapeType.t
}.
Definition set_mode v c := mk v (node_draw c) (annotation_type c).
Definition set_node_draw v c := mk (mode c) v (annotation_type c).
Definition set_annotation_type v c := mk (mode c) (node_draw c) v.
End Canvas.

Module Toolbar_attrs.
(** The attributes of the [Toolbar] object, as [__init__] declares them:
    the design and runtime buttons, the two frames and the current picker,
    the marker dialog, and the sources of the images drawn on the node,
    network and annotation buttons. *)
Record t := mk {
  play_button : option nat;
  select_button : option nat;
  link_button : option nat;
  node_button : option nat;
  network_button : option nat;
  annotation_button : option nat;
  runtime_select_button : option nat;
  stop_button : option nat;
  runtime_marker_button : option nat;
  run_command_button : option nat;
  design_frame : option nat;
  runtime_frame : option nat;
  picker : option nat;
  marker_tool : option nat;
  node_enum : option ImageEnum.t;
  node_file : option string;
  network_enum : option ImageEnum.t;
  annotation_enum : option ImageEnum.t
}.
Definition set_play_button v s :=
  mk v (select_button s) (link_button s) (node_button s) (network_button
     s) (annotation_button s) (runtime_select_button s) (stop_button s)
     (runtime_marker_button s) (run_command_button s) (design_frame s)
     (runtime_frame s) (picker s) (marker_tool s) (node_enum s) (node_file s)
     (network_enum s) (annotation_enum s).
Definition set_select_button v s :=
  mk (play_button s) v (link_button s) (node_button s) (network_button s)
     (annotation_button s) (runtime_select_button s) (stop_button s)
     (runtime_marker_button s) (run_command_button s) (design_frame s)
     (runtime_frame s) (picker s) (marker_tool s) (node_enum s) (node_file s)
     (network_enum s) (annotation_enum s).
Definition set_link_button v s :=
  mk (play_button s) (select_button s) v (node_button s) (network_button
     s) (annotation_button s) (runtime_select_button s) (stop_button s)
     (runtime_marker_button s) (run_command_button s) (design_frame s)
     (runtime_frame s) (picker s) (marker_tool s) (node_enum s) (node_file s)
     (network_enum s) (annotation_enum s).
Definition set_node_button v s :=
  mk (play_button s) (select_button s) (link_button s) v (network_button
     s) (annotation_button s) (runtime_select_button s) (stop_button s)
     (runtime_marker_button s) (run_command_button s) (design_frame s)
     (runtime_frame s) (picker s) (marker_tool s) (node_enum s) (node_file s)
     (network_enum s) (annotation_enum s).
Definition set_network_button v s :=
  mk (play_button s) (select_button s) (link_button s) (node_button s) v
     (annotation_button s) (runtime_select_button s) (stop_button s)
     (runtime_marker_button s) (run_command_button s) (design_frame s)
     (runtime_frame s) (picker s) (marker_tool s) (node_enum s) (node_file s)
     (network_enum s) (annotation_enum s).
Definition set_annotation_button v s :=
  mk (play_button s) (select_button s) (link_button s) (node_button s)
     (network_button s) v (runtime_select_button s) (stop_button s)
     (runtime_marker_button s) (run_command_button s) (design_frame s)
     (runtime_frame s) (picker s) (marker_tool s) (node_enum s) (node_file s)
     (network_enum s) (annotation_enum s).
Definition set_runtime_select_button v s :=
  mk (play_button s) (select_button s) (link_button s) (node_button s)
     (network_button s) (annotation_button s) v (stop_button s)
     (runtime_marker_button s) (run_command_button s) (design_frame s)
     (runtime_frame s) (picker s) (marker_tool s) (node_enum s) (node_file s)
     (network_enum s) (annotation_enum s).
Definition set_stop_button v s :=
  mk (play_button s) (select_button s) (link_button s) (node_button s)
     (network_button s) (annotation_button s) (runtime_select_button s) v
     (runtime_marker_button s) (run_command_button s) (design_frame s)
     (runtime_frame s) (picker s) (marker_tool s) (node_enum s) (node_file s)
     (network_enum s) (annotation_enum s).
Definition set_runtime_marker_button v s :=
  mk (play_button s) (select_button s) (link_button s) (node_button s)
     (network_button s) (annotation_button s) (runtime_select_button s)
     (stop_button s) v (run_command_button s) (design_frame s) (runtime_frame
     s) (picker s) (marker_tool s) (node_enum s) (node_file s) (network_enum
     s) (annotation_enum s).
Definition set_run_command_button v s :=
  mk (play_button s) (select_button s) (link_button s) (node_button s)
     (network_button s) (annotation_button s) (runtime_select_button s)
     (stop_button s) (runtime_marker_button s) v (design_frame s)
     (runtime_frame s) (picker s) (marker_tool s) (node_enum s) (node_file s)
     (network_enum s) (annotation_enum s).
Definition set_design_frame v s :=
  mk (play_button s) (select_button s) (link_button s) (node_button s)
     (network_button s) (annotation_button s) (runtime_select_button s)
     (stop_button s) (runtime_marker_button s) (run_command_button s) v
     (runtime_frame s) (picker s) (marker_tool s) (node_enum s) (node_file s)
     (network_enum s) (annotation_enum s).
Definition set_runtime_frame v s :=
  mk (play_button s) (select_button s) (link_button s) (node_button s)
     (network_button s) (annotation_button s) (runtime_select_button s)
     (stop_button s) (runtime_marker_button s) (run_command_button s)
     (design_frame s) v (picker s) (marker_tool s) (node_enum s) (node_file
     s) (network_enum s) (annotation_enum s).
Definition set_picker v s :=
  mk (play_button s) (select_button s) (link_button s) (node_button s)
     (network_button s) (annotation_button s) (runtime_select_button s)
     (stop_button s) (runtime_marker_button s) (run_command_button s)
     (design_frame s) (runtime_frame s) v (marker_tool s) (node_enum s)
     (node_file s) (network_enum s) (annotation_enum s).
Definition set_marker_tool v s :=
  mk (play_button s) (select_button s) (link_button s) (node_button s)
     (network_button s) (annotation_button s) (runtime_select_button s)
     (stop_button s) (runtime_marker_button s) (run_command_button s)
     (design_frame s) (runtime_frame s) (picker s) v (node_enum s) (node_file
     s) (network_enum s) (annotation_enum s).
Definition set_node_enum v s :=
  mk (play_button s) (select_button s) (link_button s) (node_button s)
     (network_button s) (annotation_button s) (runtime_select_button s)
     (stop_button s) (runtime_marker_button s) (run_command_button s)
     (design_frame s) (runtime_frame s) (picker s) (marker_tool s) v
     (node_file s) (network_enum s) (annotation_enum s).
Definition set_node_file v s :=
  mk (play_button s) (select_button s) (link_button s) (node_button s)
     (network_button s) (annotation_button s) (runtime_select_button s)
     (stop_button s) (runtime_marker_button s) (run_command_button s)
     (design_frame s) (runtime_frame s) (picker s) (marker_tool s) (node_enum
     s) v (network_enum s) (annotation_enum s).
Definition set_network_enum v s :=
  mk (play_button s) (select_button s) (link_button s) (node_button s)
     (network_button s) (annotation_button s) (runtime_select_button s)
     (stop_button s) (runtime_marker_button s) (run_command_button s)
     (design_frame s) (runtime_frame s) (picker s) (marker_tool s) (node_enum
     s) (node_file s) v (annotation_enum s).
Definition set_annotation_enum v s :=
  mk (play_button s) (select_button s) (link_button s) (node_button s)
     (network_button s) (annotation_button s) (runtime_select_button s)
     (stop_button s) (runtime_marker_button s) (run_command_button s)
     (design_frame s) (runtime_frame s) (picker s) (marker_tool s) (node_enum
     s) (node_file s) (network_enum s) v.
Definition empty : t :=
  mk None None None None None None None None None None None None None None
     None None None None.
End Toolbar_attrs.

(** ** The application state *)

(** Calls into collaborators whose effect lies outside the toolbar: the
    menubar, the core client, the error dialog, the canvas and the dialogs.
    The application keeps them in a log, most recent first. *)
Inductive Call :=
| change_menubar_item_state (is_runtime : bool)
| set_metadata
| show_mobility_players
| close_mobility_players
| show_error (title message : string)
| stopped_session
| MarkerDialog_show (dialog : nat)
| MarkerDialog_destroy (dialog : nat)
| RunToolDialog_show.

#[global] Instance Call_eq_dec : EqDecision Call.
Proof. solve_decision. Defined.

Module ProgressTask.
(** Modelled from the spec: [core.gui.task.ProgressTask] is not part of the
    sources. A task holds its label, the backend call it runs off the UI
    thread and the completion handler; it is pending from [start] until the
    handler has been given the result on the UI thread. *)
Record t := mk {
  title : string;
  task : Operation;
  callback : TaskCallback
}.
Definition is_start (p : t) : bool :=
  match task p with start_session => true | stop_session => false end.
Definition is_stop (p : t) : bool :=
  match task p with stop_session => true | start_session => false end.
End ProgressTask.

Module App.
(** The application: Tk, the toolbar object, the canvas, the node tables
    ([NodeUtils.NODES], [NodeUtils.NETWORK_NODES], [core.custom_nodes]),
    the tasks in flight (oldest first), the call log and the number of
    marker dialogs created so far. *)
Record t := mk {
  tk : Tk.t;
  toolbar : Toolbar_attrs.t;
  canvas : Canvas.t;
  NODES : list NodeDraw.t;
  NETWORK_NODES : list NodeDraw.t;
  custom_nodes : gmap string NodeDraw.t;
  tasks : list ProgressTask.t;
  calls : list Call;
  dialogs : nat
}.
Definition set_tk v a :=
  mk v (toolbar a) (canvas a) (NODES a) (NETWORK_NODES a) (custom_nodes a)
     (tasks a) (calls a) (dialogs a).
Definition set_toolbar v a :=
  mk (tk a) v (canvas a) (NODES a) (NETWORK_NODES a) (custom_nodes a)
     (tasks a) (calls a) (dialogs a).
Definition set_canvas v a :=
  mk (tk a) (toolbar a) v (NODES a) (NETWORK_NODES a) (custom_nodes a)
     (tasks a) (calls a) (dialogs a).
Definition set_tasks v a :=
  mk (tk a) (toolbar a) (canvas a) (NODES a) (NETWORK_NODES a)
     (custom_nodes a) v (calls a) (dialogs a).
Definition set_calls v a :=
  mk (tk a) (toolbar a) (canvas a) (NODES a) (NETWORK_NODES a)
     (custom_nodes a) (tasks a) v (dialogs a).
Definition set_dialogs v a :=
  mk (tk a) (toolbar a) (canvas a) (NODES a) (NETWORK_NODES a)
     (custom_nodes a) (tasks a) (calls a) v.
End App.

(** ** The monad of the methods

    A method runs on the application state and either returns or raises.
    [AttributeError] is what Python raises on an attribute of [None],
    [TclError] what Tk raises on a widget that does not exist (any more), and
    [KeyError] a failed dictionary lookup. [InvalidTransition] is the error
    the specification names for a request made in the wrong phase. *)

Inductive Exn := InvalidTransition | AttributeError | TclError | KeyError.

Inductive outcome (A : Type) :=
| Returns (v : A)
| Raises (e : Exn).
Arguments Returns {A} v.
Arguments Raises {A} e.

Definition M (A : Type) : Type := App.t → outcome A * App.t.

#[global] Instance M_ret : MRet M := λ A v a, (Returns v, a).
#[global] Instance M_bind : MBind M := λ A B f m a,
  match m a with
  | (Returns v, a') => f v a'
  | (Raises e, a') => (Raises e, a')
  end.

Definition raise {A} (e : Exn) : M A := λ a, (Raises e, a).
Definition gets {A} (f : App.t → A) : M A := λ a, (Returns (f a), a).
Definition modify (f : App.t → App.t) : M unit := λ a, (Returns (), f a).

(** The state a method leaves behind. *)
Definition exec {A} (m : M A) (a : App.t) : App.t := snd (m a).
Definition returns {A} (m : M A) (a : App.t) : Prop :=
  ∃ v, fst (m a) = Returns v.

(** [for x in xs: body(x)]. *)
Fixpoint for_each {A} (xs : list A) (body : A → M unit) : M unit :=
  match xs with
  | [] => mret ()
  | x :: rest => body x;; for_each rest body
  end.

(** Reading an attribute or calling a method of [o]: fails on [None]. *)
Definition attr {A} (o : option A) : M A :=
  match o with
  | Some x => mret x
  | None => raise AttributeError
  end.

Definition modify_tk (f : Tk.t → Tk.t) : M unit :=
  modify (λ a, App.set_tk (f (App.tk a)) a).
Definition modify_toolbar (f : Toolbar_attrs.t → Toolbar_attrs.t) : M unit :=
  modify (λ a, App.set_toolbar (f (App.toolbar a)) a).
Definition modify_canvas (f : Canvas.t → Canvas.t) : M unit :=
  modify (λ a, App.set_canvas (f (App.canvas a)) a).
Definition self {A} (f : Toolbar_attrs.t → A) : M A :=
  gets (λ a, f (App.toolbar a)).
Definition call (c : Call) : M unit :=
  modify (λ a, App.set_calls (c :: App.calls a) a).

(** ** Tk operations on the widget store *)

Inductive tkstate := NORMAL | DISABLED.

Definition the_button (i : nat) : M Button.t := λ a,
  match Tk.buttons (App.tk a) !! i with
  | Some b => (Returns b, a)
  | None => (Raises TclError, a)
  end.
Definition the_bar (f : nat) : M Bar.t := λ a,
  match Tk.bars (App.tk a) !! f with
  | Some x => (Returns x, a)
  | None => (Raises TclError, a)
  end.
Definition the_picker (p : nat) : M Picker.t := λ a,
  match Tk.pickers (App.tk a) !! p with
  | Some x => (Returns x, a)
  | None => (Raises TclError, a)
  end.

Definition alter_button (i : nat) (f : Button.t → Button.t) : M unit :=
  the_button i;;
  modify_tk (λ k, Tk.set_buttons (alter f i (Tk.buttons k)) k).
Definition alter_bar (i : nat) (f : Bar.t → Bar.t) : M unit :=
  the_bar i;;
  modify_tk (λ k, Tk.set_bars (alter f i (Tk.bars k)) k).
Definition alter_picker (i : nat) (f : Picker.t → Picker.t) : M unit :=
  the_picker i;;
  modify_tk (λ k, Tk.set_pickers (alter f i (Tk.pickers k)) k).

(** [child.configure(state=state)]: sets or clears the disabled flag. *)
Definition configure_state (child : nat) (state : tkstate) : M unit :=
  alter_button child
    (Button.set_disabled (match state with DISABLED => true | NORMAL => false end)).

(** [button.state(["pressed"])] and [button.state(["!pressed"])]. *)
Definition state_pressed (button : nat) (on : bool) : M unit :=
  alter_button button (Button.set_pressed on).

(** [button.configure(image=image)] and [button.image = image]. *)
Definition configure_image (button : nat) (image : PhotoImage) : M unit :=
  alter_button button (Button.set_image (Some image)).
Definition assign_image (button : nat) (image : PhotoImage) : M unit :=
  alter_button button (Button.set_image_attr (Some image)).

(** [button.bind("<ButtonRelease-1>", lambda e: func(bar_image))]. *)
Definition bind_release (button : nat) (func : OptionFunc)
    (bar_image : PhotoImage) : M unit :=
  alter_button button (Button.set_release (Some (func, bar_image))).

(** [ttk.Button(master, image=image, command=func)]: a new button, enabled
    and not pressed, registered as the last child of its master. *)
Definition ttk_Button (master : Master) (image : PhotoImage)
    (func : option Command) : M nat :=
  i ← gets (λ a, length (Tk.buttons (App.tk a)));
  match master with
  | in_bar f =>
      alter_bar f (λ x, Bar.set_children (Bar.children x ++ [i]) x)
  | in_picker p =>
      alter_picker p (λ x, Picker.set_children (Picker.children x ++ [i]) x)
  end;;
  modify_tk (λ k,
    Tk.set_buttons
      (Tk.buttons k ++ [Button.mk (Some image) None false false func None]) k);;
  mret i.

(** [frame.tkraise()]: the frame moves to the top of the stacking order. *)
Definition tkraise (f : nat) : M unit :=
  the_bar f;;
  modify_tk (λ k,
    Tk.set_stacking (f :: filter (λ g, g ≠ f) (Tk.stacking k)) k).

(** The frame on top, the one the pointer can reach. *)
Definition raised (a : App.t) : option nat := head (Tk.stacking (App.tk a)).

(** [picker.destroy()]: the frame and its option buttons go away, and so
    does its pointer grab. Destroying a destroyed window does nothing. *)
Definition destroy (p : nat) : M unit :=
  alter_picker p (Picker.set_destroyed true);;
  modify_tk (λ k,
    if decide (Tk.grab k = Some p) then Tk.set_grab None k else k).

(** [enable_buttons(frame, enabled)]. *)
Definition enable_buttons (frame : option nat) (enabled : bool) : M unit :=
  let state := if enabled then NORMAL else DISABLED in
  f ← attr frame;
  bar ← the_bar f;
  for_each (Bar.children bar) (λ child, configure_state child state).

Module PickerFrame.
(** [PickerFrame(app, button)]. *)
Definition __init__ (button : option nat) : M nat :=
  p ← gets (λ a, length (Tk.pickers (App.tk a)));
  modify_tk (λ k,
    Tk.set_pickers (Tk.pickers k ++ [Picker.mk button [] false false]) k);;
  mret p.

Definition _create_button (self : nat) (image bar_image : PhotoImage)
    (func : OptionFunc) : M unit :=
  button ← ttk_Button (in_picker self) image None;
  assign_image button image;;
  bind_release button func bar_image.

(** The icon provider [app.get_icon] is not part of these sources. It is
    given an [ImageEnum]; a call without one (a node whose [image_enum] is
    [None]) is taken to fail as an attribute access on [None] does. *)
Definition create_button (self : nat) (image_enum : option ImageEnum.t)
    (func : OptionFunc) : M unit :=
  e ← attr image_enum;
  let bar_image := get_icon e TOOLBAR_SIZE in
  let image := get_icon e PICKER_SIZE in
  _create_button self image bar_image func.

(** Likewise [app.get_custom_icon], which is given the name of a file. *)
Definition create_custom_button (self : nat) (image_file : option string)
    (func : OptionFunc) : M unit :=
  file ← attr image_file;
  let bar_image := get_custom_icon file TOOLBAR_SIZE in
  let image := get_custom_icon file PICKER_SIZE in
  _create_button self image bar_image func.

(** [self.button.after(0, self._show)]: [_show] is queued for the event
    loop. *)
Definition show (self : nat) : M unit :=
  picker ← the_picker self;
  attr (Picker.button picker);;
  modify_tk (λ k, Tk.set_after (Tk.after k ++ [self]) k).

(** [_show] up to and including the call of [wait_window], which runs an
    event loop of its own until the picker is destroyed. *)
Definition _show_enter (self : nat) : M unit :=
  picker ← the_picker self;
  (if Picker.destroyed picker then raise TclError else mret ());;
  alter_picker self (Picker.set_placed true);;
  modify_tk (Tk.set_binding_all (Some self));;
  modify_tk (Tk.set_grab (Some self));;
  modify_tk (λ k, Tk.set_waiting (self :: Tk.waiting k) k).

(** The rest of [_show], once [wait_window] has returned. *)
Definition _show_leave (self : nat) : M unit :=
  modify_tk (Tk.set_binding_all None).
End PickerFrame.

Module ButtonBar.
(** [ButtonBar(master, app)]: a new frame without buttons; like every new
    window it lies on top of its siblings. *)
Definition __init__ : M nat :=
  f ← gets (λ a, length (Tk.bars (App.tk a)));
  modify_tk (λ k,
    Tk.set_stacking (f :: Tk.stacking k)
      (Tk.set_bars (Tk.bars k ++ [Bar.mk [] []]) k));;
  mret f.

Definition create_button (self : nat) (image_enum : option ImageEnum.t)
    (func : Command) (radio : bool) : M nat :=
  e ← attr image_enum;
  let image := get_icon e TOOLBAR_SIZE in
  button ← ttk_Button (in_bar self) image (Some func);
  assign_image button image;;
  (if radio
   then alter_bar self
          (λ x, Bar.set_radio_buttons (Bar.radio_buttons x ++ [button]) x)
   else mret ());;
  mret button.

Definition select_radio (self : nat) (selected : option nat) : M unit :=
  bar ← the_bar self;
  for_each (Bar.radio_buttons bar) (λ button, state_pressed button false);;
  button ← attr selected;
  state_pressed button true.
End ButtonBar.

(** The one-character string ["\n"]. *)
Definition newline : string := String (Ascii.ascii_of_nat 10) EmptyString.

Definition result (response : Response) : bool :=
  match response with
  | StartSessionResponse r _ => r
  | StopSessionResponse r => r
  end.
Definition exceptions (response : Response) : option (list string) :=
  match response with
  | StartSessionResponse _ xs => Some xs
  | StopSessionResponse _ => None
  end.

(** Modelled from the spec: [ProgressTask(app, title, task, callback).start()]
    of [core.gui.task], which is not part of the sources. The task joins the
    tasks in flight; its handler runs later, on the UI thread, with the
    result of the backend call. *)
Definition ProgressTask_start (title : string) (task : Operation)
    (callback : TaskCallback) : M unit :=
  modify (λ a,
    App.set_tasks (App.tasks a ++ [ProgressTask.mk title task callback]) a).

(** [MarkerDialog(self.app)]: the dialogs are numbered as they are made. *)
Definition MarkerDialog : M nat :=
  d ← gets App.dialogs;
  modify (App.set_dialogs (S d));;
  mret d.

(** [sorted(d)] for a dictionary with string keys. *)
Definition str_le (x y : string) : Prop := String.leb x y = true.
#[global] Instance str_le_dec x y : Decision (str_le x y) :=
  decide (String.leb x y = true).
Definition sorted (d : gmap string NodeDraw.t) : list string :=
  merge_sort str_le (map fst (map_to_list d)).

(** [d[name]]. *)
Definition getitem (d : gmap string NodeDraw.t) (name : string)
    : M NodeDraw.t :=
  match d !! name with
  | Some x => mret x
  | None => raise KeyError
  end.

(** ** The toolbar *)

Module Toolbar.
Import Toolbar_attrs.

Definition setattr (f : Toolbar_attrs.t → Toolbar_attrs.t) : M unit :=
  modify_toolbar f.

Definition draw_design_frame : M unit :=
  f ← ButtonBar.__init__;
  setattr (set_design_frame (Some f));;
  f ← self design_frame ≫= attr;
  b ← ButtonBar.create_button f (Some ImageEnum.START) do_click_start false;
  setattr (set_play_button (Some b));;
  f ← self design_frame ≫= attr;
  b ← ButtonBar.create_button f (Some ImageEnum.SELECT) do_click_selection
        true;
  setattr (set_select_button (Some b));;
  f ← self design_frame ≫= attr;
  b ← ButtonBar.create_button f (Some ImageEnum.LINK) do_click_link true;
  setattr (set_link_button (Some b));;
  setattr (set_node_enum (Some ImageEnum.ROUTER));;
  f ← self design_frame ≫= attr;
  e ← self node_enum;
  b ← ButtonBar.create_button f e do_draw_node_picker true;
  setattr (set_node_button (Some b));;
  setattr (set_network_enum (Some ImageEnum.HUB));;
  f ← self design_frame ≫= attr;
  e ← self network_enum;
  b ← ButtonBar.create_button f e do_draw_network_picker true;
  setattr (set_network_button (Some b));;
  setattr (set_annotation_enum (Some ImageEnum.MARKER));;
  f ← self design_frame ≫= attr;
  e ← self annotation_enum;
  b ← ButtonBar.create_button f e do_draw_annotation_picker true;
  setattr (set_annotation_button (Some b)).

Definition draw_runtime_frame : M unit :=
  f ← ButtonBar.__init__;
  setattr (set_runtime_frame (Some f));;
  f ← self runtime_frame ≫= attr;
  b ← ButtonBar.create_button f (Some ImageEnum.STOP) do_click_stop false;
  setattr (set_stop_button (Some b));;
  f ← self runtime_frame ≫= attr;
  b ← ButtonBar.create_button f (Some ImageEnum.SELECT)
        do_click_runtime_selection true;
  setattr (set_runtime_select_button (Some b));;
  f ← self runtime_frame ≫= attr;
  b ← ButtonBar.create_button f (Some ImageEnum.MARKER)
        do_click_marker_button true;
  setattr (set_runtime_marker_button (Some b));;
  f ← self runtime_frame ≫= attr;
  b ← ButtonBar.create_button f (Some ImageEnum.RUN) do_click_run_button
        false;
  setattr (set_run_command_button (Some b)).

Definition draw : M unit :=
  draw_design_frame;;
  draw_runtime_frame;;
  f ← self design_frame ≫= attr;
  tkraise f.

(** [Toolbar(app)]: every attribute starts as [None], then [draw] runs. *)
Definition __init__ : M unit :=
  setattr (λ _, Toolbar_attrs.empty);;
  draw.

Definition click_selection : M unit :=
  f ← self design_frame ≫= attr;
  b ← self select_button;
  ButtonBar.select_radio f b;;
  modify_canvas (Canvas.set_mode GraphMode.SELECT).

Definition click_runtime_selection : M unit :=
  f ← self runtime_frame ≫= attr;
  b ← self runtime_select_button;
  ButtonBar.select_radio f b;;
  modify_canvas (Canvas.set_mode GraphMode.SELECT).

Definition click_start : M unit :=
  call (change_menubar_item_state true);;
  modify_canvas (Canvas.set_mode GraphMode.SELECT);;
  f ← self design_frame;
  enable_buttons f false;;
  ProgressTask_start "Start" start_session do_start_callback.

Definition set_runtime : M unit :=
  f ← self runtime_frame;
  enable_buttons f true;;
  f ← self runtime_frame ≫= attr;
  tkraise f;;
  click_runtime_selection.

Definition set_design : M unit :=
  f ← self design_frame;
  enable_buttons f true;;
  f ← self design_frame ≫= attr;
  tkraise f;;
  click_selection.

Definition start_callback (response : Response) : M unit :=
  if result response then
    set_runtime;;
    call set_metadata;;
    call show_mobility_players
  else
    f ← self design_frame;
    enable_buttons f true;;
    xs ← attr (exceptions response);
    let message := join newline xs in
    call (show_error "Start Session Error" message).

Definition click_link : M unit :=
  f ← self design_frame ≫= attr;
  b ← self link_button;
  ButtonBar.select_radio f b;;
  modify_canvas (Canvas.set_mode GraphMode.EDGE).

Definition update_button (button : option nat) (node_draw : NodeDraw.t)
    (type_enum : NodeTypeEnum.t) (image : PhotoImage) : M unit :=
  b ← attr button;
  configure_image b image;;
  assign_image b image;;
  modify_canvas (Canvas.set_mode GraphMode.NODE);;
  modify_canvas (Canvas.set_node_draw (Some node_draw));;
  match type_enum with
  | NodeTypeEnum.NODE =>
      match NodeDraw.image_enum node_draw with
      | Some e =>
          setattr (set_node_enum (Some e));;
          setattr (set_node_file None)
      | None =>
          if str_truthy (NodeDraw.image_file node_draw) then
            setattr (set_node_file (NodeDraw.image_file node_draw));;
            setattr (set_node_enum None)
          else mret ()
      end
  | NodeTypeEnum.NETWORK =>
      setattr (set_network_enum (NodeDraw.image_enum node_draw))
  | NodeTypeEnum.OTHER => mret ()
  end.

Definition draw_node_picker : M unit :=
  f ← self design_frame ≫= attr;
  b ← self node_button;
  ButtonBar.select_radio f b;;
  b ← self node_button;
  p ← PickerFrame.__init__ b;
  setattr (set_picker (Some p));;
  nodes ← gets App.NODES;
  for_each nodes (λ node_draw,
    b ← self node_button;
    let func := partial_update_button b node_draw NodeTypeEnum.NODE in
    p ← self picker ≫= attr;
    PickerFrame.create_button p (NodeDraw.image_enum node_draw) func);;
  custom_nodes ← gets App.custom_nodes;
  for_each (sorted custom_nodes) (λ name,
    node_draw ← getitem custom_nodes name;
    b ← self node_button;
    let func := partial_update_button b node_draw NodeTypeEnum.NODE in
    p ← self picker ≫= attr;
    PickerFrame.create_custom_button p (NodeDraw.image_file node_draw)
      func);;
  p ← self picker ≫= attr;
  PickerFrame.show p.

Definition draw_network_picker : M unit :=
  f ← self design_frame ≫= attr;
  b ← self network_button;
  ButtonBar.select_radio f b;;
  b ← self network_button;
  p ← PickerFrame.__init__ b;
  setattr (set_picker (Some p));;
  nodes ← gets App.NETWORK_NODES;
  for_each nodes (λ node_draw,
    b ← self network_button;
    let func := partial_update_button b node_draw NodeTypeEnum.NETWORK in
    p ← self picker ≫= attr;
    PickerFrame.create_button p (NodeDraw.image_enum node_draw) func);;
  p ← self picker ≫= attr;
  PickerFrame.show p.

Definition draw_annotation_picker : M unit :=
  f ← self design_frame ≫= attr;
  b ← self annotation_button;
  ButtonBar.select_radio f b;;
  b ← self annotation_button;
  p ← PickerFrame.__init__ b;
  setattr (set_picker (Some p));;
  let nodes :=
    [ (ImageEnum.MARKER, ShapeType.MARKER);
      (ImageEnum.OVAL, ShapeType.OVAL);
      (ImageEnum.RECTANGLE, ShapeType.RECTANGLE);
      (ImageEnum.TEXT, ShapeType.TEXT) ] in
  for_each nodes (λ '(image_enum, shape_type),
    let func := partial_update_annotation shape_type image_enum in
    p ← self picker ≫= attr;
    PickerFrame.create_button p (Some image_enum) func);;
  p ← self picker ≫= attr;
  PickerFrame.show p.

Definition click_stop : M unit :=
  call (change_menubar_item_state false);;
  call close_mobility_players;;
  f ← self runtime_frame;
  enable_buttons f false;;
  ProgressTask_start "Stop" stop_session do_stop_callback.

Definition stop_callback (response : Response) : M unit :=
  set_design;;
  call stopped_session.

(** The marker dialog is replaced: [if self.marker_tool:
    self.marker_tool.destroy()], then a new dialog is made and shown. *)
Definition open_marker_tool : M unit :=
  old ← self marker_tool;
  match old with
  | Some d => call (MarkerDialog_destroy d)
  | None => mret ()
  end;;
  d ← MarkerDialog;
  setattr (set_marker_tool (Some d));;
  d ← self marker_tool ≫= attr;
  call (MarkerDialog_show d).

Definition update_annotation (shape_type : ShapeType.t)
    (image_enum : ImageEnum.t) (image : PhotoImage) : M unit :=
  b ← self annotation_button ≫= attr;
  configure_image b image;;
  b ← self annotation_button ≫= attr;
  assign_image b image;;
  modify_canvas (Canvas.set_mode GraphMode.ANNOTATION);;
  modify_canvas (Canvas.set_annotation_type (Some shape_type));;
  setattr (set_annotation_enum (Some image_enum));;
  if is_marker shape_type then open_marker_tool else mret ().

Definition click_run_button : M unit :=
  call RunToolDialog_show.

Definition click_marker_button : M unit :=
  f ← self runtime_frame ≫= attr;
  b ← self runtime_marker_button;
  ButtonBar.select_radio f b;;
  modify_canvas (Canvas.set_mode GraphMode.ANNOTATION);;
  modify_canvas (Canvas.set_annotation_type (Some ShapeType.MARKER));;
  open_marker_tool.

Definition scale_button (button : option nat)
    (image_enum : option ImageEnum.t) (image_file : option string)
    : M unit :=
  let image :=
    match image_enum with
    | Some e => Some (get_icon e TOOLBAR_SIZE)
    | None =>
        match image_file with
        | Some file =>
            if str_truthy image_file
            then Some (get_custom_icon file TOOLBAR_SIZE) else None
        | None => None
        end
    end in
  match image with
  | Some image =>
      b ← attr button;
      configure_image b image;;
      b ← attr button;
      assign_image b image
  | None => mret ()
  end.

Definition scale : M unit :=
  b ← self play_button; scale_button b (Some ImageEnum.START) None;;
  b ← self select_button; scale_button b (Some ImageEnum.SELECT) None;;
  b ← self link_button; scale_button b (Some ImageEnum.LINK) None;;
  e ← self node_enum;
  (if bool_decide (is_Some e)
   then b ← self node_button; e ← self node_enum; scale_button b e None
   else mret ());;
  file ← self node_file;
  (if str_truthy file
   then b ← self node_button; file ← self node_file; scale_button b None file
   else mret ());;
  b ← self network_button; e ← self network_enum; scale_button b e None;;
  b ← self annotation_button; e ← self annotation_enum;
  scale_button b e None;;
  b ← self runtime_select_button;
  scale_button b (Some ImageEnum.SELECT) None;;
  b ← self stop_button; scale_button b (Some ImageEnum.STOP) None;;
  b ← self runtime_marker_button;
  scale_button b (Some ImageEnum.MARKER) None;;
  b ← self run_command_button; scale_button b (Some ImageEnum.RUN) None.
End Toolbar.

(** ** The event loop

    What Tk and the task runner call, and when. A handler that raises is
    reported by Tkinter and the loop goes on with the state it left. *)

Definition run_command (c : Command) : M unit :=
  match c with
  | do_click_start => Toolbar.click_start
  | do_click_selection => Toolbar.click_selection
  | do_click_link => Toolbar.click_link
  | do_draw_node_picker => Toolbar.draw_node_picker
  | do_draw_network_picker => Toolbar.draw_network_picker
  | do_draw_annotation_picker => Toolbar.draw_annotation_picker
  | do_click_stop => Toolbar.click_stop
  | do_click_runtime_selection => Toolbar.click_runtime_selection
  | do_click_marker_button => Toolbar.click_marker_button
  | do_click_run_button => Toolbar.click_run_button
  end.

Definition run_option (func : OptionFunc) (image : PhotoImage) : M unit :=
  match func with
  | partial_update_button button node_draw type_enum =>
      Toolbar.update_button button node_draw type_enum image
  | partial_update_annotation shape_type image_enum =>
      Toolbar.update_annotation shape_type image_enum image
  end.

Definition run_callback (c : TaskCallback) (response : Response) : M unit :=
  match c with
  | do_start_callback => Toolbar.start_callback response
  | do_stop_callback => Toolbar.stop_callback response
  end.

(** The binding of [<ButtonRelease-1>] on [all], if there is one:
    [lambda e: self.destroy()] of the picker that installed it. *)
Definition release_all : M unit :=
  bound ← gets (λ a, Tk.binding_all (App.tk a));
  match bound with
  | Some p => destroy p
  | None => mret ()
  end.

Inductive Event :=
| Click (button : nat)
    (** the pointer is pressed and released over a toolbar button *)
| Release_option (button : nat)
    (** the pointer is released over an option of an open picker *)
| Release_elsewhere
    (** the pointer is released anywhere else *)
| Idle
    (** the event loop runs the oldest [after(0, ...)] callback *)
| Window_closed
    (** the innermost [wait_window] sees its picker destroyed and returns *)
| Task_done (i : nat) (response : Response)
    (** the [i]-th task in flight hands its result to its handler *)
| Scale.
    (** the application calls [toolbar.scale()] *)

(** Children of the frame on top. *)
Definition on_top (a : App.t) : list nat :=
  match raised a with
  | Some f =>
      match Tk.bars (App.tk a) !! f with
      | Some bar => Bar.children bar
      | None => []
      end
  | None => []
  end.

Definition is_disabled (a : App.t) (b : nat) : bool :=
  match Tk.buttons (App.tk a) !! b with
  | Some x => Button.disabled x
  | None => true
  end.

Definition is_pressed (a : App.t) (b : nat) : bool :=
  match Tk.buttons (App.tk a) !! b with
  | Some x => Button.pressed x
  | None => false
  end.

(** The open pickers that have [b] among their options. *)
Definition option_of (a : App.t) (b : nat) : list nat :=
  List.filter (λ p,
    match Tk.pickers (App.tk a) !! p with
    | Some x => Picker.is_open x && bool_decide (b ∈ Picker.children x)
    | None => false
    end) (seq 0 (length (Tk.pickers (App.tk a)))).

(** When an event can happen. A click reaches a toolbar button only if its
    frame is on top and the button is not disabled; a release reaches a
    picker option only if no other window holds the pointer grab. *)
Definition enabled (e : Event) (a : App.t) : bool :=
  match e with
  | Click b => bool_decide (b ∈ on_top a) && negb (is_disabled a b)
  | Release_option b =>
      existsb (λ p, bool_decide (Tk.grab (App.tk a) = None
                                 ∨ Tk.grab (App.tk a) = Some p))
        (option_of a b)
  | Release_elsewhere => true
  | Idle => bool_decide (Tk.after (App.tk a) ≠ [])
  | Window_closed =>
      match Tk.waiting (App.tk a) with
      | p :: _ =>
          match Tk.pickers (App.tk a) !! p with
          | Some x => Picker.destroyed x
          | None => false
          end
      | [] => false
      end
  | Task_done i r =>
      match App.tasks a !! i with
      | Some t => answers (ProgressTask.task t) r
      | None => false
      end
  | Scale => true
  end.

(** What an event runs. While a picker holds the pointer grab, a click on
    the toolbar is delivered to the picker instead of the button: only the
    binding on [all] sees it. *)
Definition handler (e : Event) : M unit :=
  match e with
  | Click b =>
      grab ← gets (λ a, Tk.grab (App.tk a));
      match grab with
      | Some _ => release_all
      | None =>
          button ← the_button b;
          match Button.command button with
          | Some c => run_command c
          | None => mret ()
          end;;
          release_all
      end
  | Release_option b =>
      button ← the_button b;
      match Button.release button with
      | Some (func, bar_image) => run_option func bar_image
      | None => mret ()
      end;;
      release_all
  | Release_elsewhere => release_all
  | Idle =>
      due ← gets (λ a, Tk.after (App.tk a));
      match due with
      | p :: rest =>
          modify_tk (Tk.set_after rest);;
          PickerFrame._show_enter p
      | [] => mret ()
      end
  | Window_closed =>
      loops ← gets (λ a, Tk.waiting (App.tk a));
      match loops with
      | p :: rest =>
          modify_tk (Tk.set_waiting rest);;
          PickerFrame._show_leave p
      | [] => mret ()
      end
  | Task_done i response =>
      pending ← gets App.tasks;
      match pending !! i with
      | Some t =>
          modify (App.set_tasks (delete i pending));;
          run_callback (ProgressTask.callback t) response
      | None => mret ()
      end
  | Scale => Toolbar.scale
  end.

Definition fire (e : Event) (a : App.t) : option App.t :=
  if enabled e a then Some (exec (handler e) a) else None.

(** Running a list of events, stopping at the first that cannot happen. *)
Fixpoint run (es : list Event) (a : App.t) : option App.t :=
  match es with
  | [] => Some a
  | e :: rest =>
      match fire e a with
      | Some a' => run rest a'
      | None => None
      end
  end.

(** The application before the toolbar is made. *)
Definition blank (canvas : Canvas.t) (nodes network_nodes : list NodeDraw.t)
    (custom_nodes : gmap string NodeDraw.t) : App.t :=
  App.mk Tk.empty Toolbar_attrs.empty canvas nodes network_nodes custom_nodes
    [] [] 0.

(** The states of a running application: the toolbar is made, then events
    happen one after the other. *)
Inductive reachable : App.t → Prop :=
| reach_new canvas nodes network_nodes custom_nodes :
    reachable
      (exec Toolbar.__init__ (blank canvas nodes network_nodes custom_nodes))
| reach_fire a e a' :
    reachable a → fire e a = Some a' → reachable a'.

(** ** The session phase

    The toolbar keeps no phase variable. The phase of the specification is
    read off the state: a start or stop task in flight means [Starting] or
    [Stopping]; otherwise the frame on top tells [Runtime] from [Design]. *)
Inductive SessionPhase := Design | Starting | Runtime | Stopping.

Definition phase (a : App.t) : SessionPhase :=
  if existsb ProgressTask.is_start (App.tasks a) then Starting
  else if existsb ProgressTask.is_stop (App.tasks a) then Stopping
  else if bool_decide (is_Some (raised a)
                       ∧ raised a = Toolbar_attrs.runtime_frame (App.toolbar a))
       then Runtime
       else Design.

(** A small application to run examples on: the default canvas and one node
    of each kind. *)
Definition router : NodeDraw.t :=
  NodeDraw.mk "router" (Some ImageEnum.ROUTER) None.
Definition hub : NodeDraw.t := NodeDraw.mk "hub" (Some ImageEnum.HUB) None.
Definition sample : App.t :=
  exec Toolbar.__init__
    (blank (Canvas.mk GraphMode.SELECT None None) [router] [hub] ∅).

(** ** What is said about states *)

(** The buttons of a frame and its radio buttons, read from the store. *)
Definition group (a : App.t) (frame : option nat) : list nat :=
  match frame with
  | Some f =>
      match Tk.bars (App.tk a) !! f with
      | Some bar => Bar.children bar
      | None => []
      end
  | None => []
  end.
Definition toggles (a : App.t) (frame : option nat) : list nat :=
  match frame with
  | Some f =>
      match Tk.bars (App.tk a) !! f with
      | Some bar => Bar.radio_buttons bar
      | None => []
      end
  | None => []
  end.

Definition design_group (a : App.t) : list nat :=
  group a (Toolbar_attrs.design_frame (App.toolbar a)).
Definition runtime_group (a : App.t) : list nat :=
  group a (Toolbar_attrs.runtime_frame (App.toolbar a)).

Definition all_disabled (a : App.t) (bs : list nat) : Prop :=
  Forall (λ b, is_disabled a b = true) bs.
Definition all_enabled (a : App.t) (bs : list nat) : Prop :=
  Forall (λ b, is_disabled a b = false) bs.

(** The toggles of a list that are pressed. *)
Definition selected (a : App.t) (bs : list nat) : list nat :=
  List.filter (is_pressed a) bs.


(** The pickers on screen. *)
Definition open_pickers (a : App.t) : list Picker.t :=
  List.filter Picker.is_open (Tk.pickers (App.tk a)).

(** The state of the menubar: what it was last switched to. *)
Fixpoint menubar_is_runtime (calls : list Call) : option bool :=
  match calls with
  | [] => None
  | change_menubar_item_state is_runtime :: _ => Some is_runtime
  | _ :: rest => menubar_is_runtime rest
  end.

(** How often a collaborator was called. *)
Definition count_call (c : Call) (calls : list Call) : nat :=
  length (List.filter (λ x, bool_decide (x = c)) calls).

(** ** Invariants of a running application *)

(** The widget attributes of the toolbar, in the order of [__init__]. *)
Definition widgets_of (s : Toolbar_attrs.t) : list (option nat) :=
  [ Toolbar_attrs.play_button s; Toolbar_attrs.select_button s;
    Toolbar_attrs.link_button s; Toolbar_attrs.node_button s;
    Toolbar_attrs.network_button s; Toolbar_attrs.annotation_button s;
    Toolbar_attrs.runtime_select_button s; Toolbar_attrs.stop_button s;
    Toolbar_attrs.runtime_marker_button s;
    Toolbar_attrs.run_command_button s;
    Toolbar_attrs.design_frame s; Toolbar_attrs.runtime_frame s ].

(** The toolbar as [draw] builds it: the two frames come first in the store,
    then the six design buttons and the four runtime buttons, each with its
    command. Pickers add buttons behind them. *)
Definition built (a : App.t) : Prop :=
  widgets_of (App.toolbar a)
  = [ Some 0; Some 1; Some 2; Some 3; Some 4; Some 5;
      Some 7; Some 6; Some 8; Some 9; Some 0; Some 1 ]
  ∧ Tk.bars (App.tk a)
    = [ Bar.mk [1; 2; 3; 4; 5] [0; 1; 2; 3; 4; 5];
        Bar.mk [7; 8] [6; 7; 8; 9] ]
  ∧ map Button.command (take 10 (Tk.buttons (App.tk a)))
    = [ Some do_click_start; Some do_click_selection; Some do_click_link;
        Some do_draw_node_picker; Some do_draw_network_picker;
        Some do_draw_annotation_picker; Some do_click_stop;
        Some do_click_runtime_selection; Some do_click_marker_button;
        Some do_click_run_button ].

Definition start_task : ProgressTask.t :=
  ProgressTask.mk "Start" start_session do_start_callback.
Definition stop_task : ProgressTask.t :=
  ProgressTask.mk "Stop" stop_session do_stop_callback.

(** At most one task is in flight. While a start is in flight the design
    frame is on top with every button disabled; while a stop is in flight
    the runtime frame is, with every button disabled. *)
Definition session_ok (a : App.t) : Prop :=
  match App.tasks a with
  | [] =>
      Tk.stacking (App.tk a) = [0; 1] ∨ Tk.stacking (App.tk a) = [1; 0]
  | [t] =>
      (t = start_task ∧ Tk.stacking (App.tk a) = [0; 1]
       ∧ all_disabled a [0; 1; 2; 3; 4; 5])
      ∨ (t = stop_task ∧ Tk.stacking (App.tk a) = [1; 0]
         ∧ all_disabled a [6; 7; 8; 9])
  | _ => False
  end.

(** Exactly one of [node_enum] and [node_file] is set, and a file that is set
    is not the empty string. *)
Definition icon_ok (a : App.t) : Prop :=
  let s := App.toolbar a in
  (is_Some (Toolbar_attrs.node_enum s) ∧ Toolbar_attrs.node_file s = None)
  ∨ (Toolbar_attrs.node_enum s = None
     ∧ str_truthy (Toolbar_attrs.node_file s) = true).

Definition invariant (a : App.t) : Prop :=
  built a ∧ session_ok a ∧ icon_ok a.

(** [steady a0 a]: from [a0] to [a] the toolbar's widgets, the frames, the
    stacking order and the tasks are the same, and every button of [a0] is
    still there with its command and its disabled flag. *)
Definition steady (a0 a : App.t) : Prop :=
  widgets_of (App.toolbar a) = widgets_of (App.toolbar a0)
  ∧ Tk.bars (App.tk a) = Tk.bars (App.tk a0)
  ∧ Tk.stacking (App.tk a) = Tk.stacking (App.tk a0)
  ∧ App.tasks a = App.tasks a0
  ∧ ∀ i b, Tk.buttons (App.tk a0) !! i = Some b →
      ∃ b', Tk.buttons (App.tk a) !! i = Some b'
            ∧ Button.command b' = Button.command b
            ∧ Button.disabled b' = Button.disabled b.

(** [same_icons a0 a]: the sources of the node button's image are the
    same. *)
Definition same_icons (a0 a : App.t) : Prop :=
  Toolbar_attrs.node_enum (App.toolbar a)
  = Toolbar_attrs.node_enum (App.toolbar a0)
  ∧ Toolbar_attrs.node_file (App.toolbar a)
    = Toolbar_attrs.node_file (App.toolbar a0).

(** ** Triples

    [hoare P m Q E]: run from a state in [P], the method [m] either returns
    [v] in a state in [Q v] or raises in a state in [E]. *)
Definition hoare {A} (P : App.t → Prop) (m : M A)
    (Q : A → App.t → Prop) (E : App.t → Prop) : Prop :=
  ∀ a, P a →
    match m a with
    | (Returns v, a') => Q v a'
    | (Raises _, a') => E a'
    end.

(** [keeps I m]: whatever [m] does, it leaves a state in [I] in [I]. *)
Definition keeps {A} (I : App.t → Prop) (m : M A) : Prop :=
  hoare I m (λ _, I) I.

(** ** States of the sample application *)

(** The start button has been clicked and the start task is in flight. *)
Definition starting : App.t := exec Toolbar.click_start sample.

(** [click_start] and [click_stop] up to the launch of their task. *)
Definition before_start : M unit :=
  call (change_menubar_item_state true);;
  modify_canvas (Canvas.set_mode GraphMode.SELECT);;
  f ← self Toolbar_attrs.design_frame;
  enable_buttons f false.

Definition before_stop : M unit :=
  call (change_menubar_item_state false);;
  call close_mobility_players;;
  f ← self Toolbar_attrs.runtime_frame;
  enable_buttons f false.

(** The start has succeeded: the session runs. *)
Definition running : App.t :=
  exec (handler (Task_done 0 (StartSessionResponse true []))) starting.

(** The stop button has been clicked and the stop task is in flight. *)
Definition stopping : App.t := exec Toolbar.click_stop running.

(** ** Button lists *)

(** The application with another list of buttons. *)
Definition with_buttons (l : list Button.t) (a : App.t) : App.t :=
  App.set_tk (Tk.set_buttons l (App.tk a)) a.

(** The buttons after [button.state(["!pressed"])] on each of [rs], and
    after [button.state(["pressed"])] on [b]. *)
Definition unpress (rs : list nat) (l : list Button.t) : list Button.t :=
  foldl (λ l b, alter (Button.set_pressed false) b l) l rs.
Definition press (b : nat) (l : list Button.t) : list Button.t :=
  alter (Button.set_pressed true) b l.

(** ** Pickers *)

(** Two picker buttons are clicked before the event loop shows the first
    picker; then both are shown. *)
Definition two_pickers : App.t :=
  exec (handler Idle)
    (exec (handler Idle)
       (exec (handler (Click 4)) (exec (handler (Click 3)) sample))).

(** One picker is shown: the node button was clicked and [_show] has run. *)
Definition picker_shown : App.t :=
  exec (handler Idle) (exec (handler (Click 3)) sample).

(** What a method that opens a picker may not touch, seen from [a0]: every
    picker of [a0] is still there, exactly as it was, and the canvas, the
    call log and every attribute of the toolbar but [picker] are the same. *)
Definition untouched (a0 x : App.t) : Prop :=
  (∀ p y, Tk.pickers (App.tk a0) !! p = Some y →
          Tk.pickers (App.tk x) !! p = Some y)
  ∧ App.canvas x = App.canvas a0
  ∧ App.calls x = App.calls a0
  ∧ Toolbar_attrs.set_picker None (App.toolbar x)
    = Toolbar_attrs.set_picker None (App.toolbar a0).

(** Before the new picker is made: the pickers are those of [a0]. *)
Definition not_yet (a0 x : App.t) : Prop :=
  untouched a0 x ∧ Tk.pickers (App.tk x) = Tk.pickers (App.tk a0).

(** After it is made: [self.picker] is the new picker, the one that comes
    after the pickers of [a0]. *)
Definition made (a0 x : App.t) : Prop :=
  untouched a0 x
  ∧ Toolbar_attrs.picker (App.toolbar x)
    = Some (length (Tk.pickers (App.tk a0)))
  ∧ length (Tk.pickers (App.tk a0)) < length (Tk.pickers (App.tk x)).

(** ** Further invariants of a running application *)

(** When no task is in flight, every button of the frame on top is
    enabled. *)
Definition controls_ok (a : App.t) : Prop :=
  App.tasks a = [] → all_enabled a (on_top a).

(** The payload of the canvas mode is there when the mode needs it: a node
    to draw in mode [NODE], a shape type in mode [ANNOTATION]. *)
Definition payload_ok (c : Canvas.t) : Prop :=
  (Canvas.mode c = GraphMode.NODE → is_Some (Canvas.node_draw c))
  ∧ (Canvas.mode c = GraphMode.ANNOTATION →
     is_Some (Canvas.annotation_type c)).
Definition canvas_ok (a : App.t) : Prop := payload_ok (App.canvas a).

(** The marker dialogs that were shown and not destroyed since, read from
    the call log (most recent call first). *)
Fixpoint alive (calls : list Call) : list nat :=
  match calls with
  | [] => []
  | MarkerDialog_show d :: rest => d :: alive rest
  | MarkerDialog_destroy d :: rest =>
      List.filter (λ x, negb (Nat.eqb x d)) (alive rest)
  | _ :: rest => alive rest
  end.

(** The one marker dialog alive, if any, is [self.marker_tool]. *)
Definition dialogs_ok (a : App.t) : Prop :=
  alive (App.calls a)
  = match Toolbar_attrs.marker_tool (App.toolbar a) with
    | Some d => [d]
    | None => []
    end.

(** The buttons after the same change [g] to each button of [cs]. *)
Definition alter_all (g : Button.t → Button.t) (cs : list nat)
    (l : list Button.t) : list Button.t :=
  foldl (λ l c, alter g c l) l cs.

(** The session runs and the marker tool was clicked twice. *)
Definition marked_twice : App.t :=
  exec (handler (Click 8)) (exec (handler (Click 8)) running).

(** The node picker was shown, its first option picked, and [_show] has
    returned. *)
Definition node_picked : App.t :=
  exec (handler Window_closed) (exec (handler (Release_option 10)) picker_shown).

(** A button without its picture. *)
Definition no_image (x : Button.t) : Button.t :=
  Button.set_image None (Button.set_image_attr None x).

(** [same_but_images a0 a]: from [a0] to [a] nothing has changed but the
    pictures on buttons. *)
Definition same_but_images (a0 a : App.t) : Prop :=
  a = with_buttons (Tk.buttons (App.tk a)) a0
  ∧ no_image <$> Tk.buttons (App.tk a) = no_image <$> Tk.buttons (App.tk a0).

(** The option button a picker shows for an image: the picture at picker
    size, and a release binding that calls [func] with the picture at toolbar
    size. *)
Definition option_button (image bar_image : PhotoImage) (func : OptionFunc)
    : Button.t :=
  Button.mk (Some image) (Some image) false false None (Some (func, bar_image)).

(** The application after an option button was added to picker [p]. *)
Definition with_option (p : nat) (b : Button.t) (a : App.t) : App.t :=
  App.set_tk
    (Tk.set_buttons (Tk.buttons (App.tk a) ++ [b])
       (Tk.set_pickers
          (alter (λ x, Picker.set_children
                         (Picker.children x ++ [length (Tk.buttons (App.tk a))])
                         x)
             p (Tk.pickers (App.tk a)))
          (App.tk a)))
    a.

(** The application after option buttons [bs] were added, one after the
    other, to picker [p]. *)
Definition with_options (p : nat) (bs : list Button.t) (a : App.t) : App.t :=
  foldl (λ s b, with_option p b s) a bs.

(** The option a picker shows for a node of the tables [NodeUtils.NODES] and
    [NodeUtils.NETWORK_NODES]: its icon, and the call of [update_button] for
    the toolbar button [button]. A node without image enum has none. *)
Definition node_option (button : option nat) (type_enum : NodeTypeEnum.t)
    (node_draw : NodeDraw.t) : option Button.t :=
  e ← NodeDraw.image_enum node_draw;
  Some (option_button (get_icon e PICKER_SIZE) (get_icon e TOOLBAR_SIZE)
          (partial_update_button button node_draw type_enum)).

(** The option for a custom node: the picture comes from its image file. *)
Definition custom_option (button : option nat) (node_draw : NodeDraw.t)
    : option Button.t :=
  file ← NodeDraw.image_file node_draw;
  Some (option_button (get_custom_icon file PICKER_SIZE)
          (get_custom_icon file TOOLBAR_SIZE)
          (partial_update_button button node_draw NodeTypeEnum.NODE)).

(** The option for a shape of the annotation picker. *)
Definition shape_option (x : ImageEnum.t * ShapeType.t) : Button.t :=
  option_button (get_icon x.1 PICKER_SIZE) (get_icon x.1 TOOLBAR_SIZE)
    (partial_update_annotation x.2 x.1).

(** The application after a picker for the toolbar button [b] was drawn with
    the options [opts]: [b] is the selected design toggle, the picker is
    made, filled, stored in [self.picker] and queued for display. *)
Definition drawn (b : nat) (opts : list Button.t) (a : App.t) : App.t :=
  let p := length (Tk.pickers (App.tk a)) in
  let radios := toggles a (Toolbar_attrs.design_frame (App.toolbar a)) in
  App.set_toolbar (Toolbar_attrs.set_picker (Some p) (App.toolbar a))
    (App.set_tk
       (Tk.set_after (Tk.after (App.tk a) ++ [p])
          (Tk.set_pickers
             (Tk.pickers (App.tk a)
              ++ [Picker.mk (Some b)
                    (seq (length (Tk.buttons (App.tk a))) (length opts))
                    false false])
             (Tk.set_buttons
                (press b (unpress radios (Tk.buttons (App.tk a))) ++ opts)
                (App.tk a))))
       a).

(** The buttons that open a picker. *)
Definition picker_buttons (s : Toolbar_attrs.t) : list (option nat) :=
  [ Toolbar_attrs.node_button s; Toolbar_attrs.network_button s;
    Toolbar_attrs.annotation_button s ].

(** Every node of the three tables has the picture its picker asks for. *)
Definition pictures_ok (a : App.t) : Prop :=
  Forall (λ nd, is_Some (NodeDraw.image_enum nd)) (App.NODES a)
  ∧ map_Forall (λ _ nd, is_Some (NodeDraw.image_file nd)) (App.custom_nodes a)
  ∧ Forall (λ nd, is_Some (NodeDraw.image_enum nd)) (App.NETWORK_NODES a).

(** No picker holds the pointer or waits to be shown. *)
Definition no_picker_about (a : App.t) : Prop :=
  Tk.grab (App.tk a) = None
  ∧ Tk.binding_all (App.tk a) = None
  ∧ Tk.after (App.tk a) = [].

(** Two pickers were shown at once; then the pointer was released and the
    [_show] of the second picker has returned. *)
Definition left_open : App.t :=
  exec (handler Window_closed) (exec (handler Release_elsewhere) two_pickers).

(** An application with two default nodes and two custom nodes. *)
Definition host : NodeDraw.t :=
  NodeDraw.mk "host" (Some (ImageEnum.Named "host")) None.
Definition zebra : NodeDraw.t := NodeDraw.mk "zebra" None (Some "zebra.png").
Definition ant : NodeDraw.t := NodeDraw.mk "ant" None (Some "ant.png").
Definition customized : App.t :=
  exec Toolbar.__init__
    (blank (Canvas.mk GraphMode.SELECT None None) [router; host] [hub]
       (<["zebra" := zebra]> (<["ant" := ant]> ∅))).

(** * Proofs *)

(** ** The rules of the triples *)

Lemma hoare_ret {A} (P : App.t → Prop) (v : A) Q E :
  (∀ a, P a → Q v a) → hoare P (mret v) Q E.
Proof. intros H a Ha. cbn. auto. Qed.

Lemma hoare_bind {A B} P (m : M A) (f : A → M B) Q R E :
  hoare P m Q E → (∀ v, hoare (Q v) (f v) R E) → hoare P (m ≫= f) R E.
Proof.
  intros Hm Hf a Ha. specialize (Hm a Ha).
  unfold mbind, M_bind. destruct (m a) as [[v|e] a']; [|done].
  by apply Hf.
Qed.

Lemma hoare_conseq {A} (P P' : App.t → Prop) (m : M A) Q Q' E E' :
  hoare P' m Q' E' → (∀ a, P a → P' a) → (∀ v a, Q' v a → Q v a) →
  (∀ a, E' a → E a) → hoare P m Q E.
Proof.
  intros Hm HP HQ HE a Ha. specialize (Hm a (HP a Ha)).
  destruct (m a) as [[v|e] a']; auto.
Qed.

Lemma keeps_ret {A} I (v : A) : keeps I (mret v).
Proof. by apply hoare_ret. Qed.

Lemma keeps_bind {A B} I (m : M A) (f : A → M B) :
  keeps I m → (∀ v, keeps I (f v)) → keeps I (m ≫= f).
Proof. intros Hm Hf. eapply hoare_bind; [exact Hm|exact Hf]. Qed.

Lemma keeps_raise {A} I e : keeps I (@raise A e).
Proof. intros a Ha. done. Qed.

Lemma keeps_gets {A} I (f : App.t → A) : keeps I (gets f).
Proof. intros a Ha. done. Qed.

Lemma keeps_attr {A} I (o : option A) : keeps I (attr o).
Proof. destruct o; [apply keeps_ret|apply keeps_raise]. Qed.

Lemma keeps_modify I f : (∀ a, I a → I (f a)) → keeps I (modify f).
Proof. intros H a Ha. cbn. auto. Qed.

Lemma keeps_for_each {A} I (xs : list A) body :
  (∀ x, keeps I (body x)) → keeps I (for_each xs body).
Proof.
  intros H. induction xs as [|x xs IH]; cbn [for_each].
  - apply keeps_ret.
  - apply keeps_bind; auto.
Qed.

Lemma keeps_exec {A} I (m : M A) a : keeps I m → I a → I (exec m a).
Proof.
  intros H Ha. specialize (H a Ha). unfold exec.
  by destruct (m a) as [[v|e] a'].
Qed.

(** ** Methods that leave the session alone *)

Lemma steady_refl a : steady a a.
Proof. repeat split; eauto. Qed.

Lemma steady_trans a b c : steady a b → steady b c → steady a c.
Proof.
  intros (W1 & B1 & S1 & T1 & L1) (W2 & B2 & S2 & T2 & L2).
  repeat split; try congruence.
  intros i x Hx. destruct (L1 i x Hx) as (y & Hy & Hc & Hd).
  destruct (L2 i y Hy) as (z & Hz & Hc' & Hd').
  exists z. repeat split; congruence.
Qed.

(** A step that is steady from every state keeps [steady a0]. *)
Lemma keeps_steady {A} a0 (m : M A) :
  (∀ a, steady a (exec m a)) → keeps (steady a0) m.
Proof.
  intros H a Ha. specialize (H a). unfold exec in H.
  destruct (m a) as [[v|e] a']; eapply steady_trans; eauto.
Qed.

Lemma steady_alter a i f :
  (∀ b, Button.command (f b) = Button.command b
        ∧ Button.disabled (f b) = Button.disabled b) →
  steady a
    (App.set_tk (Tk.set_buttons (alter f i (Tk.buttons (App.tk a))) (App.tk a))
       a).
Proof.
  intros Hf. repeat split; cbn; try done.
  intros j b Hb. destruct (decide (i = j)) as [->|Hne].
  - exists (f b). rewrite list_lookup_alter. rewrite decide_True by done.
    rewrite Hb. cbn. destruct (Hf b). done.
  - exists b. by rewrite list_lookup_alter_ne.
Qed.

Lemma steady_alter_button a i f :
  (∀ b, Button.command (f b) = Button.command b
        ∧ Button.disabled (f b) = Button.disabled b) →
  steady a (exec (alter_button i f) a).
Proof.
  intros Hf. unfold exec, alter_button, the_button, mbind, M_bind.
  destruct (Tk.buttons (App.tk a) !! i); cbn.
  - by apply steady_alter.
  - apply steady_refl.
Qed.

(** A change of Tk that touches neither buttons, bars nor stacking. *)
Lemma steady_modify_tk a g :
  Tk.buttons (g (App.tk a)) = Tk.buttons (App.tk a) →
  Tk.bars (g (App.tk a)) = Tk.bars (App.tk a) →
  Tk.stacking (g (App.tk a)) = Tk.stacking (App.tk a) →
  steady a (exec (modify_tk g) a).
Proof.
  intros Hb Hf Hs. repeat split; cbn; try done.
  intros i b Hi. exists b. by rewrite Hb.
Qed.

Lemma steady_alter_picker a p f : steady a (exec (alter_picker p f) a).
Proof.
  unfold exec, alter_picker, the_picker, mbind, M_bind.
  destruct (Tk.pickers (App.tk a) !! p); cbn.
  - apply (steady_modify_tk a (λ k, Tk.set_pickers _ k)); done.
  - apply steady_refl.
Qed.

Lemma steady_append a x :
  steady a
    (App.set_tk (Tk.set_buttons (Tk.buttons (App.tk a) ++ [x]) (App.tk a)) a).
Proof.
  repeat split; cbn; try done.
  intros i b Hi. exists b. split; [|done].
  by apply lookup_app_l_Some.
Qed.

Lemma steady_ttk_Button a p image func :
  steady a (exec (ttk_Button (in_picker p) image func) a).
Proof.
  unfold exec, ttk_Button, mbind, M_bind. cbn.
  pose proof (steady_alter_picker a p
    (λ x, Picker.set_children
            (Picker.children x ++ [length (Tk.buttons (App.tk a))]) x)) as H.
  unfold exec in H.
  destruct (alter_picker p _ a) as [[v|e] a'] eqn:E; cbn in *; [|done].
  eapply steady_trans; [exact H|]. apply steady_append.
Qed.

Create HintDb keeps discriminated.

Lemma keeps_the_button I i : keeps I (the_button i).
Proof. intros a Ha. unfold the_button. by destruct (_ !! _). Qed.
Lemma keeps_the_bar I f : keeps I (the_bar f).
Proof. intros a Ha. unfold the_bar. by destruct (_ !! _). Qed.
Lemma keeps_the_picker I p : keeps I (the_picker p).
Proof. intros a Ha. unfold the_picker. by destruct (_ !! _). Qed.
Lemma keeps_self {A} I (f : Toolbar_attrs.t → A) : keeps I (self f).
Proof. apply keeps_gets. Qed.
Lemma keeps_getitem I d name : keeps I (getitem d name).
Proof. unfold getitem. destruct (d !! name); [apply keeps_ret|apply keeps_raise]. Qed.

#[local] Hint Resolve keeps_ret keeps_raise keeps_gets keeps_attr keeps_self
  keeps_the_button keeps_the_bar keeps_the_picker keeps_getitem : keeps.

(** Splitting a method along its statements. *)
Ltac keeps_tac :=
  repeat first
    [ solve [eauto 2 with keeps]
    | apply keeps_bind; [|intros ?]
    | apply keeps_for_each; intros ?
    | match goal with
      | |- keeps _ (match ?x with _ => _ end) => destruct x eqn:?
      | |- keeps _ (let '(_, _) := ?x in _) => destruct x
      end ].

Lemma steady_state_pressed a0 b on : keeps (steady a0) (state_pressed b on).
Proof. apply keeps_steady. intros a. by apply steady_alter_button. Qed.
Lemma steady_configure_image a0 b im : keeps (steady a0) (configure_image b im).
Proof. apply keeps_steady. intros a. by apply steady_alter_button. Qed.
Lemma steady_assign_image a0 b im : keeps (steady a0) (assign_image b im).
Proof. apply keeps_steady. intros a. by apply steady_alter_button. Qed.
Lemma steady_bind_release a0 b f im : keeps (steady a0) (bind_release b f im).
Proof. apply keeps_steady. intros a. by apply steady_alter_button. Qed.
Lemma steady_keeps_alter_picker a0 p f : keeps (steady a0) (alter_picker p f).
Proof. apply keeps_steady. intros a. apply steady_alter_picker. Qed.
Lemma steady_keeps_ttk_Button a0 p im c :
  keeps (steady a0) (ttk_Button (in_picker p) im c).
Proof. apply keeps_steady. intros a. apply steady_ttk_Button. Qed.

Lemma steady_set_after a0 v : keeps (steady a0) (modify_tk (Tk.set_after v)).
Proof. apply keeps_steady. intros a. by apply steady_modify_tk. Qed.
Lemma steady_set_grab a0 v : keeps (steady a0) (modify_tk (Tk.set_grab v)).
Proof. apply keeps_steady. intros a. by apply steady_modify_tk. Qed.
Lemma steady_set_binding_all a0 v :
  keeps (steady a0) (modify_tk (Tk.set_binding_all v)).
Proof. apply keeps_steady. intros a. by apply steady_modify_tk. Qed.
Lemma steady_set_waiting a0 v :
  keeps (steady a0) (modify_tk (Tk.set_waiting v)).
Proof. apply keeps_steady. intros a. by apply steady_modify_tk. Qed.

Lemma steady_modify_canvas a0 g : keeps (steady a0) (modify_canvas g).
Proof. apply keeps_steady. intros a. repeat split; cbn; eauto. Qed.
Lemma steady_call a0 c : keeps (steady a0) (call c).
Proof. apply keeps_steady. intros a. repeat split; cbn; eauto. Qed.
Lemma steady_MarkerDialog a0 : keeps (steady a0) MarkerDialog.
Proof. apply keeps_steady. intros a. repeat split; cbn; eauto. Qed.

(** Assignments to the attributes that are not widgets of the toolbar. *)
Lemma steady_setattr a0 g :
  (∀ s, widgets_of (g s) = widgets_of s) →
  keeps (steady a0) (Toolbar.setattr g).
Proof.
  intros Hg. apply keeps_steady. intros a. repeat split; cbn; eauto.
Qed.

#[local] Hint Resolve steady_state_pressed steady_configure_image
  steady_assign_image steady_bind_release steady_keeps_alter_picker
  steady_keeps_ttk_Button steady_set_after steady_set_grab
  steady_set_binding_all steady_set_waiting steady_modify_canvas steady_call
  steady_MarkerDialog : keeps.
#[local] Hint Extern 1 (keeps (steady _) (Toolbar.setattr _)) =>
  apply steady_setattr; intros ?; reflexivity : keeps.

Lemma steady_destroy a0 p : keeps (steady a0) (destroy p).
Proof.
  unfold destroy. keeps_tac.
  apply keeps_steady. intros a. apply steady_modify_tk; by case_decide.
Qed.
#[local] Hint Resolve steady_destroy : keeps.

Lemma steady_release_all a0 : keeps (steady a0) release_all.
Proof. unfold release_all. keeps_tac. Qed.

Lemma steady_select_radio a0 f sel :
  keeps (steady a0) (ButtonBar.select_radio f sel).
Proof. unfold ButtonBar.select_radio. keeps_tac. Qed.

Lemma steady_PickerFrame_init a0 b : keeps (steady a0) (PickerFrame.__init__ b).
Proof.
  unfold PickerFrame.__init__. keeps_tac.
  apply keeps_steady. intros a. by apply steady_modify_tk.
Qed.

Lemma steady_create_button a0 p e f :
  keeps (steady a0) (PickerFrame.create_button p e f).
Proof.
  unfold PickerFrame.create_button, PickerFrame._create_button. keeps_tac.
Qed.

Lemma steady_create_custom_button a0 p e f :
  keeps (steady a0) (PickerFrame.create_custom_button p e f).
Proof.
  unfold PickerFrame.create_custom_button, PickerFrame._create_button.
  keeps_tac.
Qed.

Lemma steady_show a0 p : keeps (steady a0) (PickerFrame.show p).
Proof.
  unfold PickerFrame.show. keeps_tac.
  apply keeps_steady. intros a. by apply steady_modify_tk.
Qed.

Lemma steady_show_enter a0 p : keeps (steady a0) (PickerFrame._show_enter p).
Proof.
  unfold PickerFrame._show_enter. keeps_tac.
  apply keeps_steady. intros a. by apply steady_modify_tk.
Qed.

Lemma steady_show_leave a0 p : keeps (steady a0) (PickerFrame._show_leave p).
Proof. unfold PickerFrame._show_leave. keeps_tac. Qed.

#[local] Hint Resolve steady_release_all steady_select_radio
  steady_PickerFrame_init steady_create_button steady_create_custom_button
  steady_show steady_show_enter steady_show_leave : keeps.

Lemma steady_click_selection a0 : keeps (steady a0) Toolbar.click_selection.
Proof. unfold Toolbar.click_selection. keeps_tac. Qed.
Lemma steady_click_runtime_selection a0 :
  keeps (steady a0) Toolbar.click_runtime_selection.
Proof. unfold Toolbar.click_runtime_selection. keeps_tac. Qed.
Lemma steady_click_link a0 : keeps (steady a0) Toolbar.click_link.
Proof. unfold Toolbar.click_link. keeps_tac. Qed.
Lemma steady_update_button a0 b n t im :
  keeps (steady a0) (Toolbar.update_button b n t im).
Proof. unfold Toolbar.update_button. keeps_tac. Qed.
Lemma steady_draw_node_picker a0 : keeps (steady a0) Toolbar.draw_node_picker.
Proof. unfold Toolbar.draw_node_picker. keeps_tac. Qed.
Lemma steady_draw_network_picker a0 :
  keeps (steady a0) Toolbar.draw_network_picker.
Proof. unfold Toolbar.draw_network_picker. keeps_tac. Qed.
Lemma steady_draw_annotation_picker a0 :
  keeps (steady a0) Toolbar.draw_annotation_picker.
Proof. unfold Toolbar.draw_annotation_picker. keeps_tac. Qed.
Lemma steady_open_marker_tool a0 : keeps (steady a0) Toolbar.open_marker_tool.
Proof. unfold Toolbar.open_marker_tool. keeps_tac. Qed.
#[local] Hint Resolve steady_open_marker_tool : keeps.
Lemma steady_update_annotation a0 s e im :
  keeps (steady a0) (Toolbar.update_annotation s e im).
Proof. unfold Toolbar.update_annotation. keeps_tac. Qed.
Lemma steady_click_run_button a0 : keeps (steady a0) Toolbar.click_run_button.
Proof. unfold Toolbar.click_run_button. keeps_tac. Qed.
Lemma steady_click_marker_button a0 :
  keeps (steady a0) Toolbar.click_marker_button.
Proof. unfold Toolbar.click_marker_button. keeps_tac. Qed.
Lemma steady_scale_button a0 b e f :
  keeps (steady a0) (Toolbar.scale_button b e f).
Proof. unfold Toolbar.scale_button. keeps_tac. Qed.
#[local] Hint Resolve steady_scale_button : keeps.
Lemma steady_scale a0 : keeps (steady a0) Toolbar.scale.
Proof. unfold Toolbar.scale. keeps_tac. Qed.
Lemma steady_run_option a0 f im : keeps (steady a0) (run_option f im).
Proof.
  destruct f; cbn; [apply steady_update_button|apply steady_update_annotation].
Qed.

(** ** Methods and the sources of the node image *)

Lemma icon_ok_toolbar a a' :
  App.toolbar a' = App.toolbar a → icon_ok a → icon_ok a'.
Proof. unfold icon_ok. by intros ->. Qed.

Lemma icon_modify f :
  (∀ a, App.toolbar (f a) = App.toolbar a) → keeps icon_ok (modify f).
Proof. intros H. apply keeps_modify. intros a. apply icon_ok_toolbar, H. Qed.

Lemma icon_setattr g :
  (∀ s, Toolbar_attrs.node_enum (g s) = Toolbar_attrs.node_enum s
        ∧ Toolbar_attrs.node_file (g s) = Toolbar_attrs.node_file s) →
  keeps icon_ok (Toolbar.setattr g).
Proof.
  intros H. apply keeps_modify. intros a. unfold icon_ok. cbn.
  destruct (H (App.toolbar a)) as [-> ->]. done.
Qed.

#[local] Hint Extern 1 (keeps icon_ok (modify_tk _)) =>
  apply icon_modify; intros ?; reflexivity : keeps.
#[local] Hint Extern 1 (keeps icon_ok (modify_canvas _)) =>
  apply icon_modify; intros ?; reflexivity : keeps.
#[local] Hint Extern 1 (keeps icon_ok (call _)) =>
  apply icon_modify; intros ?; reflexivity : keeps.
#[local] Hint Extern 1 (keeps icon_ok (modify _)) =>
  apply icon_modify; intros ?; reflexivity : keeps.
#[local] Hint Extern 1 (keeps icon_ok (Toolbar.setattr _)) =>
  apply icon_setattr; intros ?; split; reflexivity : keeps.

Lemma icon_alter_button i f : keeps icon_ok (alter_button i f).
Proof. unfold alter_button. keeps_tac. Qed.
Lemma icon_alter_bar i f : keeps icon_ok (alter_bar i f).
Proof. unfold alter_bar. keeps_tac. Qed.
Lemma icon_alter_picker i f : keeps icon_ok (alter_picker i f).
Proof. unfold alter_picker. keeps_tac. Qed.
#[local] Hint Resolve icon_alter_button icon_alter_bar icon_alter_picker
  : keeps.

Lemma icon_state_pressed b on : keeps icon_ok (state_pressed b on).
Proof. unfold state_pressed. keeps_tac. Qed.
Lemma icon_configure_state b st : keeps icon_ok (configure_state b st).
Proof. unfold configure_state. keeps_tac. Qed.
Lemma icon_configure_image b im : keeps icon_ok (configure_image b im).
Proof. unfold configure_image. keeps_tac. Qed.
Lemma icon_assign_image b im : keeps icon_ok (assign_image b im).
Proof. unfold assign_image. keeps_tac. Qed.
Lemma icon_bind_release b f im : keeps icon_ok (bind_release b f im).
Proof. unfold bind_release. keeps_tac. Qed.
Lemma icon_ttk_Button m im c : keeps icon_ok (ttk_Button m im c).
Proof. unfold ttk_Button. keeps_tac. Qed.
Lemma icon_tkraise f : keeps icon_ok (tkraise f).
Proof. unfold tkraise. keeps_tac. Qed.
Lemma icon_destroy p : keeps icon_ok (destroy p).
Proof. unfold destroy. keeps_tac. Qed.
Lemma icon_MarkerDialog : keeps icon_ok MarkerDialog.
Proof. unfold MarkerDialog. keeps_tac. Qed.
Lemma icon_ProgressTask_start t o c : keeps icon_ok (ProgressTask_start t o c).
Proof. unfold ProgressTask_start. keeps_tac. Qed.
#[local] Hint Resolve icon_state_pressed icon_configure_state
  icon_configure_image icon_assign_image icon_bind_release icon_ttk_Button
  icon_tkraise icon_destroy icon_MarkerDialog icon_ProgressTask_start : keeps.

Lemma icon_enable_buttons f en : keeps icon_ok (enable_buttons f en).
Proof. unfold enable_buttons. keeps_tac. Qed.
Lemma icon_release_all : keeps icon_ok release_all.
Proof. unfold release_all. keeps_tac. Qed.
Lemma icon_select_radio f sel : keeps icon_ok (ButtonBar.select_radio f sel).
Proof. unfold ButtonBar.select_radio. keeps_tac. Qed.
Lemma icon_PickerFrame_init b : keeps icon_ok (PickerFrame.__init__ b).
Proof. unfold PickerFrame.__init__. keeps_tac. Qed.
Lemma icon_create_button p e f : keeps icon_ok (PickerFrame.create_button p e f).
Proof.
  unfold PickerFrame.create_button, PickerFrame._create_button. keeps_tac.
Qed.
Lemma icon_create_custom_button p e f :
  keeps icon_ok (PickerFrame.create_custom_button p e f).
Proof.
  unfold PickerFrame.create_custom_button, PickerFrame._create_button.
  keeps_tac.
Qed.
Lemma icon_show p : keeps icon_ok (PickerFrame.show p).
Proof. unfold PickerFrame.show. keeps_tac. Qed.
Lemma icon_show_enter p : keeps icon_ok (PickerFrame._show_enter p).
Proof. unfold PickerFrame._show_enter. keeps_tac. Qed.
Lemma icon_show_leave p : keeps icon_ok (PickerFrame._show_leave p).
Proof. unfold PickerFrame._show_leave. keeps_tac. Qed.
#[local] Hint Resolve icon_enable_buttons icon_release_all icon_select_radio
  icon_PickerFrame_init icon_create_button icon_create_custom_button
  icon_show icon_show_enter icon_show_leave : keeps.

(** The two assignments of [update_button] go together: between them both
    attributes may be set. *)
Lemma icon_set_enum e :
  keeps icon_ok
    (Toolbar.setattr (Toolbar_attrs.set_node_enum (Some e));;
     Toolbar.setattr (Toolbar_attrs.set_node_file None)).
Proof. intros a _. cbn. left. split; [by eexists|done]. Qed.

Lemma icon_set_file file :
  str_truthy file = true →
  keeps icon_ok
    (Toolbar.setattr (Toolbar_attrs.set_node_file file);;
     Toolbar.setattr (Toolbar_attrs.set_node_enum None)).
Proof. intros H a _. cbn. right. done. Qed.
#[local] Hint Resolve icon_set_enum icon_set_file : keeps.

Lemma icon_update_button b n t im :
  keeps icon_ok (Toolbar.update_button b n t im).
Proof. unfold Toolbar.update_button. keeps_tac. Qed.
Lemma icon_click_selection : keeps icon_ok Toolbar.click_selection.
Proof. unfold Toolbar.click_selection. keeps_tac. Qed.
Lemma icon_click_runtime_selection :
  keeps icon_ok Toolbar.click_runtime_selection.
Proof. unfold Toolbar.click_runtime_selection. keeps_tac. Qed.
#[local] Hint Resolve icon_click_selection icon_click_runtime_selection
  : keeps.
Lemma icon_click_link : keeps icon_ok Toolbar.click_link.
Proof. unfold Toolbar.click_link. keeps_tac. Qed.
Lemma icon_click_start : keeps icon_ok Toolbar.click_start.
Proof. unfold Toolbar.click_start. keeps_tac. Qed.
Lemma icon_click_stop : keeps icon_ok Toolbar.click_stop.
Proof. unfold Toolbar.click_stop. keeps_tac. Qed.
Lemma icon_set_runtime : keeps icon_ok Toolbar.set_runtime.
Proof. unfold Toolbar.set_runtime. keeps_tac. Qed.
Lemma icon_set_design : keeps icon_ok Toolbar.set_design.
Proof. unfold Toolbar.set_design. keeps_tac. Qed.
#[local] Hint Resolve icon_set_runtime icon_set_design : keeps.
Lemma icon_start_callback r : keeps icon_ok (Toolbar.start_callback r).
Proof. unfold Toolbar.start_callback. keeps_tac. Qed.
Lemma icon_stop_callback r : keeps icon_ok (Toolbar.stop_callback r).
Proof. unfold Toolbar.stop_callback. keeps_tac. Qed.
Lemma icon_draw_node_picker : keeps icon_ok Toolbar.draw_node_picker.
Proof. unfold Toolbar.draw_node_picker. keeps_tac. Qed.
Lemma icon_draw_network_picker : keeps icon_ok Toolbar.draw_network_picker.
Proof. unfold Toolbar.draw_network_picker. keeps_tac. Qed.
Lemma icon_draw_annotation_picker :
  keeps icon_ok Toolbar.draw_annotation_picker.
Proof. unfold Toolbar.draw_annotation_picker. keeps_tac. Qed.
Lemma icon_open_marker_tool : keeps icon_ok Toolbar.open_marker_tool.
Proof. unfold Toolbar.open_marker_tool. keeps_tac. Qed.
#[local] Hint Resolve icon_open_marker_tool : keeps.
Lemma icon_update_annotation s e im :
  keeps icon_ok (Toolbar.update_annotation s e im).
Proof. unfold Toolbar.update_annotation. keeps_tac. Qed.
Lemma icon_click_run_button : keeps icon_ok Toolbar.click_run_button.
Proof. unfold Toolbar.click_run_button. keeps_tac. Qed.
Lemma icon_click_marker_button : keeps icon_ok Toolbar.click_marker_button.
Proof. unfold Toolbar.click_marker_button. keeps_tac. Qed.
Lemma icon_scale_button b e f : keeps icon_ok (Toolbar.scale_button b e f).
Proof. unfold Toolbar.scale_button. keeps_tac. Qed.
#[local] Hint Resolve icon_scale_button : keeps.
Lemma icon_scale : keeps icon_ok Toolbar.scale.
Proof. unfold Toolbar.scale. keeps_tac. Qed.

#[local] Hint Resolve icon_update_button icon_click_link icon_click_start
  icon_click_stop icon_start_callback icon_stop_callback
  icon_draw_node_picker icon_draw_network_picker icon_draw_annotation_picker
  icon_update_annotation icon_click_run_button icon_click_marker_button
  icon_scale : keeps.

(** Every event keeps the sources of the node image in order. *)
Lemma icon_handler e : keeps icon_ok (handler e).
Proof.
  destruct e; cbn [handler]; keeps_tac;
    unfold run_command, run_option, run_callback; keeps_tac.
Qed.

(** ** The invariant under steady steps *)

Lemma map_take_agree {A B} (g : A → B) n (l l' : list A) :
  (∀ i, i < n → ∃ b b', l !! i = Some b ∧ l' !! i = Some b' ∧ g b' = g b) →
  map g (take n l') = map g (take n l).
Proof.
  revert l l'. induction n as [|n IH]; intros l l' H; [done|].
  destruct (H 0) as (b & b' & Hb & Hb' & Hg); [lia|].
  destruct l as [|x t]; [done|]. destruct l' as [|x' t']; [done|].
  cbn in Hb, Hb'. simplify_eq. cbn. f_equal; [done|].
  apply IH. intros i Hi. destruct (H (S i)) as (c & c' & ? & ? & ?); [lia|].
  eauto.
Qed.

Lemma built_length a : built a → 10 ≤ length (Tk.buttons (App.tk a)).
Proof.
  intros (_ & _ & Hc).
  apply (f_equal length) in Hc. rewrite length_map, length_take in Hc.
  change (length (_ :: _)) with 10 in Hc. lia.
Qed.

Lemma built_steady a a' : built a → steady a a' → built a'.
Proof.
  intros Hb (W & B & S & T & L). pose proof (built_length a Hb) as Hlen.
  destruct Hb as (Hw & Hbars & Hc). repeat split; try congruence.
  rewrite <- Hc. apply map_take_agree. intros i Hi.
  destruct (lookup_lt_is_Some_2 (Tk.buttons (App.tk a)) i) as [b Hb]; [lia|].
  destruct (L i b Hb) as (b' & Hb' & Hcmd & _). eauto.
Qed.

Lemma steady_is_disabled a a' i :
  steady a a' → i < length (Tk.buttons (App.tk a)) →
  is_disabled a' i = is_disabled a i.
Proof.
  intros (_ & _ & _ & _ & L) Hi.
  destruct (lookup_lt_is_Some_2 (Tk.buttons (App.tk a)) i) as [b Hb]; [lia|].
  destruct (L i b Hb) as (b' & Hb' & _ & Hd).
  unfold is_disabled. by rewrite Hb, Hb'.
Qed.

Lemma steady_all_disabled a a' bs :
  steady a a' → Forall (λ i, i < length (Tk.buttons (App.tk a))) bs →
  all_disabled a bs → all_disabled a' bs.
Proof.
  intros Hs Hlt Hd. unfold all_disabled in *.
  rewrite Forall_forall in *. intros i Hi.
  rewrite (steady_is_disabled a a' i Hs); auto.
Qed.

Lemma session_steady a a' :
  built a → session_ok a → steady a a' → session_ok a'.
Proof.
  intros Hb Hs Hst. pose proof (built_length a Hb) as Hlen.
  pose proof Hst as (_ & _ & S & T & _).
  unfold session_ok in *. rewrite T, S.
  destruct (App.tasks a) as [|t [|]]; [done| |done].
  destruct Hs as [(-> & ? & Hd)|(-> & ? & Hd)]; [left|right];
    repeat split; try done;
    (eapply steady_all_disabled; [exact Hst| |exact Hd]);
    repeat constructor; lia.
Qed.

(** ** The session methods on a built toolbar *)

(** Opening up a built toolbar: its attributes, its two frames and its first
    ten buttons with their commands. *)
Ltac explode a H :=
  destruct a as [[bs brs pks stk bnd grb aft wt]
                 [pb sb lb nb nwb ab rsb stb rmb rcb df rf pk mt ne nf nwe ae]
                 cv N NN cn ts cs dl];
  destruct H as (Hw & Hb & Hc); cbn in Hw, Hb, Hc;
  injection Hw as -> -> -> -> -> -> -> -> -> -> -> ->; subst brs;
  do 10 (destruct bs as [|[? ? ? ? ? ?] bs]; [discriminate Hc|]);
  cbn in Hc; simplify_eq.

Lemma exec_bind {A B} (m : M A) (f : A → M B) a :
  exec (m ≫= f) a
  = match m a with
    | (Returns v, a1) => exec (f v) a1
    | (Raises _, a1) => a1
    end.
Proof. unfold exec, mbind, M_bind. by destruct (m a) as [[v|e] a1]. Qed.

(** After [m;; n] the state is that of [m] followed by [n], or that of [m]
    alone if [m] raised. *)
Lemma exec_seq {A B} (I : App.t → Prop) (m : M A) (n : M B) a :
  I (exec m a) → (∀ x, I x → I (exec n x)) → I (exec (m;; n) a).
Proof.
  intros Hm Hn. rewrite exec_bind. unfold exec in Hm.
  destruct (m a) as [[v|e] a1]; cbn in *; auto.
Qed.

Lemma good_steady a a' :
  built a ∧ session_ok a → steady a a' → built a' ∧ session_ok a'.
Proof.
  intros [Hb Hs] Hst. split; [by eapply built_steady|by eapply session_steady].
Qed.

Lemma good_keeps {A} (m : M A) a :
  (∀ a0, keeps (steady a0) m) → built a ∧ session_ok a →
  built (exec m a) ∧ session_ok (exec m a).
Proof.
  intros Hm Hg. eapply good_steady; [exact Hg|].
  apply keeps_exec; [apply Hm|apply steady_refl].
Qed.

Lemma steady_run_command a0 c :
  c ≠ do_click_start → c ≠ do_click_stop → keeps (steady a0) (run_command c).
Proof.
  intros H1 H2. destruct c; try done; cbn [run_command].
  - apply steady_click_selection.
  - apply steady_click_link.
  - apply steady_draw_node_picker.
  - apply steady_draw_network_picker.
  - apply steady_draw_annotation_picker.
  - apply steady_click_runtime_selection.
  - apply steady_click_marker_button.
  - apply steady_click_run_button.
Qed.

(** The start button can be clicked only while no task is in flight and the
    design frame is on top; the click leaves one start task in flight and
    the design buttons disabled. *)
Lemma click_start_good a :
  built a → session_ok a → enabled (Click 0) a = true →
  App.tasks a = [] ∧ Tk.stacking (App.tk a) = [0; 1]
  ∧ built (exec Toolbar.click_start a)
  ∧ session_ok (exec Toolbar.click_start a).
Proof.
  intros H Hs En. explode a H. unfold session_ok in Hs. cbn in Hs, En.
  apply andb_prop in En as [Top Dis].
  destruct ts as [|t [|]]; [| |done].
  - destruct Hs as [->| ->]; [|by vm_compute in Top].
    clear Top. repeat split.
    unfold session_ok. cbn. left. repeat split. repeat constructor.
  - destruct Hs as [(-> & -> & Hd)|(-> & -> & Hd)].
    + apply Forall_inv in Hd. cbn in Hd. by rewrite Hd in Dis.
    + by vm_compute in Top.
Qed.

Lemma click_stop_good a :
  built a → session_ok a → enabled (Click 6) a = true →
  App.tasks a = [] ∧ Tk.stacking (App.tk a) = [1; 0]
  ∧ built (exec Toolbar.click_stop a)
  ∧ session_ok (exec Toolbar.click_stop a).
Proof.
  intros H Hs En. explode a H. unfold session_ok in Hs. cbn in Hs, En.
  apply andb_prop in En as [Top Dis].
  destruct ts as [|t [|]]; [| |done].
  - destruct Hs as [->| ->]; [by vm_compute in Top|].
    clear Top. repeat split.
    unfold session_ok. cbn. right. repeat split. repeat constructor.
  - destruct Hs as [(-> & -> & Hd)|(-> & -> & Hd)].
    + by vm_compute in Top.
    + apply Forall_inv in Hd. cbn in Hd. by rewrite Hd in Dis.
Qed.

(** Only the start button runs [click_start] and only the stop button runs
    [click_stop]. *)
Lemma command_on_top a b button :
  built a → session_ok a → enabled (Click b) a = true →
  Tk.buttons (App.tk a) !! b = Some button →
  (Button.command button = Some do_click_start → b = 0)
  ∧ (Button.command button = Some do_click_stop → b = 6).
Proof.
  intros H Hs En Hlk. explode a H. cbn in En, Hlk.
  apply andb_prop in En as [Top _]. apply bool_decide_eq_true in Top.
  assert (stk = [0; 1] ∨ stk = [1; 0]) as [-> | ->].
  { unfold session_ok in Hs. cbn in Hs. destruct ts as [|t [|]]; [done| |done].
    destruct Hs as [(_ & -> & _)|(_ & -> & _)]; auto. }
  all: cbn in Top;
    repeat (apply elem_of_cons in Top as [->|Top];
            [cbn in Hlk; simplify_eq; cbn; split; intros; done|]);
    by apply elem_of_nil in Top.
Qed.

Lemma click_good a b :
  built a → session_ok a → enabled (Click b) a = true →
  built (exec (handler (Click b)) a)
  ∧ session_ok (exec (handler (Click b)) a).
Proof.
  intros H Hs En. cbn [handler]. rewrite exec_bind. cbn [gets].
  destruct (Tk.grab (App.tk a)).
  { apply good_keeps; [apply steady_release_all|done]. }
  rewrite exec_bind. unfold the_button.
  destruct (Tk.buttons (App.tk a) !! b) as [button|] eqn:Hb; [|done].
  destruct (command_on_top a b button H Hs En Hb) as [Hstart Hstop].
  apply (exec_seq (λ x, built x ∧ session_ok x)).
  2:{ intros x Hx. apply good_keeps; [apply steady_release_all|done]. }
  destruct (Button.command button) as [c|]; [|done].
  destruct (decide (c = do_click_start)) as [->|Hn1].
  { rewrite Hstart in En by done. by apply click_start_good. }
  destruct (decide (c = do_click_stop)) as [->|Hn2].
  { rewrite Hstop in En by done. by apply click_stop_good. }
  apply good_keeps; [|done]. intros a0. by apply steady_run_command.
Qed.

(** The task that completes is the only one in flight. *)
Lemma task_done_only a i r :
  session_ok a → enabled (Task_done i r) a = true →
  i = 0
  ∧ ((App.tasks a = [start_task] ∧ ∃ res xs, r = StartSessionResponse res xs)
     ∨ (App.tasks a = [stop_task] ∧ ∃ res, r = StopSessionResponse res)).
Proof.
  unfold session_ok. cbn [enabled]. intros Hs En.
  destruct (App.tasks a) as [|t [|]]; [done| |done].
  destruct i as [|i]; [|done]. cbn in En. split; [done|].
  destruct Hs as [(-> & _)|(-> & _)]; destruct r; try done; eauto.
Qed.

Lemma task_done_good a i r :
  built a → session_ok a → enabled (Task_done i r) a = true →
  built (exec (handler (Task_done i r)) a)
  ∧ session_ok (exec (handler (Task_done i r)) a).
Proof.
  intros H Hs En.
  destruct (task_done_only a i r Hs En)
    as (-> & [(Ht & res & xs & ->)|(Ht & res & ->)]);
    explode a H; cbn in Ht; subst ts; unfold session_ok in Hs; cbn in Hs;
    destruct Hs as [(? & -> & _)|(? & -> & _)]; try done.
  - destruct res; repeat split; unfold session_ok; vm_compute; auto.
  - repeat split; unfold session_ok; vm_compute; auto.
Qed.

Lemma steady_handler a0 e :
  (∀ b, e ≠ Click b) → (∀ i r, e ≠ Task_done i r) →
  keeps (steady a0) (handler e).
Proof.
  intros H1 H2. destruct e as [b|b| | | |i r|];
    [by destruct (H1 b)| | | | |by destruct (H2 i r)|];
    cbn [handler]; keeps_tac.
  apply steady_run_option.
Qed.

Lemma invariant_fire a e a' :
  invariant a → fire e a = Some a' → invariant a'.
Proof.
  intros (Hb & Hs & Hi) Hf. unfold fire in Hf.
  destruct (enabled e a) eqn:En; [|done]. injection Hf as <-.
  assert (built (exec (handler e) a) ∧ session_ok (exec (handler e) a))
    as [Hb' Hs'].
  { destruct e; try (apply good_keeps; [|done]; intros a0;
                     by apply steady_handler).
    - by apply click_good.
    - by apply task_done_good. }
  split; [done|split; [done|]]. apply keeps_exec; [apply icon_handler|done].
Qed.

Lemma invariant_new canvas nodes network_nodes custom_nodes :
  invariant
    (exec Toolbar.__init__ (blank canvas nodes network_nodes custom_nodes)).
Proof.
  unfold invariant, built, session_ok, icon_ok. vm_compute.
  repeat split; auto. left. split; [by eexists|done].
Qed.

(** Every state of a running application satisfies the invariant. *)
Lemma invariant_reachable a : reachable a → invariant a.
Proof.
  induction 1 as [| a e a' _ IH Hf].
  - apply invariant_new.
  - by eapply invariant_fire.
Qed.

(** ** The requests *)

Lemma reachable_sample : reachable sample.
Proof. apply reach_new. Qed.

Lemma reachable_starting : reachable starting.
Proof.
  apply (reach_fire sample (Click 0)); [apply reachable_sample|].
  by vm_compute.
Qed.

(** The state in which [click_start] launches its task, and the state it
    leaves, on a built toolbar. *)
Lemma click_start_built a :
  built a →
  ∃ a1,
    Toolbar.click_start a
    = ProgressTask_start "Start" start_session do_start_callback a1
    ∧ built a1
    ∧ all_disabled a1 (design_group a1)
    ∧ App.tasks a1 = App.tasks a
    ∧ App.calls a1 = change_menubar_item_state true :: App.calls a
    ∧ Canvas.mode (App.canvas a1) = GraphMode.SELECT.
Proof.
  intros H. exists (exec before_start a). explode a H.
  split; [vm_compute; reflexivity|].
  unfold built, all_disabled. vm_compute. repeat split. repeat constructor.
Qed.

Lemma click_stop_built a :
  built a →
  ∃ a1,
    Toolbar.click_stop a
    = ProgressTask_start "Stop" stop_session do_stop_callback a1
    ∧ built a1
    ∧ all_disabled a1 (runtime_group a1)
    ∧ App.tasks a1 = App.tasks a
    ∧ App.calls a1
      = close_mobility_players :: change_menubar_item_state false
        :: App.calls a.
Proof.
  intros H. exists (exec before_stop a). explode a H.
  split; [vm_compute; reflexivity|].
  unfold built, all_disabled. vm_compute. repeat split. repeat constructor.
Qed.

Lemma built_widgets a :
  built a →
  let s := App.toolbar a in
  Toolbar_attrs.play_button s = Some 0
  ∧ Toolbar_attrs.stop_button s = Some 6
  ∧ Toolbar_attrs.select_button s = Some 1
  ∧ Toolbar_attrs.runtime_select_button s = Some 7
  ∧ Toolbar_attrs.design_frame s = Some 0
  ∧ Toolbar_attrs.runtime_frame s = Some 1.
Proof.
  intros (Hw & _). unfold widgets_of in Hw. cbn. by simplify_eq.
Qed.








(** ** The completion handlers *)

(** A start task that completes is the only task in flight, and the design
    frame is on top. *)
Lemma start_done_shape a i res xs :
  invariant a → enabled (Task_done i (StartSessionResponse res xs)) a = true →
  i = 0 ∧ App.tasks a = [start_task] ∧ Tk.stacking (App.tk a) = [0; 1].
Proof.
  intros (_ & Hs & _) En.
  destruct (task_done_only a i _ Hs En) as (-> & [(Ht & _)|(_ & ? & ?)]);
    [|done].
  unfold session_ok in Hs. rewrite Ht in Hs.
  by destruct Hs as [(_ & ? & _)|(? & _)].
Qed.

Lemma stop_done_shape a i res :
  invariant a → enabled (Task_done i (StopSessionResponse res)) a = true →
  i = 0 ∧ App.tasks a = [stop_task] ∧ Tk.stacking (App.tk a) = [1; 0].
Proof.
  intros (_ & Hs & _) En.
  destruct (task_done_only a i _ Hs En)
    as (-> & [(_ & ? & ? & ?)|(Ht & _)]); [done|].
  unfold session_ok in Hs. rewrite Ht in Hs.
  by destruct Hs as [(? & _)|(_ & ? & _)].
Qed.





(** C5: every stop completion, whatever the response, ends in phase
    [Design] with every design button enabled, the design selection tool
    selected (canvas mode Select), the design frame on top, and one call of
    [stopped_session] on the canvas; [stop_callback] does not look at its
    response, so there is no failure path. *)
Theorem stop_completion_returns_to_design a i res a' :
  reachable a →
  fire (Task_done i (StopSessionResponse res)) a = Some a' →
  phase a' = Design
  ∧ all_enabled a' (design_group a')
  ∧ design_group a' = [0; 1; 2; 3; 4; 5]
  ∧ (∃ b, Toolbar_attrs.select_button (App.toolbar a') = Some b
          ∧ selected a'
              (toggles a' (Toolbar_attrs.design_frame (App.toolbar a')))
            = [b])
  ∧ Canvas.mode (App.canvas a') = GraphMode.SELECT
  ∧ is_Some (raised a')
  ∧ raised a' = Toolbar_attrs.design_frame (App.toolbar a')
  ∧ App.calls a' = stopped_session :: App.calls a
  ∧ count_call stopped_session (App.calls a')
    = S (count_call stopped_session (App.calls a))
  ∧ (∀ r r' x, Toolbar.stop_callback r x = Toolbar.stop_callback r' x).
Proof.
  intros Hr Hf. pose proof (invariant_reachable a Hr) as Hinv.
  unfold fire in Hf. destruct (enabled _ a) eqn:En; [|done].
  injection Hf as <-.
  destruct (stop_done_shape a i res Hinv En) as (-> & Ht & Hk).
  destruct Hinv as (H & _). explode a H. cbn in Ht, Hk. subst ts stk.
  unfold all_enabled, count_call.
  repeat split; try (vm_compute; repeat constructor; done);
    try (vm_compute; by eexists).
Qed.

Lemma run_reachable es a a' : reachable a → run es a = Some a' → reachable a'.
Proof.
  revert a. induction es as [|e es IH]; intros a Hr Hrun; cbn in Hrun.
  - by simplify_eq.
  - destruct (fire e a) as [a1|] eqn:Hf; [|done].
    apply (IH a1); [|done]. by apply (reach_fire a e).
Qed.

Lemma stop_completion_returns_to_design_witness :
  reachable stopping
  ∧ ∃ a', fire (Task_done 0 (StopSessionResponse false)) stopping = Some a'
          ∧ phase a' = Design
          ∧ count_call stopped_session (App.calls a') = 1.
Proof.
  assert (reachable stopping) as Hr.
  { apply (run_reachable
             [Click 0; Task_done 0 (StartSessionResponse true []); Click 6]
             sample); [apply reach_new|].
    vm_compute. reflexivity. }
  split; [exact Hr|]. eexists. split; [vm_compute; reflexivity|].
  edestruct (stop_completion_returns_to_design stopping 0 false)
    as (Hp & _ & _ & _ & _ & _ & _ & _ & Hc & _);
    [exact Hr|vm_compute; reflexivity|].
  split; [exact Hp|]. rewrite Hc. vm_compute. reflexivity.
Defined.

(** C6, as the specification states it, fails: after a failed first start
    the runtime buttons are not disabled. They are created enabled and no
    method disables them before the first stop request; in the reachable
    state [starting] a failed completion leaves all four enabled. *)
Lemma failed_start_leaves_runtime_buttons_enabled :
  reachable starting
  ∧ ∃ a', fire (Task_done 0 (StartSessionResponse false ["boom"])) starting
          = Some a'
          ∧ runtime_group a' = [6; 7; 8; 9]
          ∧ all_enabled a' (runtime_group a')
          ∧ ¬ all_disabled a' (runtime_group a').
Proof.
  split; [apply reachable_starting|].
  eexists. split; [vm_compute; reflexivity|].
  split; [vm_compute; reflexivity|].
  split; [vm_compute; repeat constructor|].
  intros Hd. apply Forall_inv in Hd. by vm_compute in Hd.
Qed.

(** C6, amended: a failed start leaves the runtime button group untouched:
    every runtime button is afterwards exactly as it was before, so it is
    disabled afterwards if and only if it was disabled before. (The runtime
    buttons are created enabled and are disabled by a stop request.) *)
Theorem failed_start_leaves_runtime_group a i xs a' :
  reachable a →
  fire (Task_done i (StartSessionResponse false xs)) a = Some a' →
  runtime_group a' = runtime_group a
  ∧ runtime_group a = [6; 7; 8; 9]
  ∧ (∀ b, b ∈ runtime_group a →
          Tk.buttons (App.tk a') !! b = Tk.buttons (App.tk a) !! b)
  ∧ (∀ b, b ∈ runtime_group a →
          is_disabled a' b = is_disabled a b
          ∧ is_pressed a' b = is_pressed a b).
Proof.
  intros Hr Hf. pose proof (invariant_reachable a Hr) as Hinv.
  unfold fire in Hf. destruct (enabled _ a) eqn:En; [|done].
  injection Hf as <-.
  destruct (start_done_shape a i false xs Hinv En) as (-> & Ht & Hk).
  destruct Hinv as (H & _). explode a H. cbn in Ht, Hk. subst ts stk.
  clear En Hr.
  assert (∀ b, b ∈ [6; 7; 8; 9] → b = 6 ∨ b = 7 ∨ b = 8 ∨ b = 9) as Hin.
  { intros b Hb. rewrite !elem_of_cons in Hb.
    destruct Hb as [?|[?|[?|[?|Hb]]]]; auto. by apply elem_of_nil in Hb. }
  split; [vm_compute; reflexivity|]. split; [vm_compute; reflexivity|].
  split.
  - intros b Hb. apply Hin in Hb as [->|[->|[->| ->]]];
      vm_compute; reflexivity.
  - intros b Hb. apply Hin in Hb as [->|[->|[->| ->]]];
      split; vm_compute; reflexivity.
Qed.

Lemma failed_start_leaves_runtime_group_witness :
  reachable starting
  ∧ ∃ a', fire (Task_done 0 (StartSessionResponse false ["boom"])) starting
          = Some a'
          ∧ is_disabled a' 6 = is_disabled starting 6.
Proof.
  assert (reachable starting) as Hr.
  { apply (reach_fire sample (Click 0)); [apply reach_new|].
    vm_compute. reflexivity. }
  split; [exact Hr|]. eexists. split; [vm_compute; reflexivity|].
  edestruct (failed_start_leaves_runtime_group starting 0 ["boom"])
    as (_ & Hg & _ & Hd); [exact Hr|vm_compute; reflexivity|].
  apply Hd. rewrite Hg. apply list_elem_of_here.
Defined.

(** C10: the start request switches the menubar to its runtime state and
    sets the canvas mode to Select before it launches the task; the handler
    of a failed start only enables the design buttons and shows the error: it
    leaves the canvas, the menubar and every other button as they are, so
    after a request and its failure the menubar is still in its runtime state
    and the canvas mode still Select. *)
Theorem failed_start_reverts_nothing_else a xs :
  reachable a →
  (∃ a1, Toolbar.click_start a
         = ProgressTask_start "Start" start_session do_start_callback a1
         ∧ menubar_is_runtime (App.calls a1) = Some true
         ∧ Canvas.mode (App.canvas a1) = GraphMode.SELECT
         ∧ App.tasks a1 = App.tasks a)
  ∧ (∃ a', Toolbar.start_callback (StartSessionResponse false xs) a
           = (Returns (), a')
           ∧ App.canvas a' = App.canvas a
           ∧ App.calls a'
             = show_error "Start Session Error" (join newline xs)
               :: App.calls a
           ∧ menubar_is_runtime (App.calls a')
             = menubar_is_runtime (App.calls a)
           ∧ all_enabled a' (design_group a')
           ∧ App.toolbar a' = App.toolbar a
           ∧ Tk.stacking (App.tk a') = Tk.stacking (App.tk a)
           ∧ ∀ b, b ∉ design_group a →
                  Tk.buttons (App.tk a') !! b = Tk.buttons (App.tk a) !! b)
  ∧ (let a2 :=
       exec (Toolbar.click_start;;
             Toolbar.start_callback (StartSessionResponse false xs)) a in
     menubar_is_runtime (App.calls a2) = Some true
     ∧ Canvas.mode (App.canvas a2) = GraphMode.SELECT).
Proof.
  intros Hr. pose proof (invariant_reachable a Hr) as (H & _).
  split; [|split].
  - destruct (click_start_built a H) as (a1 & E & _ & _ & Ht & Hc & Hm).
    exists a1. repeat split; try done. by rewrite Hc.
  - clear Hr. explode a H. eexists. split; [vm_compute; reflexivity|].
    unfold all_enabled.
    repeat split; try (vm_compute; repeat constructor; done).
    intros b Hb.
    change (design_group _) with [0; 1; 2; 3; 4; 5] in Hb.
    do 6 (destruct b as [|b]; [exfalso; apply Hb; set_solver|]).
    reflexivity.
  - clear Hr. explode a H. split; vm_compute; reflexivity.
Qed.

Lemma failed_start_reverts_nothing_else_witness :
  reachable sample
  ∧ menubar_is_runtime
      (App.calls
         (exec (Toolbar.click_start;;
                Toolbar.start_callback (StartSessionResponse false ["boom"]))
            sample))
    = Some true.
Proof.
  split; [apply reach_new|].
  exact (proj1 (proj2 (proj2
    (failed_start_reverts_nothing_else sample ["boom"] (reach_new _ _ _ _))))).
Defined.

(** ** The radio group *)

Lemma state_pressed_run b on a :
  state_pressed b on a
  = match Tk.buttons (App.tk a) !! b with
    | Some _ =>
        (Returns (),
         with_buttons (alter (Button.set_pressed on) b (Tk.buttons (App.tk a)))
           a)
    | None => (Raises TclError, a)
    end.
Proof.
  unfold state_pressed, alter_button, the_button, mbind, M_bind.
  by destruct (_ !! _).
Qed.

(** The loop of [select_radio] either unpresses every radio button or stops
    at one that is not in the store. *)
Lemma for_each_unpress rs a :
  (Forall (λ b, b < length (Tk.buttons (App.tk a))) rs
   ∧ for_each rs (λ b, state_pressed b false) a
     = (Returns (), with_buttons (unpress rs (Tk.buttons (App.tk a))) a))
  ∨ (∃ e a1, for_each rs (λ b, state_pressed b false) a = (Raises e, a1)).
Proof.
  revert a. induction rs as [|b rs IH]; intros a.
  - left. split; [constructor|]. by destruct a as [[]].
  - cbn [for_each]. unfold mbind, M_bind. rewrite state_pressed_run.
    destruct (Tk.buttons (App.tk a) !! b) as [x|] eqn:Hb; [|right; eauto].
    destruct (IH (with_buttons
                    (alter (Button.set_pressed false) b (Tk.buttons (App.tk a)))
                    a)) as [[Hall E]|(e & a1 & E)].
    + left. cbn in Hall. rewrite length_alter in Hall. split.
      * constructor; [by eapply lookup_lt_Some|done].
      * rewrite E. done.
    + right. rewrite E. eauto.
Qed.

Lemma set_pressed_twice v w x :
  Button.set_pressed v (Button.set_pressed w x) = Button.set_pressed v x.
Proof. done. Qed.

Lemma lookup_unpress rs l j :
  unpress rs l !! j
  = (if decide (j ∈ rs) then Button.set_pressed false else id) <$> l !! j.
Proof.
  revert l. induction rs as [|b rs IH]; intros l.
  - cbn. by destruct (l !! j).
  - cbn [unpress foldl]. fold (unpress rs (alter (Button.set_pressed false) b l)).
    rewrite IH, list_lookup_alter.
    destruct (decide (b = j)) as [->|Hne].
    + rewrite (decide_True (P := j ∈ j :: rs)) by apply list_elem_of_here.
      destruct (l !! j); [|done]. cbn. by destruct (decide (j ∈ rs)).
    + destruct (decide (j ∈ rs)) as [Hin|Hin].
      * rewrite (decide_True (P := j ∈ b :: rs)); [done|].
        by apply list_elem_of_further.
      * rewrite (decide_False (P := j ∈ b :: rs)); [done|].
        intros [?|?]%elem_of_cons; done.
Qed.

Lemma length_unpress rs l : length (unpress rs l) = length l.
Proof.
  revert l. induction rs as [|b rs IH]; intros l; [done|].
  cbn [unpress foldl]. fold (unpress rs (alter (Button.set_pressed false) b l)).
  by rewrite IH, length_alter.
Qed.

Lemma lookup_press b l j :
  press b l !! j
  = (if decide (j = b) then Button.set_pressed true else id) <$> l !! j.
Proof.
  unfold press. rewrite list_lookup_alter.
  destruct (decide (b = j)) as [->|Hne].
  - by rewrite decide_True.
  - rewrite decide_False by done. by destruct (l !! j).
Qed.

(** Selecting again changes no button. *)
Lemma press_unpress_twice b rs l :
  press b (unpress rs (press b (unpress rs l))) = press b (unpress rs l).
Proof.
  apply list_eq. intros j.
  rewrite !lookup_press, !lookup_unpress, !lookup_press, !lookup_unpress.
  destruct (l !! j) as [x|]; [|done]. cbn.
  destruct (decide (j = b)), (decide (j ∈ rs)); done.
Qed.

(** What [select_radio] does when it returns. *)
Lemma select_radio_run self sel a :
  (∃ bar b,
     Tk.bars (App.tk a) !! self = Some bar ∧ sel = Some b
     ∧ b < length (Tk.buttons (App.tk a))
     ∧ Forall (λ r, r < length (Tk.buttons (App.tk a))) (Bar.radio_buttons bar)
     ∧ ButtonBar.select_radio self sel a
       = (Returns (),
          with_buttons
            (press b (unpress (Bar.radio_buttons bar) (Tk.buttons (App.tk a))))
            a))
  ∨ (∃ e a1, ButtonBar.select_radio self sel a = (Raises e, a1)).
Proof.
  unfold ButtonBar.select_radio, mbind, M_bind, the_bar.
  destruct (Tk.bars (App.tk a) !! self) as [bar|] eqn:Hbar; [|right; eauto].
  destruct (for_each_unpress (Bar.radio_buttons bar) a)
    as [[Hall E]|(e & a1 & E)]; rewrite E; [|right; eauto].
  destruct sel as [b|]; cbn; [|right; eauto].
  rewrite state_pressed_run. cbn.
  destruct (unpress _ _ !! b) as [x|] eqn:Hb; [|right; eauto].
  left. exists bar, b. repeat split; try done.
  apply lookup_lt_Some in Hb. by rewrite length_unpress in Hb.
Qed.

Lemma for_each_unpress_returns rs a :
  Forall (λ b, b < length (Tk.buttons (App.tk a))) rs →
  for_each rs (λ b, state_pressed b false) a
  = (Returns (), with_buttons (unpress rs (Tk.buttons (App.tk a))) a).
Proof.
  intros Hall. destruct (for_each_unpress rs a) as [[_ E]|(e & a1 & E)]; [done|].
  exfalso. revert a Hall e a1 E. induction rs as [|b rs IH]; intros a Hall e a1 E.
  - done.
  - apply Forall_cons in Hall as [Hb Hall].
    cbn [for_each] in E. unfold mbind, M_bind in E.
    rewrite state_pressed_run in E.
    destruct (lookup_lt_is_Some_2 _ _ Hb) as [x Hx]. rewrite Hx in E.
    eapply IH; [|exact E]. cbn. by rewrite length_alter.
Qed.

Lemma select_radio_returns self b bar a :
  Tk.bars (App.tk a) !! self = Some bar →
  b < length (Tk.buttons (App.tk a)) →
  Forall (λ r, r < length (Tk.buttons (App.tk a))) (Bar.radio_buttons bar) →
  ButtonBar.select_radio self (Some b) a
  = (Returns (),
     with_buttons
       (press b (unpress (Bar.radio_buttons bar) (Tk.buttons (App.tk a)))) a).
Proof.
  intros Hbar Hb Hall.
  unfold ButtonBar.select_radio, mbind, M_bind, the_bar. rewrite Hbar.
  rewrite (for_each_unpress_returns _ _ Hall). cbn.
  rewrite state_pressed_run. cbn.
  destruct (lookup_lt_is_Some_2 (unpress (Bar.radio_buttons bar)
                                   (Tk.buttons (App.tk a))) b) as [x Hx].
  { by rewrite length_unpress. }
  by rewrite Hx.
Qed.

(** C7: selecting the same control twice in a row leaves the state that
    selecting it once leaves; and after a call the chosen control is pressed
    and every other radio button of the group is not, so at most one toggle
    of the group is selected. *)
Theorem select_radio_idempotent self sel a :
  (ButtonBar.select_radio self sel;; ButtonBar.select_radio self sel) a
  = ButtonBar.select_radio self sel a
  ∧ ∀ a', ButtonBar.select_radio self sel a = (Returns (), a') →
      ∃ b, sel = Some b
           ∧ is_pressed a' b = true
           ∧ (∀ t, t ∈ toggles a' (Some self) → t ≠ b →
                   is_pressed a' t = false)
           ∧ (∀ t t', t ∈ toggles a' (Some self) →
                      t' ∈ toggles a' (Some self) →
                      is_pressed a' t = true → is_pressed a' t' = true →
                      t = t').
Proof.
  destruct (select_radio_run self sel a)
    as [(bar & b & Hbar & -> & Hb & Hall & E)|(e & a1 & E)].
  2:{ split; [unfold mbind, M_bind; by rewrite E|].
      intros a' H. by rewrite E in H. }
  set (L := press b (unpress (Bar.radio_buttons bar) (Tk.buttons (App.tk a)))).
  assert (length L = length (Tk.buttons (App.tk a))) as HL.
  { unfold L, press. by rewrite length_alter, length_unpress. }
  split.
  - unfold mbind, M_bind. rewrite E. fold L.
    rewrite (select_radio_returns self b bar); cbn; rewrite ?HL; try done.
    unfold L. rewrite press_unpress_twice. done.
  - intros a' Ha'. rewrite E in Ha'. injection Ha' as <-. fold L.
    exists b. split; [done|].
    assert (is_pressed (with_buttons L a) b = true) as Hpb.
    { unfold is_pressed. cbn. unfold L. rewrite lookup_press, lookup_unpress.
      destruct (lookup_lt_is_Some_2 _ _ Hb) as [x ->]. cbn.
      by rewrite decide_True. }
    assert (∀ t, t ∈ Bar.radio_buttons bar → t ≠ b →
                 is_pressed (with_buttons L a) t = false) as Hoth.
    { intros t Ht Hne. unfold is_pressed. cbn. unfold L.
      rewrite lookup_press, lookup_unpress.
      destruct (Tk.buttons (App.tk a) !! t); [|done]. cbn.
      rewrite decide_False by done. by rewrite decide_True. }
    assert (toggles (with_buttons L a) (Some self) = Bar.radio_buttons bar)
      as ->.
    { unfold toggles. cbn. by rewrite Hbar. }
    split; [done|]. split; [done|].
    intros t t' Ht Ht' Hp Hp'.
    destruct (decide (t = b)) as [->|Hn];
      destruct (decide (t' = b)) as [->|Hn']; try done.
    + rewrite Hoth in Hp'; done.
    + rewrite Hoth in Hp; done.
    + rewrite Hoth in Hp; done.
Qed.

Lemma select_radio_idempotent_witness :
  ButtonBar.select_radio 0 (Some 2) sample
  = (Returns (), exec (ButtonBar.select_radio 0 (Some 2)) sample)
  ∧ is_pressed (exec (ButtonBar.select_radio 0 (Some 2)) sample) 2 = true.
Proof.
  assert (ButtonBar.select_radio 0 (Some 2) sample
          = (Returns (), exec (ButtonBar.select_radio 0 (Some 2)) sample))
    as E by (vm_compute; reflexivity).
  split; [exact E|].
  destruct (proj2 (select_radio_idempotent 0 (Some 2) sample) _ E)
    as (b & Hb & Hp & _).
  injection Hb as <-. exact Hp.
Defined.

(** ** The image of the node button *)

Lemma update_button_sources a button node_draw image :
  let a' :=
    exec (Toolbar.update_button button node_draw NodeTypeEnum.NODE image) a in
  let s := App.toolbar a in
  let s' := App.toolbar a' in
  (is_Some (Toolbar_attrs.node_enum s')
   ∧ Toolbar_attrs.node_enum s' = NodeDraw.image_enum node_draw
   ∧ Toolbar_attrs.node_file s' = None)
  ∨ (is_Some (Toolbar_attrs.node_file s')
     ∧ Toolbar_attrs.node_file s' = NodeDraw.image_file node_draw
     ∧ Toolbar_attrs.node_enum s' = None)
  ∨ (Toolbar_attrs.node_enum s' = Toolbar_attrs.node_enum s
     ∧ Toolbar_attrs.node_file s' = Toolbar_attrs.node_file s).
Proof.
  destruct node_draw as [label [e|] file].
  - destruct button as [b|]; [|right; right; done].
    unfold Toolbar.update_button, exec, mbind, M_bind, attr, configure_image,
      assign_image, alter_button, the_button, mbind, M_bind. cbn.
    destruct (Tk.buttons (App.tk a) !! b); cbn; [|right; right; done].
    rewrite list_lookup_alter, decide_True by done.
    destruct (Tk.buttons (App.tk a) !! b); cbn; [|right; right; done].
    left. split; [by eexists|done].
  - destruct button as [b|]; [|right; right; done].
    unfold Toolbar.update_button, exec, mbind, M_bind, attr, configure_image,
      assign_image, alter_button, the_button, mbind, M_bind. cbn.
    destruct (Tk.buttons (App.tk a) !! b); cbn; [|right; right; done].
    rewrite list_lookup_alter, decide_True by done.
    destruct (Tk.buttons (App.tk a) !! b); cbn; [|right; right; done].
    destruct file as [f|]; cbn; [|right; right; done].
    destruct (negb (String.eqb f EmptyString)); cbn; [|right; right; done].
    right. left. split; [by eexists|done].
Qed.

Lemma scale_node_button a :
  invariant a →
  ∃ b x,
    Toolbar_attrs.node_button (App.toolbar a) = Some b
    ∧ Tk.buttons (App.tk (exec Toolbar.scale a)) !! b = Some x
    ∧ ((∃ e, Toolbar_attrs.node_enum (App.toolbar a) = Some e
             ∧ Toolbar_attrs.node_file (App.toolbar a) = None
             ∧ Button.image x = Some (get_icon e TOOLBAR_SIZE))
       ∨ (∃ file, Toolbar_attrs.node_enum (App.toolbar a) = None
                  ∧ Toolbar_attrs.node_file (App.toolbar a) = Some file
                  ∧ Button.image x = Some (get_custom_icon file TOOLBAR_SIZE))).
Proof.
  intros (H & _ & Hi). explode a H. unfold icon_ok in Hi. cbn in Hi.
  destruct Hi as [[[e ->] ->]|[-> Hf]].
  - destruct nwe, ae; eexists 3, _;
      (split; [done|]); (split; [vm_compute; reflexivity|]);
      left; exists e; done.
  - destruct nf as [[|c f]|]; try done.
    destruct nwe, ae; eexists 3, _;
      (split; [done|]); (split; [vm_compute; reflexivity|]);
      right; eexists; done.
Qed.

(** C9: exactly one of [node_enum] and [node_file] is set. A new toolbar has
    [node_enum = ROUTER] and no [node_file]; [update_button] for a node sets
    [node_enum] and clears [node_file], or sets [node_file] and clears
    [node_enum], or changes neither; so in a running application exactly one
    is set, and [scale] draws the node button from that one source. *)
Theorem node_image_has_one_source :
  (∀ canvas nodes network_nodes custom_nodes,
     let s :=
       App.toolbar
         (exec Toolbar.__init__
            (blank canvas nodes network_nodes custom_nodes)) in
     Toolbar_attrs.node_enum s = Some ImageEnum.ROUTER
     ∧ Toolbar_attrs.node_file s = None)
  ∧ (∀ a button node_draw image,
       let s := App.toolbar a in
       let s' :=
         App.toolbar
           (exec (Toolbar.update_button button node_draw NodeTypeEnum.NODE
                    image) a) in
       (is_Some (Toolbar_attrs.node_enum s')
        ∧ Toolbar_attrs.node_enum s' = NodeDraw.image_enum node_draw
        ∧ Toolbar_attrs.node_file s' = None)
       ∨ (is_Some (Toolbar_attrs.node_file s')
          ∧ Toolbar_attrs.node_file s' = NodeDraw.image_file node_draw
          ∧ Toolbar_attrs.node_enum s' = None)
       ∨ (Toolbar_attrs.node_enum s' = Toolbar_attrs.node_enum s
          ∧ Toolbar_attrs.node_file s' = Toolbar_attrs.node_file s))
  ∧ (∀ a, reachable a →
       let s := App.toolbar a in
       (is_Some (Toolbar_attrs.node_enum s) ∧ Toolbar_attrs.node_file s = None)
       ∨ (Toolbar_attrs.node_enum s = None
          ∧ is_Some (Toolbar_attrs.node_file s)))
  ∧ (∀ a, reachable a →
       ∃ b x,
         Toolbar_attrs.node_button (App.toolbar a) = Some b
         ∧ Tk.buttons (App.tk (exec Toolbar.scale a)) !! b = Some x
         ∧ ((∃ e, Toolbar_attrs.node_enum (App.toolbar a) = Some e
                  ∧ Toolbar_attrs.node_file (App.toolbar a) = None
                  ∧ Button.image x = Some (get_icon e TOOLBAR_SIZE))
            ∨ (∃ file,
                 Toolbar_attrs.node_enum (App.toolbar a) = None
                 ∧ Toolbar_attrs.node_file (App.toolbar a) = Some file
                 ∧ Button.image x
                   = Some (get_custom_icon file TOOLBAR_SIZE)))).
Proof.
  split; [|split; [|split]].
  - intros. split; vm_compute; reflexivity.
  - intros. apply update_button_sources.
  - intros a Hr. destruct (invariant_reachable a Hr) as (_ & _ & Hi).
    unfold icon_ok in Hi. cbn. destruct Hi as [?|[? Hf]]; [by left|right].
    split; [done|]. by destruct (Toolbar_attrs.node_file (App.toolbar a)).
  - intros a Hr. apply scale_node_button. by apply invariant_reachable.
Qed.

Lemma node_image_has_one_source_witness :
  reachable sample
  ∧ is_Some (Toolbar_attrs.node_enum (App.toolbar sample))
  ∧ Toolbar_attrs.node_file (App.toolbar sample) = None.
Proof.
  split; [apply reach_new|].
  destruct (proj1 (proj2 (proj2 node_image_has_one_source)) sample
              (reach_new _ _ _ _)) as [H|[H _]].
  - exact H.
  - vm_compute in H. discriminate H.
Defined.

(** ** Opening a picker *)

Lemma keeps_hoare {A} (P E : App.t → Prop) (m : M A) :
  keeps P m → (∀ x, P x → E x) → hoare P m (λ _, P) E.
Proof. intros Hk HE. eapply hoare_conseq; [exact Hk| | |]; auto. Qed.

(** A step that changes neither pickers, canvas, calls nor toolbar keeps
    whatever is said of them. *)
Lemma keeps_quiet {A} (P : App.t → Prop) (m : M A) :
  (∀ x y, Tk.pickers (App.tk y) = Tk.pickers (App.tk x) →
          App.canvas y = App.canvas x → App.calls y = App.calls x →
          App.toolbar y = App.toolbar x → P x → P y) →
  (∀ x, Tk.pickers (App.tk (exec m x)) = Tk.pickers (App.tk x)
        ∧ App.canvas (exec m x) = App.canvas x
        ∧ App.calls (exec m x) = App.calls x
        ∧ App.toolbar (exec m x) = App.toolbar x) →
  keeps P m.
Proof.
  intros HP Hm x Hx. specialize (Hm x) as (H1 & H2 & H3 & H4).
  unfold exec in *. destruct (m x) as [[v|e] y]; by apply (HP x y).
Qed.

Lemma quiet_untouched a0 x y :
  Tk.pickers (App.tk y) = Tk.pickers (App.tk x) →
  App.canvas y = App.canvas x → App.calls y = App.calls x →
  App.toolbar y = App.toolbar x → untouched a0 x → untouched a0 y.
Proof. unfold untouched. by intros -> -> -> ->. Qed.

Lemma quiet_not_yet a0 x y :
  Tk.pickers (App.tk y) = Tk.pickers (App.tk x) →
  App.canvas y = App.canvas x → App.calls y = App.calls x →
  App.toolbar y = App.toolbar x → not_yet a0 x → not_yet a0 y.
Proof. unfold not_yet, untouched. by intros -> -> -> ->. Qed.

Lemma quiet_made a0 x y :
  Tk.pickers (App.tk y) = Tk.pickers (App.tk x) →
  App.canvas y = App.canvas x → App.calls y = App.calls x →
  App.toolbar y = App.toolbar x → made a0 x → made a0 y.
Proof. unfold made, untouched. by intros -> -> -> ->. Qed.

Lemma quiet_alter_button i f x :
  Tk.pickers (App.tk (exec (alter_button i f) x)) = Tk.pickers (App.tk x)
  ∧ App.canvas (exec (alter_button i f) x) = App.canvas x
  ∧ App.calls (exec (alter_button i f) x) = App.calls x
  ∧ App.toolbar (exec (alter_button i f) x) = App.toolbar x.
Proof.
  unfold exec, alter_button, the_button, mbind, M_bind.
  by destruct (_ !! _).
Qed.

Lemma not_yet_state_pressed a0 b on : keeps (not_yet a0) (state_pressed b on).
Proof.
  apply keeps_quiet; [apply quiet_not_yet|]. intros x. apply quiet_alter_button.
Qed.

Lemma not_yet_select_radio a0 f sel :
  keeps (not_yet a0) (ButtonBar.select_radio f sel).
Proof.
  unfold ButtonBar.select_radio.
  pose proof (not_yet_state_pressed a0). keeps_tac.
Qed.

Lemma made_alter_button a0 i f : keeps (made a0) (alter_button i f).
Proof.
  apply keeps_quiet; [apply quiet_made|]. intros x. apply quiet_alter_button.
Qed.

Lemma made_set_after a0 v : keeps (made a0) (modify_tk (Tk.set_after v)).
Proof. apply keeps_quiet; [apply quiet_made|]. done. Qed.

Lemma made_append_button a0 b :
  keeps (made a0) (modify_tk (λ k, Tk.set_buttons (Tk.buttons k ++ [b]) k)).
Proof. apply keeps_quiet; [apply quiet_made|]. done. Qed.

(** Changing the new picker leaves the pickers of [a0] alone. *)
Lemma made_alter_picker a0 f :
  keeps (made a0) (alter_picker (length (Tk.pickers (App.tk a0))) f).
Proof.
  intros x ((Hp & Hc & Hl & Ht) & Hs & Hn).
  unfold alter_picker, the_picker, mbind, M_bind.
  destruct (Tk.pickers (App.tk x) !! _) eqn:E; cbn; [|done].
  repeat split; cbn; try done.
  - intros p y Hy. rewrite list_lookup_alter_ne; [by apply Hp|].
    apply lookup_lt_Some in Hy. lia.
  - by rewrite length_alter.
Qed.

#[local] Hint Resolve made_alter_button made_set_after made_append_button
  made_alter_picker : keeps.

Lemma made_configure a0 :
  (∀ b im, keeps (made a0) (assign_image b im))
  ∧ (∀ b f im, keeps (made a0) (bind_release b f im)).
Proof. split; intros; apply made_alter_button. Qed.

Lemma made_ttk_Button a0 im c :
  keeps (made a0)
    (ttk_Button (in_picker (length (Tk.pickers (App.tk a0)))) im c).
Proof. unfold ttk_Button. keeps_tac. Qed.

Lemma made__create_button a0 im bar_im f :
  keeps (made a0)
    (PickerFrame._create_button (length (Tk.pickers (App.tk a0))) im bar_im f).
Proof.
  unfold PickerFrame._create_button.
  destruct (made_configure a0) as [H1 H2]. pose proof (made_ttk_Button a0).
  keeps_tac.
Qed.

Lemma made_create_button a0 e f :
  keeps (made a0)
    (PickerFrame.create_button (length (Tk.pickers (App.tk a0))) e f).
Proof.
  unfold PickerFrame.create_button. pose proof (made__create_button a0).
  keeps_tac.
Qed.

Lemma made_create_custom_button a0 e f :
  keeps (made a0)
    (PickerFrame.create_custom_button (length (Tk.pickers (App.tk a0))) e f).
Proof.
  unfold PickerFrame.create_custom_button.
  pose proof (made__create_button a0). keeps_tac.
Qed.

Lemma made_show a0 :
  keeps (made a0) (PickerFrame.show (length (Tk.pickers (App.tk a0)))).
Proof.
  unfold PickerFrame.show. keeps_tac.
  apply keeps_quiet; [apply quiet_made|]. done.
Qed.

(** Once the picker is made, [self.picker] is that picker. *)
Lemma made_self_picker {B} a0 (f : nat → M B) :
  keeps (made a0) (f (length (Tk.pickers (App.tk a0)))) →
  keeps (made a0) ((self Toolbar_attrs.picker ≫= attr) ≫= f).
Proof.
  intros Hf x Hx. pose proof Hx as (_ & Hs & _).
  unfold mbind, M_bind, self, gets. rewrite Hs. cbn. by apply Hf.
Qed.

(** Making the picker, and storing it in [self.picker]. *)
Lemma not_yet_init a0 b :
  hoare (not_yet a0) (PickerFrame.__init__ b)
    (λ p x, p = length (Tk.pickers (App.tk a0))
            ∧ untouched a0 x
            ∧ length (Tk.pickers (App.tk a0)) < length (Tk.pickers (App.tk x)))
    (untouched a0).
Proof.
  intros x ((Hp & Hc & Hl & Ht) & Hs).
  unfold PickerFrame.__init__, mbind, M_bind, gets, modify_tk, modify, mret,
    M_ret. cbn. rewrite Hs.
  repeat split; cbn; try done.
  - intros p y Hy. by apply lookup_app_l_Some.
  - rewrite length_app. cbn. lia.
Qed.

Lemma made_set_picker a0 :
  hoare
    (λ x, untouched a0 x
          ∧ length (Tk.pickers (App.tk a0)) < length (Tk.pickers (App.tk x)))
    (Toolbar.setattr
       (Toolbar_attrs.set_picker (Some (length (Tk.pickers (App.tk a0))))))
    (λ _, made a0) (untouched a0).
Proof.
  intros x ((Hp & Hc & Hl & Ht) & Hn). cbn. repeat split; try done.
Qed.

#[local] Hint Resolve not_yet_select_radio made_create_button
  made_create_custom_button made_show : keeps.

Lemma hoare_pure {A} (φ : Prop) (R : App.t → Prop) (m : M A) Q E :
  (φ → hoare R m Q E) → hoare (λ x, φ ∧ R x) m Q E.
Proof. intros H x [Hφ Hx]. by apply H. Qed.

Ltac made_tac :=
  repeat first
    [ solve [eauto 2 with keeps]
    | apply made_self_picker
    | apply keeps_bind; [|intros ?]
    | apply keeps_for_each; intros ?
    | match goal with
      | |- keeps _ (match ?x with _ => _ end) => destruct x eqn:?
      | |- keeps _ (let '(_, _) := ?x in _) => destruct x
      end ].

(** The common shape of the three methods: select the button, make the
    picker, store it, fill it and show it. *)
Ltac picker_method :=
  eapply hoare_conseq with (Q' := λ _, made _) (E' := untouched _)
                           (P' := not_yet _);
    [|done|by intros ? ? []|done];
  do 4 (eapply hoare_bind;
          [apply keeps_hoare; [keeps_tac|by intros ? []]|intros ?]);
  eapply hoare_bind; [apply not_yet_init|intros ?]; cbn beta;
  apply hoare_pure; intros ->;
  eapply hoare_bind; [apply made_set_picker|intros ?];
  apply keeps_hoare; [|by intros ? []];
  made_tac.

Lemma draw_node_picker_untouched a0 :
  hoare (not_yet a0) Toolbar.draw_node_picker (λ _, untouched a0)
    (untouched a0).
Proof. unfold Toolbar.draw_node_picker. picker_method. Qed.

Lemma draw_network_picker_untouched a0 :
  hoare (not_yet a0) Toolbar.draw_network_picker (λ _, untouched a0)
    (untouched a0).
Proof. unfold Toolbar.draw_network_picker. picker_method. Qed.

Lemma draw_annotation_picker_untouched a0 :
  hoare (not_yet a0) Toolbar.draw_annotation_picker (λ _, untouched a0)
    (untouched a0).
Proof. unfold Toolbar.draw_annotation_picker. picker_method. Qed.

Lemma hoare_exec {A} (P Q : App.t → Prop) (m : M A) a :
  hoare P m (λ _, Q) Q → P a → Q (exec m a).
Proof.
  intros H Ha. specialize (H a Ha). unfold exec.
  by destruct (m a) as [[v|e] a'].
Qed.

Lemma not_yet_refl a : not_yet a a.
Proof. by repeat split. Qed.

(** While a picker holds the pointer grab, a click on the toolbar only runs
    the binding on [all]. *)
Lemma click_under_grab a b q :
  Tk.grab (App.tk a) = Some q → handler (Click b) a = release_all a.
Proof.
  intros Hg. cbn [handler]. unfold mbind, M_bind, gets. by rewrite Hg.
Qed.

Lemma release_all_effect a :
  let a' := exec release_all a in
  length (Tk.pickers (App.tk a')) = length (Tk.pickers (App.tk a))
  ∧ Tk.after (App.tk a') = Tk.after (App.tk a)
  ∧ Tk.buttons (App.tk a') = Tk.buttons (App.tk a)
  ∧ App.canvas a' = App.canvas a
  ∧ App.toolbar a' = App.toolbar a
  ∧ App.calls a' = App.calls a
  ∧ App.tasks a' = App.tasks a
  ∧ ∀ p x, Tk.binding_all (App.tk a) = Some p →
           Tk.pickers (App.tk a') !! p = Some x → Picker.is_open x = false.
Proof.
  unfold release_all, exec, mbind, M_bind, gets, destroy, alter_picker,
    the_picker, mbind, M_bind. cbn.
  destruct (Tk.binding_all (App.tk a)) as [p|]; cbn; [|by repeat split].
  destruct (Tk.pickers (App.tk a) !! p) as [y|] eqn:Hp; cbn.
  - case_decide; cbn; rewrite length_alter; repeat split; try done;
      intros p' x [= <-]; rewrite list_lookup_alter, decide_True, Hp by done;
      intros [= <-]; unfold Picker.is_open; cbn; apply andb_false_r.
  - repeat split; try done. intros p' x [= <-]. by rewrite Hp.
Qed.

(** C8 fails on the code, by a defect. [PickerFrame._show] takes the pointer
    grab and binds the release on [all] to the picker's destruction, which
    keeps a second picker from being opened while one is shown; but [show]
    defers [_show] by [after(0, ...)], and no [draw_*_picker] closes the
    picker in [self.picker] before it overwrites it. From [sample], a click
    on the node button and a click on the network button that are delivered
    before the event loop runs the queued [_show] calls put two pickers on
    screen together. The second [_show] replaces the binding on [all]: the
    next release destroys the second picker only, its [_show] returns and
    removes the binding, and the first picker stays on screen with nothing
    left to close it. Its [_show] cannot return and a further release
    changes nothing. No option callback has run. *)
Lemma two_clicks_before_show_leave_a_picker_open :
  run [Click 3; Click 4; Idle; Idle] sample = Some two_pickers
  ∧ Picker.is_open <$> Tk.pickers (App.tk two_pickers) = [true; true]
  ∧ Tk.binding_all (App.tk two_pickers) = Some 1
  ∧ run [Release_elsewhere; Window_closed] two_pickers = Some left_open
  ∧ Picker.is_open <$> Tk.pickers (App.tk left_open) = [true; false]
  ∧ Tk.grab (App.tk left_open) = None
  ∧ Tk.binding_all (App.tk left_open) = None
  ∧ enabled Window_closed left_open = false
  ∧ run [Release_elsewhere] left_open = Some left_open
  ∧ App.canvas left_open = App.canvas sample
  ∧ App.calls left_open = App.calls sample.
Proof.
  assert (run [Click 3; Click 4; Idle; Idle] sample = Some two_pickers) as E1
    by (vm_compute; reflexivity).
  assert (run [Release_elsewhere; Window_closed] two_pickers = Some left_open)
    as E2 by (vm_compute; reflexivity).
  assert (run [Release_elsewhere] left_open = Some left_open) as E3
    by (vm_compute; reflexivity).
  split; [exact E1|]. split; [vm_compute; reflexivity|].
  split; [vm_compute; reflexivity|]. split; [exact E2|].
  split; [vm_compute; reflexivity|]. split; [vm_compute; reflexivity|].
  split; [vm_compute; reflexivity|]. split; [vm_compute; reflexivity|].
  split; [exact E3|]. split; vm_compute; reflexivity.
Qed.

(** * Further properties *)

(** ** The buttons of the frame on top *)

Lemma steady_all_enabled a a' bs :
  steady a a' → all_enabled a bs → all_enabled a' bs.
Proof.
  intros (_ & _ & _ & _ & L). unfold all_enabled. rewrite !Forall_forall.
  intros H b Hb. specialize (H b Hb). unfold is_disabled in *.
  destruct (Tk.buttons (App.tk a) !! b) as [x|] eqn:Hx; [|done].
  destruct (L b x Hx) as (x' & -> & _ & ->). done.
Qed.

Lemma steady_on_top a a' : steady a a' → on_top a' = on_top a.
Proof.
  intros (_ & B & S & _). unfold on_top, raised. by rewrite B, S.
Qed.

Lemma controls_steady a a' : steady a a' → controls_ok a → controls_ok a'.
Proof.
  intros Hs Hc Ht. pose proof Hs as (_ & _ & _ & T & _).
  rewrite (steady_on_top a a' Hs). apply (steady_all_enabled a); [done|].
  apply Hc. congruence.
Qed.

Lemma controls_keeps {A} (m : M A) a :
  (∀ a0, keeps (steady a0) m) → controls_ok a → controls_ok (exec m a).
Proof.
  intros Hm Hc. apply (controls_steady a); [|done].
  apply keeps_exec; [apply Hm|apply steady_refl].
Qed.

Lemma controls_click a b :
  invariant a → controls_ok a → enabled (Click b) a = true →
  controls_ok (exec (handler (Click b)) a).
Proof.
  intros (H & Hs & _) Hc En. cbn [handler]. rewrite exec_bind. cbn [gets].
  destruct (Tk.grab (App.tk a)).
  { apply controls_keeps; [apply steady_release_all|done]. }
  rewrite exec_bind. unfold the_button.
  destruct (Tk.buttons (App.tk a) !! b) as [button|] eqn:Hlk; [|done].
  destruct (command_on_top a b button H Hs En Hlk) as [Hstart Hstop].
  apply (exec_seq controls_ok).
  2:{ intros x Hx. apply controls_keeps; [apply steady_release_all|done]. }
  destruct (Button.command button) as [c|]; [|done].
  destruct (decide (c = do_click_start)) as [->|Hn1].
  { cbn [run_command]. intros Ht. exfalso.
    destruct (click_start_built a H) as (a1 & E & _ & _ & Ht1 & _).
    unfold exec in Ht. rewrite E in Ht. cbn in Ht. rewrite Ht1 in Ht.
    by destruct (App.tasks a). }
  destruct (decide (c = do_click_stop)) as [->|Hn2].
  { cbn [run_command]. intros Ht. exfalso.
    destruct (click_stop_built a H) as (a1 & E & _ & _ & Ht1 & _).
    unfold exec in Ht. rewrite E in Ht. cbn in Ht. rewrite Ht1 in Ht.
    by destruct (App.tasks a). }
  apply controls_keeps; [|done]. intros a0. by apply steady_run_command.
Qed.

Lemma controls_task_done a i r :
  invariant a → enabled (Task_done i r) a = true →
  controls_ok (exec (handler (Task_done i r)) a).
Proof.
  intros (H & Hs & _) En.
  destruct (task_done_only a i r Hs En)
    as (-> & [(Ht & res & xs & ->)|(Ht & res & ->)]);
    explode a H; cbn in Ht; subst ts; unfold session_ok in Hs; cbn in Hs;
    destruct Hs as [(? & -> & _)|(? & -> & _)]; try done.
  - destruct res; intros _; unfold all_enabled; vm_compute;
      repeat constructor.
  - intros _; unfold all_enabled; vm_compute; repeat constructor.
Qed.

Lemma controls_fire a e a' :
  invariant a → controls_ok a → fire e a = Some a' → controls_ok a'.
Proof.
  intros Hinv Hc Hf. unfold fire in Hf.
  destruct (enabled e a) eqn:En; [|done]. injection Hf as <-.
  destruct e; try (apply controls_keeps; [|done]; intros a0;
                   by apply steady_handler).
  - by apply controls_click.
  - by apply controls_task_done.
Qed.

Lemma controls_reachable a : reachable a → controls_ok a.
Proof.
  induction 1 as [| a e a' Hr IH Hf].
  - intros _. unfold all_enabled. vm_compute. repeat constructor.
  - eapply controls_fire; [by apply invariant_reachable|exact IH|exact Hf].
Qed.

(** X1: in a running application the toolbar never comes to rest with its
    visible buttons disabled. Whenever no task is in flight, the frame on
    top is the design frame or the runtime frame and each of its buttons is
    enabled; so in phase [Design] the start button, and in phase [Runtime]
    the stop button, is on top and enabled. *)
Theorem no_dead_end a :
  reachable a → App.tasks a = [] →
  (on_top a = design_group a ∨ on_top a = runtime_group a)
  ∧ on_top a ≠ []
  ∧ all_enabled a (on_top a)
  ∧ (phase a = Design →
     ∃ b, Toolbar_attrs.play_button (App.toolbar a) = Some b
          ∧ b ∈ on_top a ∧ is_disabled a b = false)
  ∧ (phase a = Runtime →
     ∃ b, Toolbar_attrs.stop_button (App.toolbar a) = Some b
          ∧ b ∈ on_top a ∧ is_disabled a b = false).
Proof.
  intros Hr Ht. pose proof (controls_reachable a Hr Ht) as Hen.
  destruct (invariant_reachable a Hr) as (H & Hs & _).
  unfold session_ok in Hs. rewrite Ht in Hs.
  unfold all_enabled in Hen. rewrite Forall_forall in Hen.
  unfold phase. rewrite Ht. cbn [existsb].
  destruct (built_widgets a H) as (Hpb & Hsb & _ & _ & Hdf & Hrf).
  destruct H as (_ & Hbars & _).
  unfold design_group, runtime_group, group, on_top, raised in *.
  rewrite Hdf, Hrf, Hpb, Hsb, Hbars in *.
  destruct Hs as [Hk|Hk]; rewrite Hk in *; cbn in *.
  - split; [by left|]. split; [done|]. split; [by apply Forall_forall|].
    split.
    + intros _. exists 0. split; [done|]. split; [apply list_elem_of_here|].
      apply Hen, list_elem_of_here.
    + rewrite bool_decide_eq_false_2; [done|]. by intros [_ ?].
  - split; [by right|]. split; [done|]. split; [by apply Forall_forall|].
    split.
    + rewrite bool_decide_eq_true_2; [done|]. split; [by eexists|done].
    + intros _. exists 6. split; [done|]. split; [apply list_elem_of_here|].
      apply Hen, list_elem_of_here.
Qed.

Lemma no_dead_end_witness :
  reachable sample ∧ App.tasks sample = [] ∧ all_enabled sample (on_top sample).
Proof.
  assert (App.tasks sample = []) as Ht by (vm_compute; reflexivity).
  split; [apply reach_new|]. split; [exact Ht|].
  exact (proj1 (proj2 (proj2 (no_dead_end sample (reach_new _ _ _ _) Ht)))).
Defined.

(** ** Invariants kept statement by statement *)

(** Unfolding the methods down to the single changes of the state. *)
Ltac open_methods :=
  unfold Toolbar.click_selection, Toolbar.click_runtime_selection,
    Toolbar.click_start, Toolbar.set_runtime, Toolbar.set_design,
    Toolbar.start_callback, Toolbar.click_link, Toolbar.update_button,
    Toolbar.draw_node_picker, Toolbar.draw_network_picker,
    Toolbar.draw_annotation_picker, Toolbar.click_stop,
    Toolbar.stop_callback, Toolbar.update_annotation,
    Toolbar.click_run_button, Toolbar.click_marker_button, Toolbar.scale,
    Toolbar.scale_button, Toolbar.__init__, Toolbar.draw,
    Toolbar.draw_design_frame, Toolbar.draw_runtime_frame,
    Toolbar.click_selection, Toolbar.click_runtime_selection,
    ButtonBar.__init__, ButtonBar.create_button, ButtonBar.select_radio,
    PickerFrame.__init__, PickerFrame._create_button,
    PickerFrame.create_button, PickerFrame.create_custom_button,
    PickerFrame.show, PickerFrame._show_enter, PickerFrame._show_leave,
    enable_buttons, release_all, destroy, ttk_Button, tkraise,
    configure_state, state_pressed, configure_image, assign_image,
    bind_release, alter_button, alter_bar, alter_picker, ProgressTask_start,
    MarkerDialog.

(** [keeps_tac] with a step of its own tried before a bind is split. *)
Ltac keeps_with tac :=
  repeat first
    [ solve [eauto 2 with keeps]
    | tac
    | apply keeps_bind; [|intros ?]
    | apply keeps_for_each; intros ?
    | match goal with
      | |- keeps _ (match ?x with _ => _ end) => destruct x eqn:?
      | |- keeps _ (let '(_, _) := ?x in _) => destruct x
      end ].

(** Two statements taken together, in front of the rest of a method. *)
Lemma keeps_pair {B} P (m1 m2 : M unit) (f : unit → M B) :
  keeps P (m1;; m2) → (∀ v, keeps P (f v)) →
  keeps P (m1 ≫= λ _ : unit, m2 ≫= f).
Proof.
  intros H12 Hf x Hx. specialize (H12 x Hx).
  unfold mbind, M_bind in *.
  destruct (m1 x) as [[v1|e1] x1]; [|done].
  destruct (m2 x1) as [[v2|e2] x2]; [|done].
  by apply Hf.
Qed.

(** ** The payload of the canvas mode *)

Lemma canvas_same f :
  (∀ a, App.canvas (f a) = App.canvas a) → keeps canvas_ok (modify f).
Proof. intros H. apply keeps_modify. intros a. unfold canvas_ok. by rewrite H. Qed.

Lemma canvas_set_mode m :
  m ≠ GraphMode.NODE → m ≠ GraphMode.ANNOTATION →
  keeps canvas_ok (modify_canvas (Canvas.set_mode m)).
Proof. intros H1 H2 a _. by split. Qed.

Lemma canvas_node nd :
  keeps canvas_ok
    (modify_canvas (Canvas.set_mode GraphMode.NODE);;
     modify_canvas (Canvas.set_node_draw (Some nd))).
Proof. intros a _. split; [by eexists|done]. Qed.

Lemma canvas_annotation s :
  keeps canvas_ok
    (modify_canvas (Canvas.set_mode GraphMode.ANNOTATION);;
     modify_canvas (Canvas.set_annotation_type (Some s))).
Proof. intros a _. split; [done|by eexists]. Qed.

#[local] Hint Extern 1 (keeps canvas_ok (modify_tk _)) =>
  apply canvas_same; intros ?; reflexivity : keeps.
#[local] Hint Extern 1 (keeps canvas_ok (call _)) =>
  apply canvas_same; intros ?; reflexivity : keeps.
#[local] Hint Extern 1 (keeps canvas_ok (modify _)) =>
  apply canvas_same; intros ?; reflexivity : keeps.
#[local] Hint Extern 1 (keeps canvas_ok (Toolbar.setattr _)) =>
  apply canvas_same; intros ?; reflexivity : keeps.
#[local] Hint Extern 1 (keeps canvas_ok (modify_canvas (Canvas.set_mode _))) =>
  apply canvas_set_mode; discriminate : keeps.

Ltac canvas_tac :=
  keeps_with
    ltac:(first [ apply keeps_pair; [apply canvas_node|intros ?]
                | apply keeps_pair; [apply canvas_annotation|intros ?] ]).

Lemma canvas_open_marker_tool : keeps canvas_ok Toolbar.open_marker_tool.
Proof. unfold Toolbar.open_marker_tool. open_methods. canvas_tac. Qed.
#[local] Hint Resolve canvas_open_marker_tool : keeps.

Lemma canvas_run_command c : keeps canvas_ok (run_command c).
Proof. destruct c; cbn [run_command]; open_methods; canvas_tac. Qed.

Lemma canvas_run_option f im : keeps canvas_ok (run_option f im).
Proof. destruct f; cbn [run_option]; open_methods; canvas_tac. Qed.

Lemma canvas_run_callback c r : keeps canvas_ok (run_callback c r).
Proof. destruct c; cbn [run_callback]; open_methods; canvas_tac. Qed.
#[local] Hint Resolve canvas_run_command canvas_run_option
  canvas_run_callback : keeps.

Lemma canvas_handler e : keeps canvas_ok (handler e).
Proof. destruct e; cbn [handler]; open_methods; canvas_tac. Qed.

Lemma canvas_init : keeps canvas_ok Toolbar.__init__.
Proof. open_methods. canvas_tac. Qed.

Lemma canvas_run es a a' :
  canvas_ok a → run es a = Some a' → canvas_ok a'.
Proof.
  revert a. induction es as [|e es IH]; intros a Ha Hrun; cbn in Hrun.
  - by simplify_eq.
  - unfold fire in Hrun. destruct (enabled e a); [|done].
    apply (IH (exec (handler e) a)); [|done].
    apply keeps_exec; [apply canvas_handler|done].
Qed.

(** X2: the canvas mode never lacks its payload. If the canvas the toolbar is
    made on has a node to draw whenever its mode is [NODE] and a shape type
    whenever its mode is [ANNOTATION], then so has the canvas after the
    toolbar is made and after any events: every method that sets one of the
    two modes sets the payload with it. *)
Theorem mode_has_its_payload canvas nodes network_nodes custom_nodes es a :
  payload_ok canvas →
  run es
    (exec Toolbar.__init__ (blank canvas nodes network_nodes custom_nodes))
  = Some a →
  payload_ok (App.canvas a).
Proof.
  intros Hc Hrun. eapply canvas_run; [|exact Hrun].
  apply keeps_exec; [apply canvas_init|done].
Qed.

Lemma mode_has_its_payload_witness :
  payload_ok (Canvas.mk GraphMode.SELECT None None)
  ∧ run [Click 3; Idle; Release_option 10; Window_closed] sample
    = Some node_picked
  ∧ Canvas.mode (App.canvas node_picked) = GraphMode.NODE
  ∧ Canvas.node_draw (App.canvas node_picked) = Some router
  ∧ is_Some (Canvas.node_draw (App.canvas node_picked)).
Proof.
  assert (payload_ok (Canvas.mk GraphMode.SELECT None None)) as Hc
    by (split; discriminate).
  assert (run [Click 3; Idle; Release_option 10; Window_closed] sample
          = Some node_picked) as E by (vm_compute; reflexivity).
  assert (Canvas.mode (App.canvas node_picked) = GraphMode.NODE) as Hm
    by (vm_compute; reflexivity).
  split; [exact Hc|]. split; [exact E|]. split; [exact Hm|].
  split; [vm_compute; reflexivity|].
  refine (proj1
    (mode_has_its_payload (Canvas.mk GraphMode.SELECT None None)
       [router] [hub] ∅ [Click 3; Idle; Release_option 10; Window_closed]
       node_picked Hc _) Hm).
  vm_compute. reflexivity.
Defined.

(** ** The marker dialog *)

Lemma dialogs_same f :
  (∀ a, App.calls (f a) = App.calls a ∧ App.toolbar (f a) = App.toolbar a) →
  keeps dialogs_ok (modify f).
Proof.
  intros H. apply keeps_modify. intros a. unfold dialogs_ok.
  destruct (H a) as [-> ->]. done.
Qed.

Lemma dialogs_call c :
  (∀ d, c ≠ MarkerDialog_show d) → (∀ d, c ≠ MarkerDialog_destroy d) →
  keeps dialogs_ok (call c).
Proof.
  intros H1 H2. apply keeps_modify. intros a. unfold dialogs_ok. cbn.
  destruct c; try done; [by destruct (H1 dialog)|by destruct (H2 dialog)].
Qed.

Lemma dialogs_setattr g :
  (∀ s, Toolbar_attrs.marker_tool (g s) = Toolbar_attrs.marker_tool s) →
  keeps dialogs_ok (Toolbar.setattr g).
Proof.
  intros H. apply keeps_modify. intros a. unfold dialogs_ok. cbn.
  by rewrite H.
Qed.

(** Replacing the dialog: the old one is destroyed, the new one is shown. *)
Lemma dialogs_open_marker_tool : keeps dialogs_ok Toolbar.open_marker_tool.
Proof.
  intros a Ha. unfold dialogs_ok in *.
  unfold Toolbar.open_marker_tool, MarkerDialog, mbind, M_bind, self, gets.
  destruct (Toolbar_attrs.marker_tool (App.toolbar a)) as [d|]; cbn.
  - rewrite Ha. cbn. by rewrite Nat.eqb_refl.
  - by rewrite Ha.
Qed.

#[local] Hint Extern 1 (keeps dialogs_ok (modify_tk _)) =>
  apply dialogs_same; intros ?; split; reflexivity : keeps.
#[local] Hint Extern 1 (keeps dialogs_ok (modify_canvas _)) =>
  apply dialogs_same; intros ?; split; reflexivity : keeps.
#[local] Hint Extern 1 (keeps dialogs_ok (modify _)) =>
  apply dialogs_same; intros ?; split; reflexivity : keeps.
#[local] Hint Extern 1 (keeps dialogs_ok (call _)) =>
  apply dialogs_call; intros ?; discriminate : keeps.
#[local] Hint Extern 1 (keeps dialogs_ok (Toolbar.setattr _)) =>
  apply dialogs_setattr; intros ?; reflexivity : keeps.
#[local] Hint Resolve dialogs_open_marker_tool : keeps.

Lemma dialogs_run_command c : keeps dialogs_ok (run_command c).
Proof. destruct c; cbn [run_command]; open_methods; keeps_tac. Qed.

Lemma dialogs_run_option f im : keeps dialogs_ok (run_option f im).
Proof. destruct f; cbn [run_option]; open_methods; keeps_tac. Qed.

Lemma dialogs_run_callback c r : keeps dialogs_ok (run_callback c r).
Proof. destruct c; cbn [run_callback]; open_methods; keeps_tac. Qed.
#[local] Hint Resolve dialogs_run_command dialogs_run_option
  dialogs_run_callback : keeps.

Lemma dialogs_handler e : keeps dialogs_ok (handler e).
Proof. destruct e; cbn [handler]; open_methods; keeps_tac. Qed.

Lemma dialogs_reachable a : reachable a → dialogs_ok a.
Proof.
  induction 1 as [| a e a' Hr IH Hf].
  - by vm_compute.
  - unfold fire in Hf. destruct (enabled e a); [|done]. injection Hf as <-.
    apply keeps_exec; [apply dialogs_handler|done].
Qed.

(** X3: at most one marker dialog is alive. In a running application the
    marker dialogs that were shown and not destroyed since are exactly the
    one in [self.marker_tool], if there is one: every method that makes a
    marker dialog destroys the one before. *)
Theorem one_marker_dialog a :
  reachable a →
  alive (App.calls a)
  = match Toolbar_attrs.marker_tool (App.toolbar a) with
    | Some d => [d]
    | None => []
    end
  ∧ length (alive (App.calls a)) ≤ 1.
Proof.
  intros Hr. pose proof (dialogs_reachable a Hr) as H. unfold dialogs_ok in H.
  split; [exact H|]. rewrite H. destruct (Toolbar_attrs.marker_tool _); cbn; lia.
Qed.

Lemma one_marker_dialog_witness :
  reachable marked_twice
  ∧ alive (App.calls marked_twice) = [1]
  ∧ Toolbar_attrs.marker_tool (App.toolbar marked_twice) = Some 1.
Proof.
  assert (run [Click 0; Task_done 0 (StartSessionResponse true []);
               Click 8; Click 8] sample = Some marked_twice) as E
    by (vm_compute; reflexivity).
  pose proof (run_reachable _ sample _ (reach_new _ _ _ _) E) as Hr.
  split; [exact Hr|].
  assert (Toolbar_attrs.marker_tool (App.toolbar marked_twice) = Some 1) as Hm
    by (vm_compute; reflexivity).
  split; [|exact Hm].
  pose proof (proj1 (one_marker_dialog marked_twice Hr)) as H.
  rewrite Hm in H. exact H.
Defined.

(** ** [enable_buttons] *)

Lemma alter_button_run i g a :
  alter_button i g a
  = match Tk.buttons (App.tk a) !! i with
    | Some _ => (Returns (), with_buttons (alter g i (Tk.buttons (App.tk a))) a)
    | None => (Raises TclError, a)
    end.
Proof.
  unfold alter_button, the_button, mbind, M_bind. by destruct (_ !! _).
Qed.

Lemma length_alter_all g cs l : length (alter_all g cs l) = length l.
Proof.
  revert l. induction cs as [|c cs IH]; intros l; [done|].
  cbn [alter_all foldl]. fold (alter_all g cs (alter g c l)).
  by rewrite IH, length_alter.
Qed.

Lemma lookup_alter_all g cs l j :
  (∀ x, g (g x) = g x) →
  alter_all g cs l !! j = (if decide (j ∈ cs) then g else id) <$> l !! j.
Proof.
  intros Hg. revert l. induction cs as [|c cs IH]; intros l.
  - cbn. by destruct (l !! j).
  - cbn [alter_all foldl]. fold (alter_all g cs (alter g c l)).
    rewrite IH, list_lookup_alter.
    destruct (decide (c = j)) as [->|Hne].
    + rewrite (decide_True (P := j ∈ j :: cs)) by apply list_elem_of_here.
      destruct (l !! j); [|done]. cbn.
      destruct (decide (j ∈ cs)); [by rewrite Hg|done].
    + destruct (decide (j ∈ cs)) as [Hin|Hin].
      * rewrite (decide_True (P := j ∈ c :: cs)); [done|].
        by apply list_elem_of_further.
      * rewrite (decide_False (P := j ∈ c :: cs)); [done|].
        intros [?|?]%elem_of_cons; done.
Qed.

Lemma for_each_alter_returns g cs a :
  Forall (λ c, c < length (Tk.buttons (App.tk a))) cs →
  for_each cs (λ c, alter_button c g) a
  = (Returns (), with_buttons (alter_all g cs (Tk.buttons (App.tk a))) a).
Proof.
  revert a. induction cs as [|c cs IH]; intros a Hall.
  - by destruct a as [[]].
  - apply Forall_cons in Hall as [Hc Hall].
    cbn [for_each]. unfold mbind, M_bind. rewrite alter_button_run.
    destruct (lookup_lt_is_Some_2 _ _ Hc) as [x ->].
    rewrite IH; [done|]. cbn. by rewrite length_alter.
Qed.

Lemma enable_buttons_run a f bar en :
  Tk.bars (App.tk a) !! f = Some bar →
  Forall (λ c, c < length (Tk.buttons (App.tk a))) (Bar.children bar) →
  enable_buttons (Some f) en a
  = (Returns (),
     with_buttons
       (alter_all (Button.set_disabled (negb en)) (Bar.children bar)
          (Tk.buttons (App.tk a))) a).
Proof.
  intros Hbar Hall. unfold enable_buttons, mbind, M_bind, the_bar. cbn.
  rewrite Hbar.
  rewrite <- (for_each_alter_returns _ _ _ Hall). by destruct en.
Qed.

(** X4: [enable_buttons] on a frame whose buttons are all in the store
    returns normally and changes the disabled flag of the children of the
    frame and nothing else: each child is disabled exactly when [enabled] is
    false, its other attributes are the same, and every other button, the
    canvas, the toolbar, the tasks and the call log are the same. On [None]
    for the frame it raises [AttributeError] and changes nothing. *)
Theorem enable_buttons_sets_the_children a f bar enabled :
  Tk.bars (App.tk a) !! f = Some bar →
  Forall (λ c, c < length (Tk.buttons (App.tk a))) (Bar.children bar) →
  (∃ a', enable_buttons (Some f) enabled a = (Returns (), a')
         ∧ a' = with_buttons (Tk.buttons (App.tk a')) a
         ∧ (∀ c, c ∈ Bar.children bar → is_disabled a' c = negb enabled)
         ∧ (∀ c x, c ∈ Bar.children bar →
                   Tk.buttons (App.tk a) !! c = Some x →
                   Tk.buttons (App.tk a') !! c
                   = Some (Button.set_disabled (negb enabled) x))
         ∧ (∀ j, j ∉ Bar.children bar →
                 Tk.buttons (App.tk a') !! j = Tk.buttons (App.tk a) !! j))
  ∧ enable_buttons None enabled a = (Raises AttributeError, a).
Proof.
  intros Hbar Hall. split; [|done].
  eexists. split; [by apply enable_buttons_run|].
  split; [done|]. cbn.
  assert (∀ x, Button.set_disabled (negb enabled)
                 (Button.set_disabled (negb enabled) x)
               = Button.set_disabled (negb enabled) x) as Hg by done.
  split; [|split].
  - intros c Hc. unfold is_disabled. cbn. rewrite lookup_alter_all by done.
    rewrite decide_True by done. rewrite Forall_forall in Hall.
    destruct (lookup_lt_is_Some_2 _ _ (Hall c Hc)) as [x ->]. done.
  - intros c x Hc Hx. rewrite lookup_alter_all by done.
    rewrite decide_True by done. by rewrite Hx.
  - intros j Hj. rewrite lookup_alter_all by done.
    rewrite decide_False by done. by destruct (_ !! j).
Qed.

Lemma enable_buttons_sets_the_children_witness :
  ∃ a', enable_buttons (Some 0) false sample = (Returns (), a')
        ∧ is_disabled a' 3 = true.
Proof.
  destruct (enable_buttons_sets_the_children sample 0
              (Bar.mk [1; 2; 3; 4; 5] [0; 1; 2; 3; 4; 5]) false)
    as ((a' & E & _ & Hd & _) & _).
  - vm_compute. reflexivity.
  - vm_compute. repeat constructor.
  - exists a'. split; [exact E|]. apply Hd. cbn.
    do 3 apply list_elem_of_further. apply list_elem_of_here.
Defined.

(** X5: of two calls of [enable_buttons] on the same frame the last one
    decides: where the calls return, disabling and then enabling a frame (or
    the other way round) leaves the state that the second call alone
    leaves. *)
Theorem enable_buttons_last_wins a f bar first second :
  Tk.bars (App.tk a) !! f = Some bar →
  Forall (λ c, c < length (Tk.buttons (App.tk a))) (Bar.children bar) →
  (enable_buttons (Some f) first;; enable_buttons (Some f) second) a
  = enable_buttons (Some f) second a.
Proof.
  intros Hbar Hall.
  rewrite (enable_buttons_run a f bar second Hbar Hall).
  unfold mbind, M_bind.
  rewrite (enable_buttons_run a f bar first Hbar Hall).
  rewrite (enable_buttons_run _ f bar second); cbn;
    [|done|by rewrite length_alter_all].
  assert (alter_all (Button.set_disabled (negb second)) (Bar.children bar)
            (alter_all (Button.set_disabled (negb first)) (Bar.children bar)
               (Tk.buttons (App.tk a)))
          = alter_all (Button.set_disabled (negb second)) (Bar.children bar)
              (Tk.buttons (App.tk a))) as ->.
  { apply list_eq. intros j. rewrite !lookup_alter_all by done.
    destruct (Tk.buttons (App.tk a) !! j); [|done]. cbn.
    by destruct (decide (j ∈ Bar.children bar)). }
  done.
Qed.

Lemma enable_buttons_last_wins_witness :
  (enable_buttons (Some 0) false;; enable_buttons (Some 0) true) sample
  = enable_buttons (Some 0) true sample.
Proof.
  apply (enable_buttons_last_wins sample 0
           (Bar.mk [1; 2; 3; 4; 5] [0; 1; 2; 3; 4; 5])).
  - vm_compute. reflexivity.
  - vm_compute. repeat constructor.
Defined.

(** ** Making the toolbar *)

(** X6: [Toolbar(app)] on an application without widgets returns normally
    and leaves the toolbar built: the design frame with the start button and
    five radio buttons, the runtime frame with the stop and run buttons and
    two radio buttons; the design frame is on top although the runtime frame
    was made after it; every button is enabled, none is pressed, each shows
    its image at toolbar size; canvas, tasks and call log are untouched. *)
Theorem a_new_toolbar_is_in_design canvas nodes network_nodes custom_nodes :
  ∃ a,
    Toolbar.__init__ (blank canvas nodes network_nodes custom_nodes)
    = (Returns (), a)
    ∧ built a
    ∧ phase a = Design
    ∧ raised a = Toolbar_attrs.design_frame (App.toolbar a)
    ∧ design_group a = [0; 1; 2; 3; 4; 5]
    ∧ toggles a (Toolbar_attrs.design_frame (App.toolbar a)) = [1; 2; 3; 4; 5]
    ∧ runtime_group a = [6; 7; 8; 9]
    ∧ toggles a (Toolbar_attrs.runtime_frame (App.toolbar a)) = [7; 8]
    ∧ all_enabled a (design_group a ++ runtime_group a)
    ∧ selected a (design_group a ++ runtime_group a) = []
    ∧ (Button.image <$> Tk.buttons (App.tk a))
      = (λ e, Some (get_icon e TOOLBAR_SIZE))
        <$> [ ImageEnum.START; ImageEnum.SELECT; ImageEnum.LINK;
              ImageEnum.ROUTER; ImageEnum.HUB; ImageEnum.MARKER;
              ImageEnum.STOP; ImageEnum.SELECT; ImageEnum.MARKER;
              ImageEnum.RUN ]
    ∧ Tk.pickers (App.tk a) = []
    ∧ App.canvas a = canvas
    ∧ App.tasks a = []
    ∧ App.calls a = [].
Proof.
  exists (exec Toolbar.__init__ (blank canvas nodes network_nodes custom_nodes)).
  split; [vm_compute; reflexivity|].
  unfold built, all_enabled.
  repeat split; vm_compute; try reflexivity; repeat constructor.
Qed.

(** ** The mode tools *)

Lemma steady_exec {A} (m : M A) a :
  (∀ a0, keeps (steady a0) m) → steady a (exec m a).
Proof. intros H. apply keeps_exec; [apply H|apply steady_refl]. Qed.

(** X7: each mode tool of the design frame selects its own toggle and no
    other, and sets the canvas mode that goes with it: [click_selection]
    leaves the selection tool the only selected design toggle and the mode
    Select, [click_link] the link tool and the mode Edge. Neither touches
    the enabled state of a button, the frames, the tasks or the payload of
    the canvas. *)
Theorem design_tools_select_their_toggle a :
  reachable a →
  (∃ a' b,
     Toolbar.click_selection a = (Returns (), a')
     ∧ Toolbar_attrs.select_button (App.toolbar a) = Some b
     ∧ selected a' (toggles a' (Toolbar_attrs.design_frame (App.toolbar a')))
       = [b]
     ∧ App.canvas a' = Canvas.set_mode GraphMode.SELECT (App.canvas a)
     ∧ steady a a')
  ∧ (∃ a' b,
       Toolbar.click_link a = (Returns (), a')
       ∧ Toolbar_attrs.link_button (App.toolbar a) = Some b
       ∧ selected a' (toggles a' (Toolbar_attrs.design_frame (App.toolbar a')))
         = [b]
       ∧ App.canvas a' = Canvas.set_mode GraphMode.EDGE (App.canvas a)
       ∧ steady a a').
Proof.
  intros Hr. destruct (invariant_reachable a Hr) as (H & _).
  split.
  - exists (exec Toolbar.click_selection a), 1.
    split; [|split; [|split; [|split]]];
      [| | | |apply steady_exec, steady_click_selection];
      clear Hr; explode a H; vm_compute; reflexivity.
  - exists (exec Toolbar.click_link a), 2.
    split; [|split; [|split; [|split]]];
      [| | | |apply steady_exec, steady_click_link];
      clear Hr; explode a H; vm_compute; reflexivity.
Qed.

Lemma design_tools_select_their_toggle_witness :
  reachable sample
  ∧ ∃ a', Toolbar.click_link sample = (Returns (), a')
          ∧ Canvas.mode (App.canvas a') = GraphMode.EDGE.
Proof.
  split; [apply reach_new|].
  destruct (proj2 (design_tools_select_their_toggle sample (reach_new _ _ _ _)))
    as (a' & b & E & _ & _ & Hc & _).
  exists a'. split; [exact E|]. rewrite Hc. reflexivity.
Defined.

(** X8: the runtime tools do the same in the runtime frame.
    [click_runtime_selection] leaves the runtime selection tool the only
    selected runtime toggle and the mode Select; [click_marker_button] leaves
    the marker tool the only selected runtime toggle, the mode Annotation
    with the marker shape as its payload, and a new marker dialog shown. *)
Theorem runtime_tools_select_their_toggle a :
  reachable a →
  (∃ a' b,
     Toolbar.click_runtime_selection a = (Returns (), a')
     ∧ Toolbar_attrs.runtime_select_button (App.toolbar a) = Some b
     ∧ selected a' (toggles a' (Toolbar_attrs.runtime_frame (App.toolbar a')))
       = [b]
     ∧ App.canvas a' = Canvas.set_mode GraphMode.SELECT (App.canvas a)
     ∧ steady a a')
  ∧ (∃ a' b,
       Toolbar.click_marker_button a = (Returns (), a')
       ∧ Toolbar_attrs.runtime_marker_button (App.toolbar a) = Some b
       ∧ selected a'
           (toggles a' (Toolbar_attrs.runtime_frame (App.toolbar a')))
         = [b]
       ∧ Canvas.mode (App.canvas a') = GraphMode.ANNOTATION
       ∧ Canvas.annotation_type (App.canvas a') = Some ShapeType.MARKER
       ∧ Toolbar_attrs.marker_tool (App.toolbar a') = Some (App.dialogs a)
       ∧ head (App.calls a') = Some (MarkerDialog_show (App.dialogs a))
       ∧ steady a a').
Proof.
  intros Hr. destruct (invariant_reachable a Hr) as (H & _).
  split.
  - exists (exec Toolbar.click_runtime_selection a), 7.
    split; [|split; [|split; [|split]]];
      [| | | |apply steady_exec, steady_click_runtime_selection];
      clear Hr; explode a H; vm_compute; reflexivity.
  - exists (exec Toolbar.click_marker_button a), 8.
    split; [|split; [|split; [|split; [|split; [|split; [|split]]]]]];
      [| | | | | | |apply steady_exec, steady_click_marker_button];
      clear Hr; explode a H; destruct mt; vm_compute; reflexivity.
Qed.

Lemma runtime_tools_select_their_toggle_witness :
  reachable running
  ∧ ∃ a', Toolbar.click_marker_button running = (Returns (), a')
          ∧ Canvas.mode (App.canvas a') = GraphMode.ANNOTATION.
Proof.
  assert (run [Click 0; Task_done 0 (StartSessionResponse true [])] sample
          = Some running) as E by (vm_compute; reflexivity).
  pose proof (run_reachable _ sample _ (reach_new _ _ _ _) E) as Hr.
  split; [exact Hr|].
  destruct (proj2 (runtime_tools_select_their_toggle running Hr))
    as (a' & b & E' & _ & _ & Hm & _).
  exists a'. by split.
Defined.

(** ** Scaling *)

Lemma same_but_images_refl a : same_but_images a a.
Proof. split; [by destruct a as [[]]|done]. Qed.

Lemma same_but_images_alter a0 a i g :
  (∀ x, no_image (g x) = no_image x) →
  same_but_images a0 a →
  same_but_images a0 (with_buttons (alter g i (Tk.buttons (App.tk a))) a).
Proof.
  intros Hg [E1 E2]. split.
  - rewrite E1 at 2. done.
  - cbn. rewrite <- E2. apply list_eq. intros j.
    rewrite !list_lookup_fmap, list_lookup_alter.
    destruct (decide (i = j)) as [->|]; [|done].
    destruct (Tk.buttons (App.tk a) !! j); cbn; [by rewrite Hg|done].
Qed.

Lemma images_alter_button a0 i g :
  (∀ x, no_image (g x) = no_image x) →
  keeps (same_but_images a0) (alter_button i g).
Proof.
  intros Hg a Ha. rewrite alter_button_run.
  destruct (_ !! _); [|done]. by apply same_but_images_alter.
Qed.

Lemma images_configure_image a0 b im :
  keeps (same_but_images a0) (configure_image b im).
Proof. by apply images_alter_button. Qed.
Lemma images_assign_image a0 b im :
  keeps (same_but_images a0) (assign_image b im).
Proof. by apply images_alter_button. Qed.
#[local] Hint Resolve images_configure_image images_assign_image : keeps.

Lemma images_scale a0 : keeps (same_but_images a0) Toolbar.scale.
Proof. unfold Toolbar.scale, Toolbar.scale_button. keeps_tac. Qed.

(** X9: [scale] changes pictures and nothing else. From any state, whether
    it returns or raises, the state it leaves differs from the state before
    only in the [image] of buttons: every button is still there with the
    same enabled and pressed state, command and binding, and the frames, the
    pickers, the canvas, the toolbar attributes, the tasks and the call log
    are the same. *)
Theorem scale_changes_only_images a :
  let a' := exec Toolbar.scale a in
  a' = with_buttons (Tk.buttons (App.tk a')) a
  ∧ length (Tk.buttons (App.tk a')) = length (Tk.buttons (App.tk a))
  ∧ ∀ j x, Tk.buttons (App.tk a) !! j = Some x →
      ∃ x', Tk.buttons (App.tk a') !! j = Some x'
            ∧ Button.disabled x' = Button.disabled x
            ∧ Button.pressed x' = Button.pressed x
            ∧ Button.command x' = Button.command x
            ∧ Button.release x' = Button.release x.
Proof.
  destruct (keeps_exec _ _ a (images_scale a) (same_but_images_refl a))
    as [E1 E2].
  cbn zeta. split; [exact E1|].
  split.
  - apply (f_equal length) in E2. by rewrite !length_fmap in E2.
  - intros j x Hx.
    assert ((no_image <$> Tk.buttons (App.tk (exec Toolbar.scale a))) !! j
            = Some (no_image x)) as Hj.
    { by rewrite E2, list_lookup_fmap, Hx. }
    rewrite list_lookup_fmap in Hj.
    destruct (Tk.buttons (App.tk (exec Toolbar.scale a)) !! j) as [x'|];
      [|done].
    exists x'. split; [done|]. cbn in Hj. injection Hj as Hj.
    destruct x, x'. unfold no_image in Hj. cbn in *. by simplify_eq.
Qed.

(** X10: in a running application [scale] returns normally, and scaling
    twice leaves the state that scaling once leaves. *)
Theorem scale_is_idempotent a :
  reachable a →
  fst (Toolbar.scale a) = Returns ()
  ∧ exec Toolbar.scale (exec Toolbar.scale a) = exec Toolbar.scale a.
Proof.
  intros Hr. destruct (invariant_reachable a Hr) as (H & _ & Hi). clear Hr.
  explode a H. unfold icon_ok in Hi. cbn in Hi.
  destruct Hi as [[[e ->] ->]|[-> Hf]].
  - destruct nwe, ae; split; vm_compute; reflexivity.
  - destruct nf as [[|c f]|]; try done.
    destruct nwe, ae; split; vm_compute; reflexivity.
Qed.

Lemma scale_is_idempotent_witness :
  reachable sample ∧ fst (Toolbar.scale sample) = Returns ().
Proof.
  split; [apply reach_new|].
  exact (proj1 (scale_is_idempotent sample (reach_new _ _ _ _))).
Defined.

(** ** Picking an option *)

(** X11: what [update_button] records is what [scale] redraws. In a running
    application, picking a node that has an [image_enum] (the callback gets
    the icon of that enum at toolbar size), a custom node that has only an
    [image_file], or a network node, returns normally, puts the picked image
    on the owning button, sets the canvas mode to [NODE] with the node as
    payload and records the source of the image; a later [scale] leaves that
    button exactly as it is. *)
Theorem picked_image_survives_scale a :
  reachable a →
  (∀ label e file,
     let nd := NodeDraw.mk label (Some e) file in
     let image := get_icon e TOOLBAR_SIZE in
     ∃ a' b x,
       Toolbar.update_button (Toolbar_attrs.node_button (App.toolbar a)) nd
         NodeTypeEnum.NODE image a = (Returns (), a')
       ∧ Toolbar_attrs.node_button (App.toolbar a) = Some b
       ∧ Tk.buttons (App.tk a') !! b = Some x
       ∧ Button.image x = Some image
       ∧ App.canvas a'
         = Canvas.set_node_draw (Some nd)
             (Canvas.set_mode GraphMode.NODE (App.canvas a))
       ∧ Toolbar_attrs.node_enum (App.toolbar a') = Some e
       ∧ Toolbar_attrs.node_file (App.toolbar a') = None
       ∧ Tk.buttons (App.tk (exec Toolbar.scale a')) !! b = Some x)
  ∧ (∀ label file,
       str_truthy (Some file) = true →
       let nd := NodeDraw.mk label None (Some file) in
       let image := get_custom_icon file TOOLBAR_SIZE in
       ∃ a' b x,
         Toolbar.update_button (Toolbar_attrs.node_button (App.toolbar a)) nd
           NodeTypeEnum.NODE image a = (Returns (), a')
         ∧ Toolbar_attrs.node_button (App.toolbar a) = Some b
         ∧ Tk.buttons (App.tk a') !! b = Some x
         ∧ Button.image x = Some image
         ∧ Toolbar_attrs.node_enum (App.toolbar a') = None
         ∧ Toolbar_attrs.node_file (App.toolbar a') = Some file
         ∧ Tk.buttons (App.tk (exec Toolbar.scale a')) !! b = Some x)
  ∧ (∀ label e file,
       let nd := NodeDraw.mk label (Some e) file in
       let image := get_icon e TOOLBAR_SIZE in
       ∃ a' b x,
         Toolbar.update_button (Toolbar_attrs.network_button (App.toolbar a))
           nd NodeTypeEnum.NETWORK image a = (Returns (), a')
         ∧ Toolbar_attrs.network_button (App.toolbar a) = Some b
         ∧ Tk.buttons (App.tk a') !! b = Some x
         ∧ Button.image x = Some image
         ∧ Toolbar_attrs.network_enum (App.toolbar a') = Some e
         ∧ Toolbar_attrs.node_enum (App.toolbar a')
           = Toolbar_attrs.node_enum (App.toolbar a)
         ∧ Toolbar_attrs.node_file (App.toolbar a')
           = Toolbar_attrs.node_file (App.toolbar a)
         ∧ Tk.buttons (App.tk (exec Toolbar.scale a')) !! b = Some x).
Proof.
  intros Hr. destruct (invariant_reachable a Hr) as (H & _ & Hi). clear Hr.
  explode a H. unfold icon_ok in Hi. cbn in Hi.
  split; [|split].
  - intros lbl e file nd0 img. subst nd0 img.
    match goal with
    | |- ∃ a' b x, ?m ?s = _ ∧ _ => exists (snd (m s)), 3; eexists
    end.
    split; [vm_compute; reflexivity|]. split; [reflexivity|].
    split; [vm_compute; reflexivity|].
    destruct nwe, ae; repeat split; vm_compute; reflexivity.
  - intros lbl [|c f] Hf nd0 img; [done|]. subst nd0 img.
    match goal with
    | |- ∃ a' b x, ?m ?s = _ ∧ _ => exists (snd (m s)), 3; eexists
    end.
    split; [vm_compute; reflexivity|]. split; [reflexivity|].
    split; [vm_compute; reflexivity|].
    destruct nwe, ae; repeat split; vm_compute; reflexivity.
  - intros lbl e file nd0 img. subst nd0 img.
    match goal with
    | |- ∃ a' b x, ?m ?s = _ ∧ _ => exists (snd (m s)), 4; eexists
    end.
    split; [vm_compute; reflexivity|]. split; [reflexivity|].
    split; [vm_compute; reflexivity|].
    destruct Hi as [[[e' ->] ->]|[-> Hf]].
    + destruct ae; repeat split; vm_compute; reflexivity.
    + destruct nf as [[|c f]|]; try done.
      destruct ae; repeat split; vm_compute; reflexivity.
Qed.

Lemma picked_image_survives_scale_witness :
  reachable sample
  ∧ ∃ a', Toolbar.update_button (Some 3) router NodeTypeEnum.NODE
            (get_icon ImageEnum.ROUTER TOOLBAR_SIZE) sample
          = (Returns (), a')
          ∧ Toolbar_attrs.node_enum (App.toolbar a') = Some ImageEnum.ROUTER.
Proof.
  split; [apply reach_new|].
  destruct (proj1 (picked_image_survives_scale sample (reach_new _ _ _ _))
              "router" ImageEnum.ROUTER None)
    as (a' & b & x & E & _ & _ & _ & _ & He & _).
  exists a'. split; [exact E|exact He].
Defined.

(** X12: a picked image that [scale] replaces. For a custom node that has
    both an [image_file] and an [image_enum], the picker option shows and
    hands over the image of the file, but [update_button] records the enum
    (it tests [image_enum] first) and clears [node_file]: the node button
    shows the file's image until the next [scale], which draws the icon of
    the enum instead. *)
Theorem custom_image_with_enum_is_lost_on_scale a label e file :
  reachable a →
  let nd := NodeDraw.mk label (Some e) (Some file) in
  let image := get_custom_icon file TOOLBAR_SIZE in
  ∃ a' b x x',
    Toolbar.update_button (Toolbar_attrs.node_button (App.toolbar a)) nd
      NodeTypeEnum.NODE image a = (Returns (), a')
    ∧ Toolbar_attrs.node_button (App.toolbar a) = Some b
    ∧ Tk.buttons (App.tk a') !! b = Some x
    ∧ Button.image x = Some (get_custom_icon file TOOLBAR_SIZE)
    ∧ Toolbar_attrs.node_enum (App.toolbar a') = Some e
    ∧ Toolbar_attrs.node_file (App.toolbar a') = None
    ∧ Tk.buttons (App.tk (exec Toolbar.scale a')) !! b = Some x'
    ∧ Button.image x' = Some (get_icon e TOOLBAR_SIZE)
    ∧ Button.image x' ≠ Button.image x.
Proof.
  intros Hr nd0 img. subst nd0 img.
  destruct (invariant_reachable a Hr) as (H & _). clear Hr. explode a H.
  match goal with
  | |- ∃ a' b x x', ?m ?s = _ ∧ _ => exists (snd (m s)), 3; do 2 eexists
  end.
  split; [vm_compute; reflexivity|]. split; [reflexivity|].
  split; [vm_compute; reflexivity|].
  split; [reflexivity|]. split; [reflexivity|]. split; [reflexivity|].
  split; [destruct nwe, ae; vm_compute; reflexivity|].
  split; [destruct nwe, ae; reflexivity|].
  destruct nwe, ae; discriminate.
Qed.

Lemma custom_image_with_enum_is_lost_on_scale_witness :
  reachable sample
  ∧ ∃ a',
      Toolbar.update_button (Some 3)
        (NodeDraw.mk "mine" (Some ImageEnum.ROUTER) (Some "mine.png"))
        NodeTypeEnum.NODE (get_custom_icon "mine.png" TOOLBAR_SIZE) sample
      = (Returns (), a')
      ∧ Toolbar_attrs.node_file (App.toolbar a') = None.
Proof.
  split; [apply reach_new|].
  destruct (custom_image_with_enum_is_lost_on_scale sample "mine"
              ImageEnum.ROUTER "mine.png" (reach_new _ _ _ _))
    as (a' & b & x & x' & E & _ & _ & _ & _ & Hf & _).
  exists a'. split; [exact E|exact Hf].
Defined.

(** X13: [update_annotation] puts the picked image on the annotation
    button, sets the canvas mode to [ANNOTATION] with the shape as payload
    and records the enum; and only the marker shape opens the marker dialog:
    for the other shapes no dialog is destroyed, made or shown, for the
    marker the dialog before (if any) is destroyed and a new one is
    shown. *)
Theorem update_annotation_opens_marker_dialog_only_for_marker
    a shape_type image_enum image :
  reachable a →
  ∃ a' b x,
    Toolbar.update_annotation shape_type image_enum image a = (Returns (), a')
    ∧ Toolbar_attrs.annotation_button (App.toolbar a) = Some b
    ∧ Tk.buttons (App.tk a') !! b = Some x
    ∧ Button.image x = Some image
    ∧ Canvas.mode (App.canvas a') = GraphMode.ANNOTATION
    ∧ Canvas.annotation_type (App.canvas a') = Some shape_type
    ∧ Toolbar_attrs.annotation_enum (App.toolbar a') = Some image_enum
    ∧ (shape_type ≠ ShapeType.MARKER →
       App.calls a' = App.calls a
       ∧ App.dialogs a' = App.dialogs a
       ∧ Toolbar_attrs.marker_tool (App.toolbar a')
         = Toolbar_attrs.marker_tool (App.toolbar a))
    ∧ (shape_type = ShapeType.MARKER →
       App.calls a'
       = MarkerDialog_show (App.dialogs a)
         :: match Toolbar_attrs.marker_tool (App.toolbar a) with
            | Some d => [MarkerDialog_destroy d]
            | None => []
            end ++ App.calls a
       ∧ App.dialogs a' = S (App.dialogs a)
       ∧ Toolbar_attrs.marker_tool (App.toolbar a') = Some (App.dialogs a)).
Proof.
  intros Hr. destruct (invariant_reachable a Hr) as (H & _). clear Hr.
  explode a H.
  match goal with
  | |- ∃ a' b x, ?m ?s = _ ∧ _ => exists (snd (m s)), 5; eexists
  end.
  destruct shape_type, mt;
    (split; [vm_compute; reflexivity|]); (split; [reflexivity|]);
    (split; [vm_compute; reflexivity|]);
    repeat split; try done; vm_compute; reflexivity.
Qed.

Lemma update_annotation_opens_marker_dialog_only_for_marker_witness :
  reachable sample
  ∧ ∃ a', Toolbar.update_annotation ShapeType.OVAL ImageEnum.OVAL
            (get_icon ImageEnum.OVAL TOOLBAR_SIZE) sample
          = (Returns (), a')
          ∧ App.calls a' = App.calls sample.
Proof.
  split; [apply reach_new|].
  destruct (update_annotation_opens_marker_dialog_only_for_marker sample
              ShapeType.OVAL ImageEnum.OVAL
              (get_icon ImageEnum.OVAL TOOLBAR_SIZE) (reach_new _ _ _ _))
    as (a' & b & x & E & _ & _ & _ & _ & _ & _ & Hn & _).
  exists a'. split; [exact E|]. apply Hn. discriminate.
Defined.

(** ** A whole session *)

Lemma design_shape a :
  invariant a → phase a = Design →
  App.tasks a = [] ∧ Tk.stacking (App.tk a) = [0; 1].
Proof.
  intros (H & Hs & _) Hp. unfold phase in Hp. unfold session_ok in Hs.
  destruct (built_widgets a H) as (_ & _ & _ & _ & _ & Hrf).
  destruct (App.tasks a) as [|t [|]]; [| |done].
  - split; [done|]. destruct Hs as [Hk|Hk]; [done|]. exfalso.
    cbn in Hp. unfold raised in Hp. rewrite Hk, Hrf in Hp. cbn in Hp.
    rewrite bool_decide_eq_true_2 in Hp; [done|]. split; [by eexists|done].
  - exfalso. destruct Hs as [(-> & _)|(-> & _)]; cbn in Hp; done.
Qed.

(** X14: a whole session brings the toolbar back. From a state of the
    running application in phase [Design], with no picker holding the
    pointer, the events start click, successful start, stop click and stop
    completion can happen in this order, and they end in phase [Design] with
    no task in flight, the design frame on top, every design button enabled
    and the selection tool selected, the canvas mode Select and the menubar
    in its design state; the collaborators were called in the order menubar
    (runtime), [set_metadata], [show_mobility_players], menubar (design),
    [close_mobility_players], [stopped_session]. *)
Theorem a_session_returns_to_design a xs res :
  reachable a → phase a = Design →
  Tk.grab (App.tk a) = None → Tk.binding_all (App.tk a) = None →
  ∃ a',
    run [ Click 0; Task_done 0 (StartSessionResponse true xs);
          Click 6; Task_done 0 (StopSessionResponse res) ] a = Some a'
    ∧ phase a' = Design
    ∧ App.tasks a' = []
    ∧ raised a' = Toolbar_attrs.design_frame (App.toolbar a')
    ∧ all_enabled a' (design_group a')
    ∧ selected a' (toggles a' (Toolbar_attrs.design_frame (App.toolbar a')))
      = [1]
    ∧ Canvas.mode (App.canvas a') = GraphMode.SELECT
    ∧ menubar_is_runtime (App.calls a') = Some false
    ∧ App.calls a'
      = [ stopped_session; close_mobility_players;
          change_menubar_item_state false; show_mobility_players;
          set_metadata; change_menubar_item_state true ] ++ App.calls a.
Proof.
  intros Hr Hp Hg Hb0. pose proof (invariant_reachable a Hr) as Hinv.
  destruct (design_shape a Hinv Hp) as [Ht Hk].
  pose proof (controls_reachable a Hr Ht) as Hen.
  exists (exec (handler (Task_done 0 (StopSessionResponse res)))
            (exec (handler (Click 6))
               (exec (handler (Task_done 0 (StartSessionResponse true xs)))
                  (exec (handler (Click 0)) a)))).
  destruct Hinv as (H & _). clear Hr Hp. explode a H.
  cbn in Ht, Hk, Hg, Hb0. subst ts stk grb bnd.
  unfold all_enabled in Hen. cbn in Hen. rewrite !Forall_cons in Hen.
  cbn in Hen. destruct Hen as (-> & -> & -> & -> & -> & -> & _).
  do 4 (split; [vm_compute; reflexivity|]).
  split; [unfold all_enabled; vm_compute; repeat constructor|].
  do 3 (split; [vm_compute; reflexivity|]).
  vm_compute. reflexivity.
Qed.

Lemma a_session_returns_to_design_witness :
  reachable sample
  ∧ ∃ a', run [ Click 0; Task_done 0 (StartSessionResponse true []);
                Click 6; Task_done 0 (StopSessionResponse true) ] sample
          = Some a'
          ∧ phase a' = Design.
Proof.
  split; [apply reach_new|].
  destruct (a_session_returns_to_design sample [] true (reach_new _ _ _ _))
    as (a' & E & Hp & _);
    [vm_compute; reflexivity|vm_compute; reflexivity|vm_compute; reflexivity|].
  exists a'. split; [exact E|exact Hp].
Defined.

(** ** The options of a picker *)

Lemma lookup_snoc {A} (l : list A) b : (l ++ [b]) !! length l = Some b.
Proof. by rewrite lookup_app_r, Nat.sub_diag. Qed.

Lemma alter_snoc {A} (g : A → A) l b :
  alter g (length l) (l ++ [b]) = l ++ [g b].
Proof.
  rewrite <- (Nat.add_0_r (length l)) at 1. by rewrite alter_app_r.
Qed.

Lemma _create_button_run a self x image bar_image func :
  Tk.pickers (App.tk a) !! self = Some x →
  PickerFrame._create_button self image bar_image func a
  = (Returns (), with_option self (option_button image bar_image func) a).
Proof.
  intros Hx.
  unfold PickerFrame._create_button, ttk_Button, alter_picker, the_picker,
    assign_image, bind_release, mbind, M_bind, gets, modify_tk, modify, mret,
    M_ret.
  rewrite Hx. cbn. rewrite alter_button_run. cbn.
  rewrite (lookup_snoc (Tk.buttons (App.tk a))). cbn.
  rewrite (alter_snoc _ (Tk.buttons (App.tk a))). cbn.
  rewrite alter_button_run. cbn.
  rewrite (lookup_snoc (Tk.buttons (App.tk a))). cbn.
  rewrite (alter_snoc _ (Tk.buttons (App.tk a))). done.
Qed.

(** X15: what a picker option is. In a picker that is in the store,
    [create_button] with an image enum and [create_custom_button] with an
    image file return normally and add one button, the last in the store and
    the last child of that picker: enabled, not pressed, without command,
    showing the image at picker size, and bound on release to the callback
    with the image at toolbar size. Nothing else changes. *)
Theorem a_picker_option_shows_small_and_hands_over_large a self x func :
  Tk.pickers (App.tk a) !! self = Some x →
  (∀ e,
     PickerFrame.create_button self (Some e) func a
     = (Returns (),
        with_option self
          (option_button (get_icon e PICKER_SIZE) (get_icon e TOOLBAR_SIZE)
             func) a))
  ∧ (∀ file,
       PickerFrame.create_custom_button self (Some file) func a
       = (Returns (),
          with_option self
            (option_button (get_custom_icon file PICKER_SIZE)
               (get_custom_icon file TOOLBAR_SIZE) func) a))
  ∧ (∀ b, let a' := with_option self b a in
       Tk.buttons (App.tk a') !! length (Tk.buttons (App.tk a)) = Some b
       ∧ (Picker.children <$> Tk.pickers (App.tk a') !! self)
         = Some (Picker.children x ++ [length (Tk.buttons (App.tk a))])
       ∧ (∀ j y, Tk.buttons (App.tk a) !! j = Some y →
                 Tk.buttons (App.tk a') !! j = Some y)
       ∧ (∀ q, q ≠ self →
               Tk.pickers (App.tk a') !! q = Tk.pickers (App.tk a) !! q)
       ∧ Tk.bars (App.tk a') = Tk.bars (App.tk a)
       ∧ App.toolbar a' = App.toolbar a
       ∧ App.canvas a' = App.canvas a
       ∧ App.tasks a' = App.tasks a
       ∧ App.calls a' = App.calls a).
Proof.
  intros Hx. split; [|split].
  - intros e. unfold PickerFrame.create_button. cbn.
    by apply (_create_button_run _ _ x).
  - intros file. unfold PickerFrame.create_custom_button. cbn.
    by apply (_create_button_run _ _ x).
  - intros b. cbn. split; [apply lookup_snoc|]. split; [|split; [|split]].
    + by rewrite list_lookup_alter_eq, Hx.
    + intros j y Hy. by apply lookup_app_l_Some.
    + intros q Hq. by rewrite list_lookup_alter_ne.
    + done.
Qed.

Lemma a_picker_option_shows_small_and_hands_over_large_witness :
  Tk.pickers (App.tk picker_shown) !! 0
  = Some (Picker.mk (Some 3) [10] true false)
  ∧ ∃ a',
      PickerFrame.create_button 0 (Some ImageEnum.HUB)
        (partial_update_button (Some 3) hub NodeTypeEnum.NODE) picker_shown
      = (Returns (), a')
      ∧ Tk.buttons (App.tk a') !! 11
        = Some (option_button (get_icon ImageEnum.HUB PICKER_SIZE)
                  (get_icon ImageEnum.HUB TOOLBAR_SIZE)
                  (partial_update_button (Some 3) hub NodeTypeEnum.NODE))
      ∧ (Picker.children <$> Tk.pickers (App.tk a') !! 0) = Some [10; 11].
Proof.
  assert (Tk.pickers (App.tk picker_shown) !! 0
          = Some (Picker.mk (Some 3) [10] true false)) as Hx
    by (vm_compute; reflexivity).
  assert (length (Tk.buttons (App.tk picker_shown)) = 11) as Hl
    by (vm_compute; reflexivity).
  split; [exact Hx|].
  destruct (a_picker_option_shows_small_and_hands_over_large picker_shown 0 _
              (partial_update_button (Some 3) hub NodeTypeEnum.NODE) Hx)
    as (He & _ & Hb).
  eexists. split; [exact (He ImageEnum.HUB)|].
  destruct (Hb (option_button (get_icon ImageEnum.HUB PICKER_SIZE)
                  (get_icon ImageEnum.HUB TOOLBAR_SIZE)
                  (partial_update_button (Some 3) hub NodeTypeEnum.NODE)))
    as (H1 & H2 & _).
  rewrite Hl in H1, H2. split; [exact H1|exact H2].
Defined.

(** ** Filling a picker *)

Lemma bind_returns {A B} (m : M A) (k : A → M B) a v a1 :
  m a = (Returns v, a1) → (m ≫= k) a = k v a1.
Proof. intros E. unfold mbind, M_bind. by rewrite E. Qed.

(** Runs the first statement of a method. *)
Ltac step := erewrite bind_returns; [|cbn; reflexivity]; cbv beta.

Lemma with_options_eq p bs a :
  with_options p bs a
  = App.set_tk
      (Tk.set_buttons (Tk.buttons (App.tk a) ++ bs)
         (Tk.set_pickers
            (alter (λ x, Picker.set_children
                           (Picker.children x
                            ++ seq (length (Tk.buttons (App.tk a))) (length bs))
                           x)
               p (Tk.pickers (App.tk a)))
            (App.tk a)))
      a.
Proof.
  unfold with_options. revert a. induction bs as [|b bs IH]; intros a.
  - destruct a as [[] ? ? ? ? ? ? ? ?]. cbn. rewrite app_nil_r.
    rewrite list_alter_id; [done|]. intros [? ? ? ?]. cbn.
    by rewrite app_nil_r.
  - cbn [foldl]. rewrite IH. destruct a as [[] ? ? ? ? ? ? ? ?]. cbn.
    rewrite <- app_assoc. cbn. rewrite list_alter_alter_eq.
    unfold App.set_tk, Tk.set_buttons, Tk.set_pickers. cbn.
    f_equal. f_equal. apply list_alter_ext; [|done].
    intros [? ? ? ?] _. cbn. rewrite <- app_assoc, length_app. cbn.
    by rewrite Nat.add_1_r.
Qed.

(** A loop that adds one option to picker [p] for each element. *)
Lemma for_each_options {A} (body : A → M unit) (opt : A → option Button.t)
    p t xs bs :
  (∀ x s y b, App.toolbar s = t → Tk.pickers (App.tk s) !! p = Some y →
     opt x = Some b → body x s = (Returns (), with_option p b s)) →
  Forall2 (λ x b, opt x = Some b) xs bs →
  ∀ a y, App.toolbar a = t → Tk.pickers (App.tk a) !! p = Some y →
    for_each xs body a = (Returns (), with_options p bs a).
Proof.
  intros Hbody Hall. induction Hall as [|x b xs bs Hx _ IH]; intros a y Ht Hy.
  - done.
  - cbn [for_each]. unfold mbind, M_bind.
    rewrite (Hbody x a y b Ht Hy Hx).
    eapply IH; [done|]. cbn. by rewrite list_lookup_alter_eq, Hy.
Qed.

Lemma options_exist {A} (opt : A → option Button.t) xs :
  Forall (λ x, is_Some (opt x)) xs →
  ∃ bs, Forall2 (λ x b, opt x = Some b) xs bs ∧ Some <$> bs = opt <$> xs.
Proof.
  induction 1 as [|x xs [b Hb] _ (bs & IH & E)].
  - by exists [].
  - exists (b :: bs). split; [by constructor|]. cbn. by rewrite Hb, E.
Qed.

Lemma node_options_exist button type_enum xs :
  Forall (λ nd, is_Some (NodeDraw.image_enum nd)) xs →
  ∃ bs, Forall2 (λ x b, node_option button type_enum x = Some b) xs bs
        ∧ Some <$> bs = node_option button type_enum <$> xs.
Proof.
  intros Hall. apply options_exist.
  eapply Forall_impl; [exact Hall|]. intros nd [e He]. unfold node_option.
  rewrite He. by eexists.
Qed.

(** The bodies of the loops of the three pickers. *)
Lemma node_option_run s k p y nd b :
  Toolbar_attrs.node_button (App.toolbar s) = Some k →
  Toolbar_attrs.picker (App.toolbar s) = Some p →
  Tk.pickers (App.tk s) !! p = Some y →
  node_option (Some k) NodeTypeEnum.NODE nd = Some b →
  (b ← self Toolbar_attrs.node_button;
   let func := partial_update_button b nd NodeTypeEnum.NODE in
   p ← self Toolbar_attrs.picker ≫= attr;
   PickerFrame.create_button p (NodeDraw.image_enum nd) func) s
  = (Returns (), with_option p b s).
Proof.
  intros Hn Hp Hy Hb. unfold node_option in Hb.
  destruct (NodeDraw.image_enum nd) as [e|]; [|done]. cbn in Hb.
  injection Hb as <-.
  unfold self, gets, mbind, M_bind. rewrite Hn, Hp. cbn.
  by apply (_create_button_run _ _ y).
Qed.

Lemma network_option_run s k p y nd b :
  Toolbar_attrs.network_button (App.toolbar s) = Some k →
  Toolbar_attrs.picker (App.toolbar s) = Some p →
  Tk.pickers (App.tk s) !! p = Some y →
  node_option (Some k) NodeTypeEnum.NETWORK nd = Some b →
  (b ← self Toolbar_attrs.network_button;
   let func := partial_update_button b nd NodeTypeEnum.NETWORK in
   p ← self Toolbar_attrs.picker ≫= attr;
   PickerFrame.create_button p (NodeDraw.image_enum nd) func) s
  = (Returns (), with_option p b s).
Proof.
  intros Hn Hp Hy Hb. unfold node_option in Hb.
  destruct (NodeDraw.image_enum nd) as [e|]; [|done]. cbn in Hb.
  injection Hb as <-.
  unfold self, gets, mbind, M_bind. rewrite Hn, Hp. cbn.
  by apply (_create_button_run _ _ y).
Qed.

Lemma custom_option_run s cn k p y name b :
  Toolbar_attrs.node_button (App.toolbar s) = Some k →
  Toolbar_attrs.picker (App.toolbar s) = Some p →
  Tk.pickers (App.tk s) !! p = Some y →
  cn !! name ≫= custom_option (Some k) = Some b →
  (node_draw ← getitem cn name;
   b ← self Toolbar_attrs.node_button;
   let func := partial_update_button b node_draw NodeTypeEnum.NODE in
   p ← self Toolbar_attrs.picker ≫= attr;
   PickerFrame.create_custom_button p (NodeDraw.image_file node_draw) func) s
  = (Returns (), with_option p b s).
Proof.
  intros Hn Hp Hy Hb. unfold getitem.
  destruct (cn !! name) as [nd|]; [|done]. cbn in Hb.
  unfold custom_option in Hb.
  destruct (NodeDraw.image_file nd) as [file|] eqn:Hf; [|done]. cbn in Hb.
  injection Hb as <-.
  unfold self, gets, mbind, M_bind, mret, M_ret. rewrite Hn, Hp, Hf. cbn.
  by apply (_create_button_run _ _ y).
Qed.

Lemma shape_option_run s p y x b :
  Toolbar_attrs.picker (App.toolbar s) = Some p →
  Tk.pickers (App.tk s) !! p = Some y →
  Some (shape_option x) = Some b →
  (let '(image_enum, shape_type) := x in
   let func := partial_update_annotation shape_type image_enum in
   p ← self Toolbar_attrs.picker ≫= attr;
   PickerFrame.create_button p (Some image_enum) func) s
  = (Returns (), with_option p b s).
Proof.
  intros Hp Hy [= <-]. destruct x as [e sh].
  unfold self, gets, mbind, M_bind. rewrite Hp. cbn.
  by apply (_create_button_run _ _ y).
Qed.

(** [sorted(d)] lists the keys of [d], each once. *)
Lemma elem_of_sorted (d : gmap string NodeDraw.t) name :
  name ∈ sorted d ↔ is_Some (d !! name).
Proof.
  unfold sorted. rewrite merge_sort_Permutation.
  change (map fst (map_to_list d)) with (fst <$> map_to_list d).
  rewrite list_elem_of_fmap. split.
  - intros ([k nd] & -> & Hin). apply elem_of_map_to_list in Hin. by eexists.
  - intros [nd Hnd]. exists (name, nd). split; [done|].
    by apply elem_of_map_to_list.
Qed.

Lemma length_sorted (d : gmap string NodeDraw.t) : length (sorted d) = size d.
Proof.
  unfold sorted. rewrite merge_sort_Permutation.
  by rewrite length_map, length_map_to_list.
Qed.

Lemma custom_options_exist button (d : gmap string NodeDraw.t) :
  map_Forall (λ _ nd, is_Some (NodeDraw.image_file nd)) d →
  ∃ bs, Forall2 (λ name b, d !! name ≫= custom_option button = Some b)
          (sorted d) bs
        ∧ Some <$> bs
          = (λ name, d !! name ≫= custom_option button) <$> sorted d.
Proof.
  intros Hd. apply options_exist.
  apply Forall_forall. intros name [nd Hnd]%elem_of_sorted.
  destruct (Hd name nd Hnd) as [file Hfile].
  rewrite Hnd. cbn. unfold custom_option. rewrite Hfile. by eexists.
Qed.

(** Runs a loop that fills picker [p], with [run] for its body. *)
Ltac fill_with run p H :=
  erewrite bind_returns; cycle 1;
  [ eapply (for_each_options _ _ p); [|exact H|reflexivity|];
    [ intros ? ? ? ? Ht ? ?; eapply run; [by rewrite Ht..|eassumption|done]
    | cbn; apply lookup_snoc ]
  | cbv beta; rewrite with_options_eq; cbn;
    rewrite (alter_snoc _ _); cbn ].

Ltac queue_picker :=
  unfold PickerFrame.show, the_picker, mbind, M_bind; cbn;
  rewrite lookup_snoc; cbn.

Lemma draw_node_picker_run a opts copts :
  built a →
  Forall2 (λ nd b, node_option (Some 3) NodeTypeEnum.NODE nd = Some b)
    (App.NODES a) opts →
  Forall2 (λ name b,
             App.custom_nodes a !! name ≫= custom_option (Some 3) = Some b)
    (sorted (App.custom_nodes a)) copts →
  Toolbar.draw_node_picker a = (Returns (), drawn 3 (opts ++ copts) a).
Proof.
  intros H Hopts Hcopts. explode a H. cbn in *.
  unfold Toolbar.draw_node_picker. do 7 step.
  fill_with node_option_run (length pks) Hopts.
  step.
  fill_with custom_option_run (length pks) Hcopts.
  step. queue_picker. unfold drawn. cbn.
  rewrite <- app_assoc, !length_app, seq_app. reflexivity.
Qed.

Lemma draw_network_picker_run a opts :
  built a →
  Forall2 (λ nd b, node_option (Some 4) NodeTypeEnum.NETWORK nd = Some b)
    (App.NETWORK_NODES a) opts →
  Toolbar.draw_network_picker a = (Returns (), drawn 4 opts a).
Proof.
  intros H Hopts. explode a H. cbn in *.
  unfold Toolbar.draw_network_picker. do 7 step.
  fill_with network_option_run (length pks) Hopts.
  step. queue_picker. reflexivity.
Qed.

Lemma draw_annotation_picker_run a :
  built a →
  Toolbar.draw_annotation_picker a
  = (Returns (),
     drawn 5
       (shape_option
        <$> [ (ImageEnum.MARKER, ShapeType.MARKER);
              (ImageEnum.OVAL, ShapeType.OVAL);
              (ImageEnum.RECTANGLE, ShapeType.RECTANGLE);
              (ImageEnum.TEXT, ShapeType.TEXT) ])
       a).
Proof.
  intros H. explode a H. cbn in *.
  unfold Toolbar.draw_annotation_picker. do 6 step.
  assert (Forall2 (λ x b, Some (shape_option x) = Some b)
            [ (ImageEnum.MARKER, ShapeType.MARKER);
              (ImageEnum.OVAL, ShapeType.OVAL);
              (ImageEnum.RECTANGLE, ShapeType.RECTANGLE);
              (ImageEnum.TEXT, ShapeType.TEXT) ]
            (shape_option
             <$> [ (ImageEnum.MARKER, ShapeType.MARKER);
                   (ImageEnum.OVAL, ShapeType.OVAL);
                   (ImageEnum.RECTANGLE, ShapeType.RECTANGLE);
                   (ImageEnum.TEXT, ShapeType.TEXT) ])) as Hopts
    by repeat constructor.
  fill_with shape_option_run (length pks) Hopts.
  step. queue_picker. reflexivity.
Qed.

(** X16: what the node picker offers. In a running application whose default
    nodes all have an image enum and whose custom nodes all have an image
    file, [draw_node_picker] returns normally. It selects the node toggle and
    makes one new picker, stored in [self.picker] and queued for display,
    with one option per default node, in the order of the table, followed
    by one option per custom node, in ascending order of the names. Each
    option hands [update_button] the node button, its node and the type
    [NODE]; no custom node is missed and no lookup of a name fails. *)
Theorem the_node_picker_offers_default_then_custom_nodes a :
  reachable a →
  Forall (λ nd, is_Some (NodeDraw.image_enum nd)) (App.NODES a) →
  map_Forall (λ _ nd, is_Some (NodeDraw.image_file nd)) (App.custom_nodes a) →
  ∃ a' p b,
    Toolbar.draw_node_picker a = (Returns (), a')
    ∧ p = length (Tk.pickers (App.tk a))
    ∧ Toolbar_attrs.node_button (App.toolbar a) = Some b
    ∧ Toolbar_attrs.picker (App.toolbar a') = Some p
    ∧ Tk.pickers (App.tk a')
      = Tk.pickers (App.tk a)
        ++ [Picker.mk (Some b)
              (seq (length (Tk.buttons (App.tk a)))
                 (length (App.NODES a) + size (App.custom_nodes a)))
              false false]
    ∧ Tk.after (App.tk a') = Tk.after (App.tk a) ++ [p]
    ∧ selected a' (toggles a' (Toolbar_attrs.design_frame (App.toolbar a')))
      = [b]
    ∧ Some <$> drop (length (Tk.buttons (App.tk a))) (Tk.buttons (App.tk a'))
      = (node_option (Some b) NodeTypeEnum.NODE <$> App.NODES a)
        ++ ((λ name, App.custom_nodes a !! name ≫= custom_option (Some b))
            <$> sorted (App.custom_nodes a)).
Proof.
  intros Hr Hall Hcn. destruct (invariant_reachable a Hr) as (H & _).
  destruct (node_options_exist (Some 3) NodeTypeEnum.NODE _ Hall)
    as (opts & Hopts & E).
  destruct (custom_options_exist (Some 3) _ Hcn) as (copts & Hcopts & Ec).
  assert (length opts = length (App.NODES a)) as Hlen
    by (symmetry; eapply Forall2_length, Hopts).
  assert (length copts = size (App.custom_nodes a)) as Hclen.
  { rewrite <- length_sorted. symmetry. eapply Forall2_length, Hcopts. }
  exists (drawn 3 (opts ++ copts) a), (length (Tk.pickers (App.tk a))), 3.
  split; [by apply draw_node_picker_run|].
  clear Hr Hall Hcn Hopts Hcopts. explode a H. cbn in *.
  rewrite length_app, Hlen, Hclen, drop_app_length, fmap_app, E, Ec. done.
Qed.

Lemma the_node_picker_offers_default_then_custom_nodes_witness :
  reachable customized
  ∧ Forall (λ nd, is_Some (NodeDraw.image_enum nd)) (App.NODES customized)
  ∧ map_Forall (λ _ nd, is_Some (NodeDraw.image_file nd))
      (App.custom_nodes customized)
  ∧ ∃ a', Toolbar.draw_node_picker customized = (Returns (), a')
          ∧ Tk.pickers (App.tk a')
            = [Picker.mk (Some 3) [10; 11; 12; 13] false false]
          ∧ Some <$> drop 10 (Tk.buttons (App.tk a'))
            = [ node_option (Some 3) NodeTypeEnum.NODE router;
                node_option (Some 3) NodeTypeEnum.NODE host;
                custom_option (Some 3) ant;
                custom_option (Some 3) zebra ].
Proof.
  assert (App.NODES customized = [router; host]) as En
    by (vm_compute; reflexivity).
  assert (App.custom_nodes customized
          = <["zebra" := zebra]> (<["ant" := ant]> ∅)) as Ec
    by (vm_compute; reflexivity).
  assert (Forall (λ nd, is_Some (NodeDraw.image_enum nd))
            (App.NODES customized)) as Hall
    by (rewrite En; repeat constructor; by eexists).
  assert (map_Forall (λ _ nd, is_Some (NodeDraw.image_file nd))
            (App.custom_nodes customized)) as Hcn.
  { rewrite Ec. apply map_Forall_insert_2; [by eexists|].
    apply map_Forall_insert_2; [by eexists|]. apply map_Forall_empty. }
  assert (Toolbar_attrs.node_button (App.toolbar customized) = Some 3) as Eb
    by (vm_compute; reflexivity).
  assert (Tk.pickers (App.tk customized) = []) as Ep
    by (vm_compute; reflexivity).
  assert (length (Tk.buttons (App.tk customized)) = 10) as El
    by (vm_compute; reflexivity).
  assert (size (App.custom_nodes customized) = 2) as Es
    by (vm_compute; reflexivity).
  assert ((λ name, App.custom_nodes customized !! name
                   ≫= custom_option (Some 3))
          <$> sorted (App.custom_nodes customized)
          = [custom_option (Some 3) ant; custom_option (Some 3) zebra]) as Eo
    by (vm_compute; reflexivity).
  split; [apply reach_new|]. split; [exact Hall|]. split; [exact Hcn|].
  destruct (the_node_picker_offers_default_then_custom_nodes customized
              (reach_new _ _ _ _) Hall Hcn)
    as (a' & p & b & E & _ & Hb & _ & Hp & _ & _ & Ho).
  rewrite Eb in Hb. injection Hb as <-.
  rewrite Ep, El, En, Es in Hp. rewrite El, En, Eo in Ho.
  exists a'. split; [exact E|]. split; [exact Hp|exact Ho].
Defined.

(** X17: what the network picker offers. In a running application whose
    network nodes all have an image enum, [draw_network_picker] returns
    normally, selects the network toggle and makes one new picker, stored in
    [self.picker] and queued for display, with one option per network node
    in the order of the table; each option hands [update_button] the network
    button, its node and the type [NETWORK]. *)
Theorem the_network_picker_offers_every_network_node a :
  reachable a →
  Forall (λ nd, is_Some (NodeDraw.image_enum nd)) (App.NETWORK_NODES a) →
  ∃ a' p b,
    Toolbar.draw_network_picker a = (Returns (), a')
    ∧ p = length (Tk.pickers (App.tk a))
    ∧ Toolbar_attrs.network_button (App.toolbar a) = Some b
    ∧ Toolbar_attrs.picker (App.toolbar a') = Some p
    ∧ Tk.pickers (App.tk a')
      = Tk.pickers (App.tk a)
        ++ [Picker.mk (Some b)
              (seq (length (Tk.buttons (App.tk a)))
                 (length (App.NETWORK_NODES a)))
              false false]
    ∧ Tk.after (App.tk a') = Tk.after (App.tk a) ++ [p]
    ∧ selected a' (toggles a' (Toolbar_attrs.design_frame (App.toolbar a')))
      = [b]
    ∧ Some <$> drop (length (Tk.buttons (App.tk a))) (Tk.buttons (App.tk a'))
      = node_option (Some b) NodeTypeEnum.NETWORK <$> App.NETWORK_NODES a.
Proof.
  intros Hr Hall. destruct (invariant_reachable a Hr) as (H & _).
  destruct (node_options_exist (Some 4) NodeTypeEnum.NETWORK _ Hall)
    as (opts & Hopts & E).
  assert (length opts = length (App.NETWORK_NODES a)) as Hlen
    by (symmetry; eapply Forall2_length, Hopts).
  exists (drawn 4 opts a), (length (Tk.pickers (App.tk a))), 4.
  split; [by apply draw_network_picker_run|].
  clear Hr Hall Hopts. explode a H. cbn in *.
  rewrite Hlen, drop_app_length, E. done.
Qed.

Lemma the_network_picker_offers_every_network_node_witness :
  reachable sample
  ∧ Forall (λ nd, is_Some (NodeDraw.image_enum nd)) (App.NETWORK_NODES sample)
  ∧ ∃ a', Toolbar.draw_network_picker sample = (Returns (), a')
          ∧ Toolbar_attrs.picker (App.toolbar a') = Some 0.
Proof.
  assert (App.NETWORK_NODES sample = [hub]) as En by (vm_compute; reflexivity).
  assert (Forall (λ nd, is_Some (NodeDraw.image_enum nd))
            (App.NETWORK_NODES sample))
    as Hall by (rewrite En; repeat constructor; by eexists).
  split; [apply reach_new|]. split; [exact Hall|].
  destruct (the_network_picker_offers_every_network_node sample
              (reach_new _ _ _ _) Hall)
    as (a' & p & b & E & -> & _ & Hp & _).
  exists a'. split; [exact E|exact Hp].
Defined.

(** X18: what the annotation picker offers. In a running application
    [draw_annotation_picker] returns normally, selects the annotation toggle
    and makes one new picker, stored in [self.picker] and queued for
    display, with four options in this order: marker, oval, rectangle, text.
    Each hands [update_annotation] its shape type and its image enum. *)
Theorem the_annotation_picker_offers_the_four_shapes a :
  reachable a →
  ∃ a' p b,
    Toolbar.draw_annotation_picker a = (Returns (), a')
    ∧ p = length (Tk.pickers (App.tk a))
    ∧ Toolbar_attrs.annotation_button (App.toolbar a) = Some b
    ∧ Toolbar_attrs.picker (App.toolbar a') = Some p
    ∧ Tk.pickers (App.tk a')
      = Tk.pickers (App.tk a)
        ++ [Picker.mk (Some b) (seq (length (Tk.buttons (App.tk a))) 4)
              false false]
    ∧ Tk.after (App.tk a') = Tk.after (App.tk a) ++ [p]
    ∧ selected a' (toggles a' (Toolbar_attrs.design_frame (App.toolbar a')))
      = [b]
    ∧ drop (length (Tk.buttons (App.tk a))) (Tk.buttons (App.tk a'))
      = shape_option
        <$> [ (ImageEnum.MARKER, ShapeType.MARKER);
              (ImageEnum.OVAL, ShapeType.OVAL);
              (ImageEnum.RECTANGLE, ShapeType.RECTANGLE);
              (ImageEnum.TEXT, ShapeType.TEXT) ].
Proof.
  intros Hr. destruct (invariant_reachable a Hr) as (H & _).
  eexists. exists (length (Tk.pickers (App.tk a))), 5.
  split; [by apply draw_annotation_picker_run|].
  clear Hr. explode a H. cbn in *.
  by rewrite drop_app_length.
Qed.

Lemma the_annotation_picker_offers_the_four_shapes_witness :
  reachable sample
  ∧ ∃ a', Toolbar.draw_annotation_picker sample = (Returns (), a')
          ∧ Toolbar_attrs.picker (App.toolbar a') = Some 0.
Proof.
  split; [apply reach_new|].
  destruct (the_annotation_picker_offers_the_four_shapes sample
              (reach_new _ _ _ _))
    as (a' & p & b & E & -> & _ & Hp & _).
  exists a'. split; [exact E|exact Hp].
Defined.

(** ** The life of a picker *)

Lemma run_step e es a a1 :
  enabled e a = true → handler e a = (Returns (), a1) →
  run (e :: es) a = run es a1.
Proof. intros He Hh. cbn [run]. unfold fire, exec. by rewrite He, Hh. Qed.

Lemma lookup_app_plus {A} (l1 l2 : list A) n :
  (l1 ++ l2) !! (length l1 + n) = l2 !! n.
Proof. rewrite lookup_app_r by lia. f_equal. lia. Qed.

(** A release reaches an option of the picker that holds the grab. *)
Lemma enabled_release_option a b p x :
  Tk.grab (App.tk a) = Some p →
  Tk.pickers (App.tk a) !! p = Some x →
  Picker.is_open x = true → b ∈ Picker.children x →
  enabled (Release_option b) a = true.
Proof.
  intros Hg Hp Ho Hb. cbn [enabled]. apply existsb_exists. exists p. split.
  - unfold option_of. apply filter_In. split.
    + apply in_seq. apply lookup_lt_Some in Hp. lia.
    + rewrite Hp, Ho. cbn. by apply bool_decide_eq_true.
  - apply bool_decide_eq_true. by right.
Qed.

(** Simplifies lookups and changes at the end of a list that grew. *)
Ltac snoc :=
  cbn;
  repeat (match goal with
          | |- context [@lookup _ _ _ _ (length ?l) (?l ++ [_])] =>
              rewrite (lookup_snoc l)
          | |- context [alter _ (length ?l) (?l ++ [_])] =>
              rewrite (alter_snoc _ l)
          | |- context [@lookup _ _ _ _ (length ?l1 + _) (?l1 ++ _)] =>
              rewrite (lookup_app_plus l1)
          | |- context [decide (?x = ?x)] =>
              rewrite (decide_True (P := x = x)) by done
          end; cbn).

(** Reduces the setters and getters of the state records. *)
Ltac flatten :=
  cbv beta iota delta
    [ App.set_tk App.set_toolbar App.set_canvas App.set_tasks App.set_calls
      App.tk App.toolbar App.canvas App.NODES App.NETWORK_NODES
      App.custom_nodes App.tasks App.calls App.dialogs
      Tk.set_buttons Tk.set_bars Tk.set_pickers Tk.set_stacking
      Tk.set_binding_all Tk.set_grab Tk.set_after Tk.set_waiting
      Tk.buttons Tk.bars Tk.pickers Tk.stacking Tk.binding_all Tk.grab
      Tk.after Tk.waiting
      Picker.set_children Picker.set_placed Picker.set_destroyed
      Picker.button Picker.children Picker.placed Picker.destroyed
      Button.set_image Button.set_image_attr Button.set_pressed
      Button.image Button.image_attr Button.disabled Button.pressed
      Button.command Button.release
      Toolbar_attrs.set_picker Toolbar_attrs.set_network_enum
      Toolbar_attrs.set_node_enum Toolbar_attrs.set_node_file
      Toolbar_attrs.set_annotation_enum
      Toolbar_attrs.play_button Toolbar_attrs.select_button
      Toolbar_attrs.link_button Toolbar_attrs.node_button
      Toolbar_attrs.network_button Toolbar_attrs.annotation_button
      Toolbar_attrs.runtime_select_button Toolbar_attrs.stop_button
      Toolbar_attrs.runtime_marker_button Toolbar_attrs.run_command_button
      Toolbar_attrs.design_frame Toolbar_attrs.runtime_frame
      Toolbar_attrs.picker Toolbar_attrs.marker_tool Toolbar_attrs.node_enum
      Toolbar_attrs.node_file Toolbar_attrs.network_enum
      Toolbar_attrs.annotation_enum ].

(** A click on a button whose command draws a picker, when no picker holds
    the pointer. *)
Lemma click_draws a b x c k opts :
  Tk.grab (App.tk a) = None →
  Tk.binding_all (App.tk a) = None →
  Tk.buttons (App.tk a) !! b = Some x →
  Button.command x = Some c →
  run_command c a = (Returns (), drawn k opts a) →
  handler (Click b) a = (Returns (), drawn k opts a).
Proof.
  intros Hg Hba Hx Hc Hrun.
  unfold handler, the_button, release_all, gets, mbind, M_bind.
  rewrite Hg, Hx, Hc, Hrun. unfold drawn. cbn. by rewrite Hba.
Qed.

(** From a drawn picker: the event loop shows it, a release outside closes
    it, and [_show] returns. *)
Lemma cancel_drawn k opts a :
  Tk.after (App.tk a) = [] →
  run [Idle; Release_elsewhere; Window_closed] (drawn k opts a)
  = Some
      (App.set_tk
         (Tk.set_binding_all None
            (Tk.set_grab None
               (Tk.set_after []
                  (Tk.set_pickers
                     (Tk.pickers (App.tk a)
                      ++ [Picker.mk (Some k)
                            (seq (length (Tk.buttons (App.tk a)))
                               (length opts))
                            true true])
                     (App.tk (drawn k opts a))))))
         (drawn k opts a)).
Proof.
  intros Haf.
  destruct a as [[bs brs pks stk bnd grb aft wt] t cv N NN cn ts cs dl].
  cbn in Haf. subst aft. unfold drawn. cbn -[run press unpress toggles].
  erewrite run_step; [|done|]; cycle 1.
  { unfold handler, PickerFrame._show_enter, alter_picker, the_picker,
      modify_tk, modify, gets, mbind, M_bind, mret, M_ret, raise.
    snoc. reflexivity. }
  flatten.
  erewrite run_step; [|done|]; cycle 1.
  { unfold handler, release_all, destroy, alter_picker, the_picker,
      modify_tk, modify, gets, mbind, M_bind, mret, M_ret.
    snoc. reflexivity. }
  flatten.
  erewrite run_step; cycle 1.
  { snoc. reflexivity. }
  { unfold handler, PickerFrame._show_leave, modify_tk, modify, gets, mbind,
      M_bind. cbn. reflexivity. }
  reflexivity.
Qed.

(** X20: choosing a network node, from the click to the closed picker. In a
    running application where the network button can be clicked, no picker
    holds the pointer or waits to be shown, and every network node has an
    image enum: clicking the network button, letting the event loop show the
    picker, releasing the pointer over the option of the [n]-th node and
    letting [_show] return are four events that can happen in this order.
    Afterwards the network button shows that node's icon at toolbar size,
    the canvas is in mode [NODE] with that node to draw, [network_enum] is
    the node's image enum, the network toggle is the selected one, and the
    picker is gone: no picker is open that was not open before, nothing
    holds the grab, the binding on [all] is removed, and no collaborator was
    called. *)
Theorem picking_a_network_node a b n nd e :
  reachable a →
  Toolbar_attrs.network_button (App.toolbar a) = Some b →
  enabled (Click b) a = true →
  no_picker_about a →
  Forall (λ nd, is_Some (NodeDraw.image_enum nd)) (App.NETWORK_NODES a) →
  App.NETWORK_NODES a !! n = Some nd →
  NodeDraw.image_enum nd = Some e →
  ∃ a',
    run [ Click b; Idle;
          Release_option (length (Tk.buttons (App.tk a)) + n);
          Window_closed ] a
    = Some a'
    ∧ (Button.image <$> Tk.buttons (App.tk a') !! b)
      = Some (Some (get_icon e TOOLBAR_SIZE))
    ∧ App.canvas a'
      = Canvas.set_node_draw (Some nd)
          (Canvas.set_mode GraphMode.NODE (App.canvas a))
    ∧ Toolbar_attrs.network_enum (App.toolbar a') = Some e
    ∧ selected a' (toggles a' (Toolbar_attrs.design_frame (App.toolbar a')))
      = [b]
    ∧ open_pickers a' = open_pickers a
    ∧ no_picker_about a'
    ∧ Tk.waiting (App.tk a') = Tk.waiting (App.tk a)
    ∧ App.calls a' = App.calls a
    ∧ App.tasks a' = App.tasks a.
Proof.
  intros Hr Hnb Hen (Hg & Hba & Haf) Hall Hn He.
  destruct (invariant_reachable a Hr) as (H & _).
  destruct (node_options_exist (Some 4) NodeTypeEnum.NETWORK _ Hall)
    as (opts & Hopts & E).
  destruct (Forall2_lookup_l _ _ _ _ _ Hopts Hn) as (o & Ho & Hnd).
  unfold node_option in Hnd. rewrite He in Hnd. cbn in Hnd.
  injection Hnd as <-.
  pose proof (draw_network_picker_run a opts H Hopts) as Hdraw.
  clear Hr Hall Hopts E. unfold no_picker_about.
  explode a H. cbn in Hnb, Hg, Hba, Haf, Hn. simplify_eq.
  eexists. split.
  - erewrite run_step; [|exact Hen|]; cycle 1.
    { eapply click_draws; [done|done|reflexivity|reflexivity|exact Hdraw]. }
    unfold drawn. cbn -[run].
    erewrite run_step; [|done|]; cycle 1.
    { unfold handler, PickerFrame._show_enter, alter_picker, the_picker,
        modify_tk, modify, gets, mbind, M_bind, mret, M_ret, raise.
      snoc. reflexivity. }
    flatten.
    erewrite run_step; cycle 1.
    { eapply (enabled_release_option _ _ (length pks)); snoc;
        [reflexivity..|].
      apply elem_of_seq. apply lookup_lt_Some in Ho. lia. }
    { unfold handler. unfold the_button, mbind, M_bind. snoc. rewrite Ho.
      cbn.
      unfold Toolbar.update_button, release_all, destroy, configure_image,
        assign_image, alter_button, alter_picker, the_picker, the_button,
        modify_canvas, Toolbar.setattr, modify_toolbar,
        modify_tk, modify, gets, attr, mbind, M_bind, mret, M_ret.
      snoc. rewrite He. reflexivity. }
    flatten.
    erewrite run_step; cycle 1.
    { snoc. reflexivity. }
    { unfold handler, PickerFrame._show_leave, modify_tk, modify, gets, mbind,
        M_bind. cbn. reflexivity. }
    flatten. reflexivity.
  - flatten. split; [done|]. split; [done|]. split; [done|].
    split; [vm_compute; reflexivity|]. split; [|done].
    unfold open_pickers. cbn. rewrite List.filter_app. cbn. apply app_nil_r.
Qed.

Lemma picking_a_network_node_witness :
  reachable sample
  ∧ enabled (Click 4) sample = true
  ∧ no_picker_about sample
  ∧ ∃ a', run [Click 4; Idle; Release_option 10; Window_closed] sample
          = Some a'
          ∧ Canvas.mode (App.canvas a') = GraphMode.NODE.
Proof.
  assert (enabled (Click 4) sample = true) as Hen by (vm_compute; reflexivity).
  assert (no_picker_about sample) as Hno
    by (repeat split; vm_compute; reflexivity).
  assert (App.NETWORK_NODES sample = [hub]) as En by (vm_compute; reflexivity).
  assert (length (Tk.buttons (App.tk sample)) + 0 = 10) as El
    by (vm_compute; reflexivity).
  split; [apply reach_new|]. split; [exact Hen|]. split; [exact Hno|].
  destruct (picking_a_network_node sample 4 0 hub ImageEnum.HUB
              (reach_new _ _ _ _))
    as (a' & E & _ & Hc & _);
    [vm_compute; reflexivity|exact Hen|exact Hno
    |rewrite En; repeat constructor; by eexists
    |rewrite En; reflexivity|reflexivity|].
  rewrite El in E. exists a'. split; [exact E|]. rewrite Hc. reflexivity.
Defined.

(** X21: an outside release cancels a picker and chooses nothing. In a
    running application where a picker button (node, network or annotation)
    can be clicked, no picker holds the pointer or waits to be shown, and
    every node has its picture: clicking the button, letting the event loop
    show its picker, releasing the pointer outside the picker and letting
    [_show] return are four events that can happen in this order.
    Afterwards the canvas is as it was, so is every attribute of the toolbar
    but [self.picker], and no button shows another picture; yet the clicked
    button is now the selected design toggle. The picker is gone: no picker
    is open that was not open before, nothing holds the grab, the binding on
    [all] is removed, and no collaborator was called. *)
Theorem an_outside_release_cancels_the_picker a b :
  reachable a →
  Some b ∈ picker_buttons (App.toolbar a) →
  enabled (Click b) a = true →
  no_picker_about a →
  pictures_ok a →
  ∃ a',
    run [Click b; Idle; Release_elsewhere; Window_closed] a = Some a'
    ∧ App.canvas a' = App.canvas a
    ∧ Toolbar_attrs.set_picker None (App.toolbar a')
      = Toolbar_attrs.set_picker None (App.toolbar a)
    ∧ Button.image
      <$> take (length (Tk.buttons (App.tk a))) (Tk.buttons (App.tk a'))
      = Button.image <$> Tk.buttons (App.tk a)
    ∧ selected a' (toggles a' (Toolbar_attrs.design_frame (App.toolbar a')))
      = [b]
    ∧ open_pickers a' = open_pickers a
    ∧ no_picker_about a'
    ∧ Tk.waiting (App.tk a') = Tk.waiting (App.tk a)
    ∧ App.calls a' = App.calls a
    ∧ App.tasks a' = App.tasks a.
Proof.
  intros Hr Hin Hen (Hg & Hba & Haf) (Hall & Hcn & Hnet).
  destruct (invariant_reachable a Hr) as (H & _).
  destruct (node_options_exist (Some 3) NodeTypeEnum.NODE _ Hall)
    as (opts & Hopts & _).
  destruct (custom_options_exist (Some 3) _ Hcn) as (copts & Hcopts & _).
  destruct (node_options_exist (Some 4) NodeTypeEnum.NETWORK _ Hnet)
    as (nopts & Hnopts & _).
  pose proof (draw_node_picker_run a opts copts H Hopts Hcopts) as Hnode.
  pose proof (draw_network_picker_run a nopts H Hnopts) as Hnetwork.
  pose proof (draw_annotation_picker_run a H) as Hshape.
  pose proof (cancel_drawn 3 (opts ++ copts) a Haf) as Hc3.
  pose proof (cancel_drawn 4 nopts a Haf) as Hc4.
  pose proof (cancel_drawn 5
                (shape_option
                 <$> [ (ImageEnum.MARKER, ShapeType.MARKER);
                       (ImageEnum.OVAL, ShapeType.OVAL);
                       (ImageEnum.RECTANGLE, ShapeType.RECTANGLE);
                       (ImageEnum.TEXT, ShapeType.TEXT) ]) a Haf) as Hc5.
  clear Hr Hall Hcn Hnet Hopts Hcopts Hnopts. unfold no_picker_about.
  explode a H. cbn in Hg, Hba, Haf. simplify_eq.
  unfold picker_buttons in Hin.
  cbn [App.toolbar Toolbar_attrs.node_button Toolbar_attrs.network_button
       Toolbar_attrs.annotation_button] in Hin.
  rewrite !elem_of_cons in Hin.
  destruct Hin as [Hin|[Hin|[Hin|Hin]]];
    [| | |by apply elem_of_nil in Hin]; simplify_eq.
  - eexists. split.
    + erewrite run_step; [exact Hc3|exact Hen|].
      eapply click_draws; [done|done|reflexivity|reflexivity|exact Hnode].
    + unfold drawn. cbn. rewrite take_app_length.
      split; [done|]. split; [done|]. split; [done|]. split; [done|].
      split; [|done].
      unfold open_pickers. cbn. rewrite List.filter_app. cbn. apply app_nil_r.
  - eexists. split.
    + erewrite run_step; [exact Hc4|exact Hen|].
      eapply click_draws; [done|done|reflexivity|reflexivity|exact Hnetwork].
    + unfold drawn. cbn. rewrite take_app_length.
      split; [done|]. split; [done|]. split; [done|]. split; [done|].
      split; [|done].
      unfold open_pickers. cbn. rewrite List.filter_app. cbn. apply app_nil_r.
  - eexists. split.
    + erewrite run_step; [exact Hc5|exact Hen|].
      eapply click_draws; [done|done|reflexivity|reflexivity|exact Hshape].
    + unfold drawn. cbn. rewrite take_app_length.
      split; [done|]. split; [done|]. split; [done|]. split; [done|].
      split; [|done].
      unfold open_pickers. cbn. rewrite List.filter_app. cbn. apply app_nil_r.
Qed.

Lemma an_outside_release_cancels_the_picker_witness :
  reachable sample
  ∧ Some 3 ∈ picker_buttons (App.toolbar sample)
  ∧ enabled (Click 3) sample = true
  ∧ no_picker_about sample
  ∧ pictures_ok sample
  ∧ ∃ a', run [Click 3; Idle; Release_elsewhere; Window_closed] sample
          = Some a'
          ∧ App.canvas a' = App.canvas sample.
Proof.
  assert (Some 3 ∈ picker_buttons (App.toolbar sample)) as Hin.
  { assert (picker_buttons (App.toolbar sample) = [Some 3; Some 4; Some 5])
      as -> by (vm_compute; reflexivity).
    apply list_elem_of_here. }
  assert (enabled (Click 3) sample = true) as Hen by (vm_compute; reflexivity).
  assert (no_picker_about sample) as Hno
    by (repeat split; vm_compute; reflexivity).
  assert (pictures_ok sample) as Hpic.
  { assert (App.NODES sample = [router]) as En by (vm_compute; reflexivity).
    assert (App.custom_nodes sample = ∅) as Ec by (vm_compute; reflexivity).
    assert (App.NETWORK_NODES sample = [hub]) as Enn
      by (vm_compute; reflexivity).
    unfold pictures_ok. rewrite En, Ec, Enn.
    split; [repeat constructor; by eexists|].
    split; [apply map_Forall_empty|repeat constructor; by eexists]. }
  split; [apply reach_new|]. split; [exact Hin|]. split; [exact Hen|].
  split; [exact Hno|]. split; [exact Hpic|].
  destruct (an_outside_release_cancels_the_picker sample 3
              (reach_new _ _ _ _) Hin Hen Hno Hpic)
    as (a' & E & Hc & _).
  exists a'. split; [exact E|exact Hc].
Defined.
